(** * composable_pipeline/video.py: the frame-tie engine

    A shallow embedding of [VideoFile], [FileDisplayPort], [PSVideo] and
    [HDMIVideo].  Python objects become records, attribute updates become
    record updates, calls into OpenCV and the PYNQ drivers go through an
    abstract camera model and leave an entry in a trace.  The copy loop runs
    in a thread of its own: workers are stepped one statement at a time by a
    scheduler, and the caller's thread is a resumption that yields wherever
    the Python code can block ([Lock.acquire], the polling loop of [stop]).

    What is taken for granted about the environment: [start_new_thread]
    succeeds; [newframe], [writeframe] and the channels of the VDMA do not
    raise, nor does assigning the mode of a channel or building
    [DisplayPort()]; a frame read from the source fits the buffer it is
    copied into; the four-character code of a stream decodes.  A capture
    can fail to open and a read can fail: that is what the camera model is
    for. *)

From Stdlib Require Import ZArith String Bool Lia.
From stdpp Require Import base option list.

Open Scope string_scope.
Open Scope list_scope.

(** ** Values *)

Definition Frame := list Byte.byte.
Definition BufId := nat.

(** [pynq.lib.video.VideoMode] *)
Record VideoMode := mkMode {
  width : Z; height : Z; bits_per_pixel : Z; fps : Z }.

(** The default argument [VideoMode(1280, 720, 24, 30)]. *)
Definition default_mode : VideoMode := mkMode 1280 720 24 30.

(** The [filename] argument: Python does not fix its type. *)
Inductive PyFile := FInt (n : Z) | FStr (s : string) | FOther.

Definition isinstance_int (f : PyFile) : bool :=
  match f with FInt _ => true | _ => false end.
Definition isinstance_str (f : PyFile) : bool :=
  match f with FStr _ => true | _ => false end.

Inductive Exn :=
| RuntimeError (msg : string)
| SystemError (msg : string)
| ValueError (msg : string)
| AttributeError (msg : string).

(** [None], [True] and [False] as stored in [_running], [_started], [_pause]. *)
Definition truthy (v : option bool) : bool :=
  match v with Some true => true | _ => false end.

(** ** The world outside the program *)

Inductive CapProp := CAP_PROP_FRAME_WIDTH | CAP_PROP_FRAME_HEIGHT
                   | CAP_PROP_FOURCC | CAP_PROP_FPS.

(** What lies behind [cv2.VideoCapture] and the read channel of the VDMA.
    [Dev] is the state of the devices; [cam_open] is the constructor
    [cv2.VideoCapture(file)] and also gives the truth value of the object it
    returns; [cam_read] is [read()], with [None] for [ret == False];
    [cam_fourcc] is the decoded four-character code of the stream. *)
Record Camera (Dev : Type) := mkCamera {
  cam_open : PyFile -> Dev -> Dev * bool;
  cam_set : CapProp -> Z -> Dev -> Dev;
  cam_fourcc : Dev -> string;
  cam_read : Dev -> Dev * option Frame;
  cam_release : Dev -> Dev;
  vdma_read : Dev -> Dev * Frame }.
Arguments cam_open {Dev}.
Arguments cam_set {Dev}.
Arguments cam_fourcc {Dev}.
Arguments cam_read {Dev}.
Arguments cam_release {Dev}.
Arguments vdma_read {Dev}.

(** Where a frame buffer comes from or goes to: an output object passed to
    [tie] (named by its identity), or one channel of the VDMA. *)
Inductive Port := POut (o : nat) | PWriteChannel | PReadChannel.

Inductive TieKind := K_tie | K_tievdma | K_tienovdma.

Inductive Event :=
| EvOpen (f : PyFile)
| EvSet (p : CapProp) (v : Z)
| EvRead (ok : bool)
| EvRelease
| EvNewFrame (p : Port) (b : BufId)
| EvCopy (b : BufId) (f : Frame)
| EvWriteFrame (p : Port) (b : BufId) (f : Frame)
| EvReadFrame (p : Port) (f : Frame)
| EvChanMode (p : Port) (m : VideoMode)
| EvChanStart (p : Port)
| EvChanStop (p : Port)
| EvDpNew (o : nat)
| EvDpConfigure (m : VideoMode)
| EvDpStop (o : nat)
| EvAcquire
| EvLockRelease
| EvSpawn (k : TieKind).

(** ** Threads *)

(** Local variables of the copy loops. *)
Record Locals := mkLocals { fpgaframe : option BufId; dpframe : option BufId }.

Inductive WPc :=
| WTest                 (* at [while self._running] *)
| WStmt (i : nat)       (* before statement [i] of the loop body *)
| WRelease              (* before [self._thread.release()] *)
| WDone                 (* the thread function returned *)
| WDead (e : Exn).      (* the thread died from an exception *)

Record Worker := mkWorker { w_kind : TieKind; w_pc : WPc; w_loc : Locals }.

(** ** The source object and the world

    One record holds the attributes of a [VideoFile] (or of one of its
    subclasses: [f_vdma] and [f_dp] belong to [FileDisplayPort]), the
    attributes of the [PSVideo] that owns it, the device state, the frame
    buffers, the trace and the threads.  [f_videoIn] is [None] or the truth
    value of the capture object, [f_thread] tells whether the
    [threading.Lock] is locked. *)
Record Sys (Dev : Type) := mkSys {
  f_file : PyFile;
  f_videoIn : option bool;
  f_mode : VideoMode;
  f_thread : bool;
  f_running : option bool;
  f_output : option nat;
  f_outframe : option BufId;
  f_vdma : bool;
  f_dp : option nat;
  p_started : option bool;
  p_pause : option bool;
  p_mode : VideoMode;
  p_dp : nat;
  dev : Dev;
  heap : list Frame;
  trace : list Event;
  workers : list Worker }.
Arguments mkSys {Dev}.
Arguments f_file {Dev}.
Arguments f_videoIn {Dev}.
Arguments f_mode {Dev}.
Arguments f_thread {Dev}.
Arguments f_running {Dev}.
Arguments f_output {Dev}.
Arguments f_outframe {Dev}.
Arguments f_vdma {Dev}.
Arguments f_dp {Dev}.
Arguments p_started {Dev}.
Arguments p_pause {Dev}.
Arguments p_mode {Dev}.
Arguments p_dp {Dev}.
Arguments dev {Dev}.
Arguments heap {Dev}.
Arguments trace {Dev}.
Arguments workers {Dev}.

Inductive Res (A : Type) := Ok (a : A) | Err (e : Exn).
Arguments Ok {A}.
Arguments Err {A}.

Section Engine.
Context {Dev : Type} (cam : Camera Dev).

Abbreviation Sys := (Sys Dev).

(** *** Field updates *)
Definition set_videoIn (v : option bool) (s : Sys) : Sys :=
  mkSys (f_file s) v (f_mode s) (f_thread s) (f_running s) (f_output s)
        (f_outframe s) (f_vdma s) (f_dp s) (p_started s) (p_pause s)
        (p_mode s) (p_dp s) (dev s) (heap s) (trace s) (workers s).
Definition set_thread (v : bool) (s : Sys) : Sys :=
  mkSys (f_file s) (f_videoIn s) (f_mode s) v (f_running s) (f_output s)
        (f_outframe s) (f_vdma s) (f_dp s) (p_started s) (p_pause s)
        (p_mode s) (p_dp s) (dev s) (heap s) (trace s) (workers s).
Definition set_running (v : option bool) (s : Sys) : Sys :=
  mkSys (f_file s) (f_videoIn s) (f_mode s) (f_thread s) v (f_output s)
        (f_outframe s) (f_vdma s) (f_dp s) (p_started s) (p_pause s)
        (p_mode s) (p_dp s) (dev s) (heap s) (trace s) (workers s).
Definition set_output (v : option nat) (s : Sys) : Sys :=
  mkSys (f_file s) (f_videoIn s) (f_mode s) (f_thread s) (f_running s) v
        (f_outframe s) (f_vdma s) (f_dp s) (p_started s) (p_pause s)
        (p_mode s) (p_dp s) (dev s) (heap s) (trace s) (workers s).
Definition set_outframe (v : option BufId) (s : Sys) : Sys :=
  mkSys (f_file s) (f_videoIn s) (f_mode s) (f_thread s) (f_running s)
        (f_output s) v (f_vdma s) (f_dp s) (p_started s) (p_pause s)
        (p_mode s) (p_dp s) (dev s) (heap s) (trace s) (workers s).
Definition set_dp (v : option nat) (s : Sys) : Sys :=
  mkSys (f_file s) (f_videoIn s) (f_mode s) (f_thread s) (f_running s)
        (f_output s) (f_outframe s) (f_vdma s) v (p_started s) (p_pause s)
        (p_mode s) (p_dp s) (dev s) (heap s) (trace s) (workers s).
Definition set_started (v : option bool) (s : Sys) : Sys :=
  mkSys (f_file s) (f_videoIn s) (f_mode s) (f_thread s) (f_running s)
        (f_output s) (f_outframe s) (f_vdma s) (f_dp s) v (p_pause s)
        (p_mode s) (p_dp s) (dev s) (heap s) (trace s) (workers s).
Definition set_pause (v : option bool) (s : Sys) : Sys :=
  mkSys (f_file s) (f_videoIn s) (f_mode s) (f_thread s) (f_running s)
        (f_output s) (f_outframe s) (f_vdma s) (f_dp s) (p_started s) v
        (p_mode s) (p_dp s) (dev s) (heap s) (trace s) (workers s).
Definition set_dev (v : Dev) (s : Sys) : Sys :=
  mkSys (f_file s) (f_videoIn s) (f_mode s) (f_thread s) (f_running s)
        (f_output s) (f_outframe s) (f_vdma s) (f_dp s) (p_started s)
        (p_pause s) (p_mode s) (p_dp s) v (heap s) (trace s) (workers s).
Definition set_heap (v : list Frame) (s : Sys) : Sys :=
  mkSys (f_file s) (f_videoIn s) (f_mode s) (f_thread s) (f_running s)
        (f_output s) (f_outframe s) (f_vdma s) (f_dp s) (p_started s)
        (p_pause s) (p_mode s) (p_dp s) (dev s) v (trace s) (workers s).
Definition set_workers (v : list Worker) (s : Sys) : Sys :=
  mkSys (f_file s) (f_videoIn s) (f_mode s) (f_thread s) (f_running s)
        (f_output s) (f_outframe s) (f_vdma s) (f_dp s) (p_started s)
        (p_pause s) (p_mode s) (p_dp s) (dev s) (heap s) (trace s) v.
Definition emit (e : Event) (s : Sys) : Sys :=
  mkSys (f_file s) (f_videoIn s) (f_mode s) (f_thread s) (f_running s)
        (f_output s) (f_outframe s) (f_vdma s) (f_dp s) (p_started s)
        (p_pause s) (p_mode s) (p_dp s) (dev s) (heap s) (trace s ++ [e])
        (workers s).

(** *** Straight-line code: state and exceptions *)
Definition St (A : Type) := Sys -> Sys * Res A.

Definition ret {A} (a : A) : St A := fun s => (s, Ok a).
Definition raise {A} (e : Exn) : St A := fun s => (s, Err e).
Definition bind {A B} (m : St A) (k : A -> St B) : St B :=
  fun s => match m s with
           | (s', Ok a) => k a s'
           | (s', Err e) => (s', Err e)
           end.
Definition modify (f : Sys -> Sys) : St unit := fun s => (f s, Ok tt).

Notation "x <- m ;; k" := (bind m (fun x => k))
  (at level 100, m at next level, right associativity).
Notation "m ;; k" := (bind m (fun _ => k))
  (at level 100, right associativity).

(** *** VideoFile._configure *)
Definition _configure : St unit := fun s =>
  let (d, obj) := cam_open cam (f_file s) (dev s) in
  let s := set_videoIn (Some obj) (set_dev d (emit (EvOpen (f_file s)) s)) in
  if negb obj then (s, Err (RuntimeError "OpenCV can't open"))
  else
    let setp p v s := set_dev (cam_set cam p v (dev s)) (emit (EvSet p v) s) in
    let s := setp CAP_PROP_FRAME_WIDTH (width (f_mode s)) s in
    let s := setp CAP_PROP_FRAME_HEIGHT (height (f_mode s)) s in
    let mode := cam_fourcc cam (dev s) in
    let s := if isinstance_int (f_file s)
             then if negb (String.eqb mode "MJPG")
                  then setp CAP_PROP_FOURCC 1196444237%Z s   (* 'M','J','P','G' *)
                  else s
             else s in
    (setp CAP_PROP_FPS (fps (f_mode s)) s, Ok tt).

(** [self._videoIn.read()] *)
Definition videoIn_read : St (option Frame) := fun s =>
  match f_videoIn s with
  | None => (s, Err (AttributeError "read"))
  | Some _ =>
      let (d, r) := cam_read cam (dev s) in
      (set_dev d (emit (EvRead (bool_decide (is_Some r))) s), Ok r)
  end.

(** *** VideoFile.readframe: [for _ in range(n)] *)
Fixpoint readframe_loop (n : nat) : St Frame :=
  match n with
  | O => raise (RuntimeError "OpenCV can't rewind")
  | S n' =>
      r <- videoIn_read ;;
      match r with
      | None => _configure ;; readframe_loop n'
      | Some frame => ret frame
      end
  end.

Definition readframe : St Frame := readframe_loop 5.

(** *** Frame buffers

    [newframe] hands out a buffer that nothing else refers to; [buf[:] = f]
    overwrites the whole buffer in place; [writeframe] passes the buffer
    (the reference, not a copy) to the port and the trace records what the
    buffer holds at that moment. *)
Definition newframe (p : Port) : St BufId := fun s =>
  let b := length (heap s) in
  (emit (EvNewFrame p b) (set_heap (heap s ++ [[]]) s), Ok b).

Definition copy_into (b : BufId) (f : Frame) : St unit :=
  modify (fun s => emit (EvCopy b f) (set_heap (<[b := f]> (heap s)) s)).

Definition writeframe (p : Port) (b : BufId) : St unit :=
  modify (fun s => emit (EvWriteFrame p b (default [] (heap s !! b))) s).

(** [self.vdma.readchannel.readframe()] *)
Definition readchannel_readframe : St Frame := fun s =>
  let (d, f) := vdma_read cam (dev s) in
  (emit (EvReadFrame PReadChannel f) (set_dev d s), Ok f).

(** Reading an attribute or a local that holds [None] and using it. *)
Definition deref {A} (what : string) (v : option A) : St A :=
  match v with Some a => ret a | None => raise (AttributeError what) end.

Definition the_vdma : St unit := fun s =>
  if f_vdma s then (s, Ok tt) else (s, Err (AttributeError "vdma")).

(** *** The loop bodies, statement by statement *)
Definition Stmt := Locals -> St Locals.

(** VideoFile._tie *)
Definition _tie_body : list Stmt :=
  [ (fun l => frame <- readframe ;;
              b <- (fun s => deref "_outframe" (f_outframe s) s) ;;
              copy_into b frame ;; ret l);
    (fun l => o <- (fun s => deref "_output" (f_output s) s) ;;
              b <- (fun s => deref "_outframe" (f_outframe s) s) ;;
              writeframe (POut o) b ;; ret l) ].

(** FileDisplayPort._tienovdma *)
Definition _tienovdma_body : list Stmt :=
  [ (fun l => o <- (fun s => deref "_dp" (f_dp s) s) ;;
              b <- newframe (POut o) ;;
              ret (mkLocals (fpgaframe l) (Some b)));
    (fun l => frame <- readframe ;;
              b <- deref "dpframe" (dpframe l) ;;
              copy_into b frame ;; ret l);
    (fun l => o <- (fun s => deref "_dp" (f_dp s) s) ;;
              b <- deref "dpframe" (dpframe l) ;;
              writeframe (POut o) b ;; ret l) ].

(** [try: ... except RuntimeError: raise RuntimeError("Can't start thread")] *)
Definition try_except_RuntimeError {A} (m : St A) : St A := fun s =>
  match m s with
  | (s', Err (RuntimeError _)) => (s', Err (RuntimeError "Can't start thread"))
  | r => r
  end.

(** FileDisplayPort._tievdma *)
Definition _tievdma_body : list Stmt :=
  map (fun (st : Stmt) l => try_except_RuntimeError (st l))
  [ (fun l => the_vdma ;;
              b <- newframe PWriteChannel ;;
              ret (mkLocals (Some b) (dpframe l)));
    (fun l => frame <- readframe ;;
              b <- deref "fpgaframe" (fpgaframe l) ;;
              copy_into b frame ;; ret l);
    (fun l => the_vdma ;;
              b <- deref "fpgaframe" (fpgaframe l) ;;
              writeframe PWriteChannel b ;; ret l);
    (fun l => o <- (fun s => deref "_dp" (f_dp s) s) ;;
              b <- newframe (POut o) ;;
              ret (mkLocals (fpgaframe l) (Some b)));
    (fun l => the_vdma ;;
              frame <- readchannel_readframe ;;
              b <- deref "dpframe" (dpframe l) ;;
              copy_into b frame ;; ret l);
    (fun l => o <- (fun s => deref "_dp" (f_dp s) s) ;;
              b <- deref "dpframe" (dpframe l) ;;
              writeframe (POut o) b ;; ret l) ].

Definition body_of (k : TieKind) : list Stmt :=
  match k with
  | K_tie => _tie_body
  | K_tievdma => _tievdma_body
  | K_tienovdma => _tienovdma_body
  end.

(** One pass through a loop body with no other thread in between. *)
Fixpoint run_stmts (sts : list Stmt) (l : Locals) : St Locals :=
  match sts with
  | [] => ret l
  | st :: rest => l' <- st l ;; run_stmts rest l'
  end.

Definition iteration (k : TieKind) : Locals -> St Locals := run_stmts (body_of k).

(** [self._thread.release()]: releasing an unlocked lock is an error. *)
Definition lock_release : St unit := fun s =>
  if f_thread s then (set_thread false (emit EvLockRelease s), Ok tt)
  else (s, Err (RuntimeError "release unlocked lock")).

(** One step of a copy loop:

      while self._running:
          <body>
      self._thread.release()

    An exception leaves the thread function at once: nothing after the
    loop runs. *)
Definition worker_step (w : Worker) (s : Sys) : Sys * Worker :=
  let at_pc pc := mkWorker (w_kind w) pc (w_loc w) in
  match w_pc w with
  | WTest => (s, at_pc (if truthy (f_running s) then WStmt 0 else WRelease))
  | WStmt i =>
      match body_of (w_kind w) !! i with
      | None => (s, at_pc WTest)
      | Some st =>
          match st (w_loc w) s with
          | (s', Ok l) =>
              (s', mkWorker (w_kind w)
                     (if Nat.ltb (S i) (length (body_of (w_kind w))) then WStmt (S i)
                      else WTest) l)
          | (s', Err e) => (s', at_pc (WDead e))
          end
      end
  | WRelease =>
      match lock_release s with
      | (s', Ok _) => (s', at_pc WDone)
      | (s', Err e) => (s', at_pc (WDead e))
      end
  | WDone | WDead _ => (s, w)
  end.

Definition step_worker (i : nat) (s : Sys) : Sys :=
  match workers s !! i with
  | None => s
  | Some w => let (s', w') := worker_step w s in
              set_workers (<[i := w']> (workers s')) s'
  end.

Definition alive (w : Worker) : bool :=
  match w_pc w with WDone | WDead _ => false | _ => true end.

(** *** The caller's thread

    A method either returns, raises, or is parked at a blocking call with
    the rest of the method as a continuation.  What lies between two
    blocking calls runs in one piece. *)
Inductive Outcome (A : Type) :=
| Fin (s : Sys) (a : A)
| Exc (s : Sys) (e : Exn)
| Blk (s : Sys) (c : Sys -> bool) (k : Sys -> Outcome A).
Arguments Fin {A}.
Arguments Exc {A}.
Arguments Blk {A}.

Definition Th (A : Type) := Sys -> Outcome A.

Fixpoint obind {A B} (o : Outcome A) (k : A -> Th B) : Outcome B :=
  match o with
  | Fin s a => k a s
  | Exc s e => Exc s e
  | Blk s c r => Blk s c (fun s' => obind (r s') k)
  end.

Definition tbind {A B} (m : Th A) (k : A -> Th B) : Th B :=
  fun s => obind (m s) k.

Definition lift {A} (m : St A) : Th A := fun s =>
  match m s with
  | (s', Ok a) => Fin s' a
  | (s', Err e) => Exc s' e
  end.

Definition skip : Th unit := fun s => Fin s tt.

(** Park until [c] holds. *)
Definition await (c : Sys -> bool) : Th unit :=
  fun s => Blk s c (fun s' => Fin s' tt).

Notation "m >> k" := (tbind m (fun _ => k))
  (at level 100, right associativity).

Definition state_of {A} (o : Outcome A) : Sys :=
  match o with Fin s _ | Exc s _ | Blk s _ _ => s end.

(** [self._thread.acquire()]: waits for the lock and takes it. *)
Definition lock_acquire : Th unit :=
  await (fun s => negb (f_thread s)) >>
  lift (modify (fun s => set_thread true (emit EvAcquire s))).

(** [start_new_thread(f, ())]; thread creation is taken to succeed. *)
Definition start_new_thread (k : TieKind) : St unit :=
  modify (fun s => set_workers (workers s ++ [mkWorker k WTest (mkLocals None None)])
                     (emit (EvSpawn k) s)).

(** [self._videoIn.release()] *)
Definition videoIn_release : St unit :=
  modify (fun s => set_dev (cam_release cam (dev s)) (emit EvRelease s)).

(** *** VideoFile *)
Definition VideoFile_start : Th unit := lift _configure.

Definition VideoFile_stop : Th unit := fun s =>
  if truthy (f_videoIn s) then
    (lift (modify (set_running (Some false))) >>
     await (fun s => negb (f_thread s)) >>          (* while locked: sleep *)
     lift videoIn_release >>
     lift (modify (set_videoIn None))) s
  else skip s.

Definition VideoFile_pause : Th unit := fun s =>
  if negb (truthy (f_videoIn s)) then
    Exc s (SystemError "The stream is not started")
  else if truthy (f_running s) then
    lift (modify (set_running (Some false))) s
  else skip s.

Definition VideoFile_close : Th unit := VideoFile_stop.

Definition VideoFile_tie (output : nat) : Th unit := fun s =>
  if negb (truthy (f_videoIn s)) then
    Exc s (SystemError "The stream is not started")
  else
    (lift (modify (set_output (Some output))) >>
     lift (b <- newframe (POut output) ;; modify (set_outframe (Some b))) >>
     lock_acquire >>
     lift (modify (set_running (Some true))) >>
     lift (start_new_thread K_tie)) s.

(** *** FileDisplayPort *)
Definition FileDisplayPort_start : Th unit :=
  lift _configure >>
  (fun s => if f_vdma s
            then lift (modify (fun s => emit (EvChanStart PReadChannel)
                                          (emit (EvChanStart PWriteChannel) s))) s
            else skip s).

Definition FileDisplayPort_stop : Th unit :=
  VideoFile_stop >>
  (fun s => if f_vdma s
            then lift (modify (fun s => emit (EvChanStop PReadChannel)
                                          (emit (EvChanStop PWriteChannel) s))) s
            else skip s).

Definition FileDisplayPort_tie (dp : nat) : Th unit := fun s =>
  if negb (truthy (f_videoIn s)) then
    Exc s (SystemError "The stream is not started")
  else
    (lift (modify (set_dp (Some dp))) >>
     lock_acquire >>
     lift (modify (set_running (Some true))) >>
     (fun s => let tie := if f_vdma s then K_tievdma else K_tienovdma in
               lift (start_new_thread tie) s)) s.

(** *** PSVideo *)
Definition PSVideo_start : Th unit :=
  (fun s => if negb (truthy (p_started s)) then
              (lift (modify (emit (EvDpConfigure (p_mode s)))) >>
               FileDisplayPort_start >>
               FileDisplayPort_tie (p_dp s) >>
               lift (modify (set_started (Some true)))) s
            else skip s) >>
  (fun s => if truthy (p_pause s) then
              (FileDisplayPort_tie (p_dp s) >>
               lift (modify (set_pause None))) s
            else skip s).

Definition PSVideo_stop : Th unit := fun s =>
  if truthy (p_started s) then
    (FileDisplayPort_stop >>
     lift (modify (emit (EvDpStop (p_dp s)))) >>
     lift (modify (set_started (Some false)))) s
  else skip s.

Definition PSVideo_pause : Th unit := fun s =>
  if truthy (p_started s) && negb (truthy (p_pause s)) then
    (VideoFile_pause >> lift (modify (set_pause (Some true)))) s
  else skip s.

(** *** Scheduling *)
Inductive Tid := TMain | TWorker (i : nat).

Definition sched_step {A} (o : Outcome A) (t : Tid) : Outcome A :=
  match t, o with
  | TMain, Blk s c k => if c s then k s else o
  | TMain, _ => o
  | TWorker i, Fin s a => Fin (step_worker i s) a
  | TWorker i, Exc s e => Exc (step_worker i s) e
  | TWorker i, Blk s c k => Blk (step_worker i s) c k
  end.

Definition run {A} (sched : list Tid) (o : Outcome A) : Outcome A :=
  fold_left sched_step sched o.

Definition blocked {A} (o : Outcome A) : bool :=
  match o with Blk _ _ _ => true | _ => false end.
Definition returned {A} (o : Outcome A) : bool :=
  match o with Fin _ _ => true | _ => false end.

(** The next call of the caller, made once the previous one has returned. *)
Definition then_call {A B} (o : Outcome A) (m : Th B) : Outcome B :=
  obind o (fun _ => m).

(** *** Constructors

    [new_object] is the object once its attributes are assigned: the file
    name, no capture, the mode, a new lock, no running flag. *)
Definition new_object (filename : PyFile) (mode : VideoMode) (vdma : bool)
    (d : Dev) : Sys :=
  mkSys filename None mode false None None None vdma None
        None None mode 0 d [] [] [].

(** [if self.vdma:] the mode is assigned to the write channel and to the
    read channel. *)
Definition set_channel_modes (s : Sys) : Sys :=
  if f_vdma s
  then emit (EvChanMode PReadChannel (f_mode s))
         (emit (EvChanMode PWriteChannel (f_mode s)) s)
  else s.

Definition VideoFile_init (filename : PyFile) (mode : VideoMode) (d : Dev)
    : Res Sys :=
  if negb (isinstance_str filename)
  then Err (ValueError "filename is not an string")
  else Ok (new_object filename mode false d).

Definition Webcam_init (filename : PyFile) (mode : VideoMode) (d : Dev)
    : Res Sys :=
  if negb (isinstance_int filename)
  then Err (ValueError "filename is not an integer")
  else Ok (new_object filename mode false d).

(** [super().__init__(filename=filename, mode=mode)], then [vdma] and
    [mode] are stored, the channels get the mode, and the lock and the
    running flag are assigned once more. *)
Definition FileDisplayPort_init (filename : PyFile) (mode : VideoMode)
    (vdma : bool) (d : Dev) : Res Sys :=
  match VideoFile_init filename mode d with
  | Err e => Err e
  | Ok s =>
      let s := mkSys (f_file s) (f_videoIn s) mode (f_thread s) (f_running s)
                 (f_output s) (f_outframe s) vdma (f_dp s) (p_started s)
                 (p_pause s) (p_mode s) (p_dp s) (dev s) (heap s) (trace s)
                 (workers s) in
      Ok (set_running None (set_thread false (set_channel_modes s)))
  end.

Definition WebcamDisplayPort_init (filename : PyFile) (mode : VideoMode)
    (vdma : bool) (d : Dev) : Res Sys :=
  if negb (isinstance_int filename)
  then Err (ValueError "filename is not an integer")
  else Ok (set_running None
             (set_thread false
                (set_channel_modes (new_object filename mode vdma d)))).

(** [dp] names the object that [DisplayPort()] returns. *)
Definition PSVideo_init (vdma : bool) (mode : VideoMode) (filename : PyFile)
    (dp : nat) (d : Dev) : Res Sys :=
  let source :=
    if isinstance_int filename then WebcamDisplayPort_init filename mode vdma d
    else if isinstance_str filename then FileDisplayPort_init filename mode vdma d
    else Err (ValueError "wrong type") in
  match source with
  | Err e => Err e
  | Ok s => Ok (emit (EvDpNew dp)
                  (mkSys (f_file s) (f_videoIn s) (f_mode s) (f_thread s)
                     (f_running s) (f_output s) (f_outframe s) (f_vdma s)
                     (f_dp s) None None mode dp (dev s) (heap s) (trace s)
                     (workers s)))
  end.

End Engine.

Arguments Fin {Dev A}.
Arguments Exc {Dev A}.
Arguments Blk {Dev A}.

(** ** Reading traces *)

Fixpoint countb (p : Event -> bool) (tr : list Event) : nat :=
  match tr with
  | [] => 0
  | e :: tr' => (if p e then 1 else 0) + countb p tr'
  end.

Definition is_open (e : Event) := match e with EvOpen _ => true | _ => false end.
Definition is_read (e : Event) := match e with EvRead _ => true | _ => false end.
Definition is_lock_release (e : Event) :=
  match e with EvLockRelease => true | _ => false end.
Definition is_acquire (e : Event) := match e with EvAcquire => true | _ => false end.
Definition is_spawn (e : Event) := match e with EvSpawn _ => true | _ => false end.
Definition is_dp_configure (e : Event) :=
  match e with EvDpConfigure _ => true | _ => false end.
Definition is_release (e : Event) :=
  match e with EvRelease | EvChanStop _ | EvDpStop _ => true | _ => false end.

(** The frames written to port [p], oldest first. *)
Fixpoint received (p : Port) (tr : list Event) : list Frame :=
  match tr with
  | [] => []
  | EvWriteFrame (POut o) _ f :: tr' =>
      match p with
      | POut o' => if Nat.eqb o o' then f :: received p tr' else received p tr'
      | _ => received p tr'
      end
  | _ :: tr' => received p tr'
  end.

(** Is buffer [b] written into somewhere in [tr]? *)
Definition copies_into (b : BufId) (tr : list Event) : bool :=
  existsb (fun e => match e with EvCopy b' _ => Nat.eqb b b' | _ => false end) tr.

(** Does the trace hand a buffer over with [writeframe] and write into the
    same buffer afterwards? *)
Fixpoint touched_after_write (tr : list Event) : bool :=
  match tr with
  | [] => false
  | EvWriteFrame _ b _ :: tr' => copies_into b tr' || touched_after_write tr'
  | _ :: tr' => touched_after_write tr'
  end.

(** Events that the statements of a copy loop can leave. *)
Definition stmt_event (e : Event) : bool :=
  match e with
  | EvOpen _ | EvSet _ _ | EvRead _ | EvNewFrame _ _ | EvCopy _ _
  | EvWriteFrame _ _ _ | EvReadFrame _ _ => true
  | _ => false
  end.

(** Events that a worker thread can leave: those and the final release. *)
Definition worker_event (e : Event) : bool := stmt_event e || is_lock_release e.

(** ** What the copy loops leave alone, and the lock discipline *)

(** The attributes that only the caller's thread writes. *)
Definition cfg {Dev} (s : Sys Dev) :=
  (f_file s, f_mode s, f_running s, f_output s, f_outframe s,
   (f_vdma s, f_dp s, p_started s, p_pause s, p_mode s, p_dp s)).

(** Everything but the capture handle, the devices, the buffers and the
    trace. *)
Definition ctl {Dev} (s : Sys Dev) := (cfg s, f_thread s, workers s).

(** [s'] extends the trace of [s] by events that all satisfy [p]. *)
Definition ext {Dev} (p : Event -> bool) (s s' : Sys Dev) : Prop :=
  exists evs, trace s' = trace s ++ evs /\ forallb p evs = true.

Fixpoint alive_count (ws : list Worker) : nat :=
  match ws with
  | [] => 0
  | w :: ws' => (if alive w then 1 else 0) + alive_count ws'
  end.

(** At most one copy loop is under way, and while one is, the lock is
    held. *)
Definition lock_inv {Dev} (s : Sys Dev) : Prop :=
  alive_count (workers s) <= 1 /\
  (f_thread s = false -> alive_count (workers s) = 0).

(** Any number of steps of any workers. *)
Definition wsteps {Dev} (cam : Camera Dev) (s : Sys Dev) (ix : list nat) : Sys Dev :=
  fold_left (fun s i => step_worker cam i s) ix s.

(** How the state can change while only workers run. *)
Definition evolves {Dev} (s s' : Sys Dev) : Prop :=
  cfg s' = cfg s /\
  ext worker_event s s' /\
  (f_thread s = false -> f_thread s' = false) /\
  (lock_inv s -> lock_inv s' /\ (f_thread s = false -> s' = s)).

(** What [FileDisplayPort.tie] does in one piece once it has the lock:
    [acquire] returns, the flag is set, the loop for the present
    configuration is started. *)
Definition tie_resumed {Dev} (x : Sys Dev) : Sys Dev :=
  let x1 := set_running (Some true) (set_thread true (emit EvAcquire x)) in
  let k := if f_vdma x1 then K_tievdma else K_tienovdma in
  set_workers (workers x1 ++ [mkWorker k WTest (mkLocals None None)])
    (emit (EvSpawn k) x1).

(** What [stop] does in one piece once the lock is free. *)
Definition stop_resumed {Dev} (cam : Camera Dev) (x : Sys Dev) : Sys Dev :=
  set_videoIn None (set_dev (cam_release cam (dev x)) (emit EvRelease x)).

Definition channels_stopped {Dev} (x : Sys Dev) : Sys Dev :=
  if f_vdma x
  then emit (EvChanStop PReadChannel) (emit (EvChanStop PWriteChannel) x)
  else x.

(** The condition [acquire] and the polling loop of [stop] wait for. *)
Definition lock_free {Dev} (x : Sys Dev) : bool := negb (f_thread x).

(** The state in which [PSVideo.start] of a facade that is not started
    reaches the [acquire] of its first [tie], [sc] being the state after
    [_configure]. *)
Definition start_parked {Dev} (s sc : Sys Dev) : Sys Dev :=
  set_dp (Some (p_dp s))
    (if f_vdma sc
     then emit (EvChanStart PReadChannel) (emit (EvChanStart PWriteChannel) sc)
     else sc).

(** What a run of [stop] from [s] looks like, [fin] being what the method
    does once the lock is free.  Either the caller is still polling the
    lock: the flag is clear and nothing has been released or stopped.  Or
    it has returned: then the workers took the state from [s] to some [x]
    by their own events alone, in [x] the flag is clear, the lock is free
    and no loop is under way, and the final state is [fin x], so what [fin]
    releases is released after the last event of any worker. *)
Definition waits_then_releases {Dev} (s : Sys Dev) (fin : Sys Dev -> Sys Dev)
    (o : Outcome (Dev := Dev) unit) : Prop :=
  (blocked o = true /\
   f_running (state_of o) = Some false /\
   countb is_release (trace (state_of o)) = countb is_release (trace s)) \/
  (exists x, o = Fin (fin x) tt /\
             f_running x = Some false /\ ext worker_event s x /\
             f_thread x = false /\ alive_count (workers x) = 0).

(** A piece of straight-line code that does not reconfigure the source:
    the capture handle stays and no capture is opened. *)
Definition noopen {Dev A} (m : St (Dev := Dev) A) : Prop :=
  forall s s' r, m s = (s', r) ->
    f_videoIn s' = f_videoIn s /\
    countb is_open (trace s') = countb is_open (trace s).

(** Worker steps during which the source is not reconfigured. *)
Definition calm {Dev} (s s' : Sys Dev) : Prop :=
  evolves s s' /\ f_videoIn s' = f_videoIn s /\
  countb is_open (trace s') = countb is_open (trace s).

(** The lock is held, the running flag is set and no loop has left its
    [while]: nothing can release the lock. *)
Definition no_exit {Dev} (s : Sys Dev) : Prop :=
  f_thread s = true /\ truthy (f_running s) = true /\
  Forall (fun w => w_pc w <> WRelease) (workers s).

(** A piece of straight-line code that does not look at the thread table. *)
Definition wfree {Dev A} (m : St (Dev := Dev) A) : Prop :=
  forall s ws, m (set_workers ws s) = let (s1, r) := m s in (set_workers ws s1, r).

(** Steps that neither touch the lock nor what the caller writes, and leave
    only statement events. *)
Definition quiet {Dev} (s s' : Sys Dev) : Prop :=
  f_thread s' = f_thread s /\ cfg s' = cfg s /\ ext stmt_event s s'.

(** A piece of straight-line code that only does what a loop statement may
    do: it leaves [ctl] alone and adds statement events to the trace. *)
Definition wop {Dev A} (m : St (Dev := Dev) A) : Prop :=
  forall s s' r, m s = (s', r) -> ctl s' = ctl s /\ ext stmt_event s s'.

(** ** Two cameras to run the code on *)

(** A video file: the frames it holds and the frames still ahead of the
    current capture.  Opening starts from the first frame, reading past the
    last one fails. *)
Definition file_cam : Camera (list Frame * list Frame) :=
  mkCamera _
    (fun _ d => ((fst d, fst d), true))
    (fun _ _ d => d)
    (fun _ => "avc1")
    (fun d => match snd d with
              | [] => (d, None)
              | f :: rest => ((fst d, rest), Some f)
              end)
    (fun d => d)
    (fun d => (d, [])).

(** A live camera that never fails: frame number [n] is [n] bytes long.
    The VDMA returns whatever frame the camera is at. *)
Definition live_cam : Camera nat :=
  mkCamera _
    (fun _ d => (d, true))
    (fun _ _ d => d)
    (fun _ => "MJPG")
    (fun d => (S d, Some (repeat Byte.x01 d)))
    (fun d => d)
    (fun d => (d, repeat Byte.x02 d)).

(** A source none of whose reads succeeds, and a [VideoFile] on it after
    [start(); tie(output 7)], the worker being at its first loop test. *)
Definition broken_cam : Camera unit :=
  mkCamera _
    (fun _ d => (d, true))
    (fun _ _ d => d)
    (fun _ => "avc1")
    (fun d => (d, None))
    (fun d => d)
    (fun d => (d, [])).

Definition broken_tied : Outcome (Dev := unit) unit :=
  run broken_cam [TMain]
      (then_call (VideoFile_start broken_cam
                    (new_object (FStr "video.mp4") default_mode false tt))
                 (VideoFile_tie 7)).

(** A [PSVideo] on the live camera with a VDMA, as its constructor leaves
    it, and the states it is in after [start()], after [start(); pause()]
    and after [start(); pause(); stop()], the worker having run in between. *)
Definition ps_fresh : Sys nat :=
  mkSys (FInt 0) None default_mode false None None None true None
        None None default_mode 9 0 []
        [EvChanMode PWriteChannel default_mode;
         EvChanMode PReadChannel default_mode; EvDpNew 9] [].

Definition ps_running : Outcome (Dev := nat) unit :=
  run live_cam (TMain :: repeat (TWorker 0) 9) (PSVideo_start live_cam ps_fresh).

Definition ps_paused : Outcome (Dev := nat) unit :=
  run live_cam (repeat (TWorker 0) 2) (then_call ps_running PSVideo_pause).

Definition ps_stopped : Outcome (Dev := nat) unit :=
  run live_cam (repeat (TWorker 0) 8 ++ [TMain])
      (then_call ps_paused (PSVideo_stop live_cam)).

(** The same [PSVideo] after [start()] when the worker has passed its first
    loop test and is at the head of the body of [_tievdma]. *)
Definition ps_at_body : Sys nat :=
  state_of (run live_cam [TMain; TWorker 0] (PSVideo_start live_cam ps_fresh)).

(** Its source after [FileDisplayPort.start()] alone. *)
Definition ps_configured : Sys nat :=
  state_of (FileDisplayPort_start live_cam ps_fresh).

(** [start(); pause(); start()] on the fresh [PSVideo], the old worker
    running to its end before the caller resumes and the new one running
    for [n] steps afterwards. *)
Definition ps_resumed (n : nat) : Outcome (Dev := nat) unit :=
  run live_cam (repeat (TWorker 0) 8 ++ TMain :: repeat (TWorker 1) n)
      (then_call (run live_cam [TWorker 0; TWorker 0]
                      (PSVideo_pause (state_of ps_running)))
                 (PSVideo_start live_cam)).

(** A [PSVideo] without VDMA on a video file of two frames, as its
    constructor leaves it; the same after [start()] and [n] steps of the
    loop of [_tienovdma]; and the cycle [pause(); start()] from there, the
    old loop taking [m1] steps before [start()] is called and [m2] steps
    while [start()] waits for the lock, the caller then getting its turn
    and the new loop taking [k] steps. *)
Definition psf_fresh : Sys (list Frame * list Frame) :=
  mkSys (FStr "video.mp4") None default_mode false None None None false None
        None None default_mode 9 ([[Byte.x0a]; [Byte.x0b]], []) [] [EvDpNew 9] [].

Definition psf_started (n : nat) : Outcome (Dev := list Frame * list Frame) unit :=
  run file_cam (TMain :: repeat (TWorker 0) n) (PSVideo_start file_cam psf_fresh).

Definition psf_cycle (n m1 m2 k : nat)
    : Outcome (Dev := list Frame * list Frame) unit :=
  run file_cam (repeat (TWorker 0) m2 ++ TMain :: repeat (TWorker 1) k)
      (then_call (run file_cam (repeat (TWorker 0) m1)
                      (PSVideo_pause (state_of (psf_started n))))
                 (PSVideo_start file_cam)).

(** A [VideoFile] on a file with the given frames, as its constructor
    leaves it, and after [start(); tie(output 7)] and [n] steps of the
    worker. *)
Definition vf_fresh (frames : list Frame) : Sys (list Frame * list Frame) :=
  new_object (FStr "video.mp4") default_mode false (frames, []).

Definition vf_tied (frames : list Frame) (n : nat)
    : Outcome (Dev := list Frame * list Frame) unit :=
  run file_cam (TMain :: repeat (TWorker 0) n)
      (then_call (VideoFile_start file_cam (vf_fresh frames)) (VideoFile_tie 7)).

(** ** HDMIVideo *)
Module HDMI.

Inductive VSource := OpenCV | HDMI | MIPI.

(** What a caller can pass as [source]: a member of the enumeration, or a
    string. *)
Inductive PyVal := VEnum (v : VSource) | VStr (s : string).

Definition VSource_eqb (a b : VSource) : bool :=
  match a, b with
  | OpenCV, OpenCV | HDMI, HDMI | MIPI, MIPI => true
  | _, _ => false
  end.

(** Python's [==]: a member of a plain [Enum] is equal to itself only. *)
Definition py_eq (a b : PyVal) : bool :=
  match a, b with
  | VEnum x, VEnum y => VSource_eqb x y
  | VStr x, VStr y => String.eqb x y
  | _, _ => false
  end.

(** [x in xs] *)
Definition py_in (x : PyVal) (xs : list PyVal) : bool := existsb (py_eq x) xs.

Definition VSource_name (v : VSource) : string :=
  match v with OpenCV => "OpenCV" | HDMI => "HDMI" | MIPI => "MIPI" end.

(** The parts of the overlay the class looks at. *)
Record Overlay := mkOverlay {
  device_name : string;
  tx_en_out : Z }.             (* what [ol.tx_en_out.read(0)] returns *)

Inductive SourceIn := hdmi_in | mipi.

Inductive HEvent :=
| HResetWrite                  (* ol.reset_control.channel1[0].write(1) *)
| HSleep
| HPhyInitialize
| HSetPhy (input : bool)       (* frontend.set_phy of hdmi_in / hdmi_out *)
| HSetClocks
| HTxEnWrite
| HConfigureIn (src : SourceIn) (m : option VideoMode)
| HConfigureOut
| HStartIn
| HStartOut
| HTie
| HCloseOut
| HCloseIn.

Record HDMIVideo := mkHDMIVideo {
  _source : PyVal;
  _started : option bool;
  _source_in : SourceIn;
  log : list HEvent }.

(** [VideoMode(1280, 720, 24)]: the frame rate is left at its default, 60. *)
Definition fixed_mode : VideoMode := mkMode 1280 720 24 60.

Definition init (ol : Overlay) (source : PyVal) : Res HDMIVideo :=
  let VSourceources := [VEnum HDMI; VEnum MIPI] in
  if negb (py_in source VSourceources) then
    Err (ValueError "source is not supported")
  else if negb (String.eqb (device_name ol) "Pynq-ZU")
          && negb (py_eq source (VStr "HDMI")) then
    Err (ValueError "Device only supports HDMI as input source")
  else if String.eqb (device_name ol) "Pynq-ZU" then
    let ev := [HResetWrite; HSleep; HPhyInitialize] in
    let (src_in, ev) :=
      if py_eq source (VStr "HDMI")
      then (hdmi_in, ev ++ [HSetPhy true])
      else (mipi, ev) in
    let ev := ev ++ [HSetPhy false; HSetClocks] in
    let ev := if Z.eqb (tx_en_out ol) 0 then ev ++ [HTxEnWrite] else ev in
    Ok (mkHDMIVideo source None src_in ev)
  else
    Ok (mkHDMIVideo source None hdmi_in []).

Definition start (h : HDMIVideo) : HDMIVideo :=
  if negb (truthy (_started h)) then
    let cfg := if py_eq (_source h) (VStr "HDMI")
               then HConfigureIn (_source_in h) None
               else HConfigureIn (_source_in h) (Some fixed_mode) in
    mkHDMIVideo (_source h) (Some true) (_source_in h)
      (log h ++ [cfg; HConfigureOut; HStartIn; HStartOut; HTie])
  else h.

Definition stop (h : HDMIVideo) : HDMIVideo :=
  if truthy (_started h) then
    mkHDMIVideo (_source h) (Some false) (_source_in h)
      (log h ++ [HCloseOut; HCloseIn])
  else h.

End HDMI.

(** ** Further definitions for reading runs *)

(** The [PSVideo] after [start()], one whole iteration of the loop and
    [pause()]: the worker is at its loop test and the flag is clear. *)
Definition ps_paused_at_test : Outcome (Dev := nat) unit :=
  then_call (run live_cam (TMain :: repeat (TWorker 0) 7)
                 (PSVideo_start live_cam ps_fresh))
            PSVideo_pause.

(** A [VideoFile] on a file of two frames after [start(); tie(output 7)]
    and [n] steps of the worker. *)
Definition vf2_tied (n : nat) : Outcome (Dev := list Frame * list Frame) unit :=
  vf_tied [[Byte.x0a]; [Byte.x0b]] n.

(** What [VideoFile.tie] does in one piece once it has the lock. *)
Definition vf_tie_resumed {Dev} (x : Sys Dev) : Sys Dev :=
  let x1 := set_running (Some true) (set_thread true (emit EvAcquire x)) in
  set_workers (workers x1 ++ [mkWorker K_tie WTest (mkLocals None None)])
    (emit (EvSpawn K_tie) x1).

Definition is_cap_release (e : Event) :=
  match e with EvRelease => true | _ => false end.
Definition is_chan_stop (e : Event) :=
  match e with EvChanStop _ => true | _ => false end.

(** What [PSVideo.stop] does in one piece once the lock is free, [dp] being
    the display port of the facade. *)
Definition ps_stop_resumed {Dev} (cam : Camera Dev) (dp : nat) (x : Sys Dev)
    : Sys Dev :=
  set_started (Some false)
    (emit (EvDpStop dp) (channels_stopped (stop_resumed cam x))).

Definition is_chan_start (e : Event) :=
  match e with EvChanStart _ => true | _ => false end.

(** [n] reads one after the other, all of which succeed: the frames and
    the state of the device afterwards. *)
Fixpoint reads {Dev} (cam : Camera Dev) (d : Dev) (n : nat)
    : option (list Frame * Dev) :=
  match n with
  | O => Some ([], d)
  | S n' =>
      match cam_read cam d with
      | (d1, Some f) =>
          match reads cam d1 n' with
          | Some (fs, d') => Some (f :: fs, d')
          | None => None
          end
      | (_, None) => None
      end
  end.

(** The events of [_tie] forwarding the frames [fs] through buffer [b]. *)
Fixpoint tie_rounds (o : nat) (b : BufId) (fs : list Frame) : list Event :=
  match fs with
  | [] => []
  | f :: fs' =>
      EvRead true :: EvCopy b f :: EvWriteFrame (POut o) b f :: tie_rounds o b fs'
  end.

(** The events of [_tienovdma] forwarding the frames [fs], the first of
    them through buffer [b]. *)
Fixpoint novdma_rounds (o : nat) (b : BufId) (fs : list Frame) : list Event :=
  match fs with
  | [] => []
  | f :: fs' =>
      EvNewFrame (POut o) b :: EvRead true :: EvCopy b f
      :: EvWriteFrame (POut o) b f :: novdma_rounds o (S b) fs'
  end.

(** A [FileDisplayPort] without VDMA on a file of two frames after
    [start(); tie(dp 9)]. *)
Definition fdp2_tied : Outcome (Dev := list Frame * list Frame) unit :=
  run file_cam [TMain]
      (then_call (FileDisplayPort_start file_cam
                    (new_object (FStr "video.mp4") default_mode false
                       ([[Byte.x0a]; [Byte.x0b]], [])))
                 (FileDisplayPort_tie 9)).

(** The number of statements of each loop body. *)
Definition body_len (k : TieKind) : nat :=
  match k with K_tie => 2 | K_tievdma => 6 | K_tienovdma => 3 end.

(** The locals statement [j] of a body uses have been assigned. *)
Definition locals_ok (k : TieKind) (j : nat) (l : Locals) : Prop :=
  match k, j with
  | K_tievdma, 1 | K_tievdma, 2 => fpgaframe l <> None
  | K_tievdma, 4 | K_tievdma, 5 => dpframe l <> None
  | K_tienovdma, 1 | K_tienovdma, 2 => dpframe l <> None
  | _, _ => True
  end.

(** The attributes a loop of kind [k] uses are set, as [tie] leaves them. *)
Definition attrs_ok {Dev} (s : Sys Dev) (k : TieKind) : Prop :=
  f_videoIn s <> None /\
  match k with
  | K_tie => f_output s <> None /\ f_outframe s <> None
  | K_tievdma => f_vdma s = true /\ f_dp s <> None
  | K_tienovdma => f_dp s <> None
  end.

(** A worker that has not died, somewhere in its loop. *)
Definition wf_worker {Dev} (s : Sys Dev) (w : Worker) : Prop :=
  attrs_ok s (w_kind w) /\
  match w_pc w with
  | WStmt j => j < body_len (w_kind w) /\ locals_ok (w_kind w) j (w_loc w)
  | WDead _ => False
  | _ => True
  end.

(** How many steps a worker needs to return once the flag is clear. *)
Definition dist (w : Worker) : nat :=
  match w_pc w with
  | WTest => 2
  | WStmt j => body_len (w_kind w) - j + 2
  | WRelease => 1
  | WDone | WDead _ => 0
  end.

(** The flag is clear and worker [i] is at most [n] steps from its end; the
    lock is held exactly as long as it has not returned. *)
Definition exiting {Dev} (i n : nat) (s : Sys Dev) : Prop :=
  truthy (f_running s) = false /\ lock_inv s /\
  exists w, workers s !! i = Some w /\ wf_worker s w /\ dist w <= n /\
            f_thread s = alive w.

(** How often a schedule lets worker [i] take a step. *)
Fixpoint worker_turns (i : nat) (sched : list Tid) : nat :=
  match sched with
  | [] => 0
  | TWorker j :: rest => (if Nat.eqb i j then 1 else 0) + worker_turns i rest
  | TMain :: rest => worker_turns i rest
  end.

(** ** Schedules seen from a parked caller *)

(** The turns of the workers in a schedule, in order. *)
Fixpoint workers_of (sched : list Tid) : list nat :=
  match sched with
  | [] => []
  | TMain :: rest => workers_of rest
  | TWorker i :: rest => i :: workers_of rest
  end.

(** With the caller parked on the lock in [s]: is the lock held at every
    turn that [sched] gives to the caller? *)
Fixpoint polls_locked {Dev} (cam : Camera Dev) (s : Sys Dev) (sched : list Tid)
    : bool :=
  match sched with
  | [] => true
  | TMain :: rest => f_thread s && polls_locked cam s rest
  | TWorker i :: rest => polls_locked cam (step_worker cam i s) rest
  end.

(** The state in which [VideoFile.tie] reaches [acquire]: the output is
    stored and the buffer taken. *)
Definition vf_tie_parked {Dev} (output : nat) (s : Sys Dev) : Sys Dev :=
  let s1 := set_output (Some output) s in
  let b := length (heap s1) in
  set_outframe (Some b)
    (emit (EvNewFrame (POut output) b) (set_heap (heap s1 ++ [[]]) s1)).

(** ** Reads that fail *)

Definition is_read_failed (e : Event) :=
  match e with EvRead false => true | _ => false end.

(** From [s] to [s'] the capture was opened as often as a read failed. *)
Definition open_balance {Dev} (s s' : Sys Dev) : Prop :=
  countb is_open (trace s') + countb is_read_failed (trace s)
  = countb is_open (trace s) + countb is_read_failed (trace s').

(** A piece of straight-line code that opens the capture once for every
    read that fails. *)
Definition paired {Dev A} (m : St (Dev := Dev) A) : Prop :=
  forall s s' r, m s = (s', r) -> open_balance s s'.

(** * Properties *)

(** ** Traces *)

Lemma countb_app p l1 l2 : countb p (l1 ++ l2) = countb p l1 + countb p l2.
Proof. induction l1 as [|e l1 IH]; simpl; [reflexivity | rewrite IH; lia]. Qed.

Lemma countb_none p q evs :
  (forall e, q e = true -> p e = false) ->
  forallb q evs = true -> countb p evs = 0.
Proof.
  intros Hpq. induction evs as [|e evs IH]; simpl; [reflexivity|].
  intros H. apply andb_true_iff in H as [He Hevs].
  rewrite (Hpq e He). simpl. auto.
Qed.

Lemma stmt_event_worker e : stmt_event e = true -> worker_event e = true.
Proof. unfold worker_event. intros ->. reflexivity. Qed.

Lemma forallb_impl (p q : Event -> bool) evs :
  (forall e, p e = true -> q e = true) ->
  forallb p evs = true -> forallb q evs = true.
Proof.
  intros Hpq. induction evs as [|e evs IH]; simpl; [reflexivity|].
  intros H. apply andb_true_iff in H as [He Hevs].
  rewrite (Hpq e He). simpl. auto.
Qed.

Lemma ext_refl {Dev} p (s : Sys Dev) : ext p s s.
Proof. exists []. split; [symmetry; apply app_nil_r | reflexivity]. Qed.

Lemma ext_same_trace {Dev} p (s s' : Sys Dev) : trace s' = trace s -> ext p s s'.
Proof. intros H. exists []. split; [rewrite H; symmetry; apply app_nil_r | reflexivity]. Qed.

Lemma ext_trans {Dev} p (s1 s2 s3 : Sys Dev) :
  ext p s1 s2 -> ext p s2 s3 -> ext p s1 s3.
Proof.
  intros (e1 & H1 & F1) (e2 & H2 & F2). exists (e1 ++ e2). split.
  - rewrite H2, H1. symmetry. apply app_assoc.
  - rewrite forallb_app, F1, F2. reflexivity.
Qed.

Lemma ext_impl {Dev} (p q : Event -> bool) (s s' : Sys Dev) :
  (forall e, p e = true -> q e = true) -> ext p s s' -> ext q s s'.
Proof.
  intros Hpq (evs & H & F). exists evs. split; [exact H|].
  eapply forallb_impl; eauto.
Qed.

Lemma ext_one {Dev} (p : Event -> bool) (s s' : Sys Dev) e :
  trace s' = trace s ++ [e] -> p e = true -> ext p s s'.
Proof. intros H He. exists [e]. split; [exact H|]. simpl. rewrite He. reflexivity. Qed.

Lemma ext_count {Dev} (p q : Event -> bool) (s s' : Sys Dev) :
  (forall e, q e = true -> p e = false) ->
  ext q s s' -> countb p (trace s') = countb p (trace s).
Proof.
  intros Hpq (evs & H & F). rewrite H, countb_app, (countb_none p q evs Hpq F). lia.
Qed.

(** ** Projections of [cfg] and [ctl] *)
Section Projections.
Context {Dev : Type}.
Implicit Types s : Sys Dev.

Lemma ctl_cfg s s' : ctl s' = ctl s -> cfg s' = cfg s.
Proof. unfold ctl. congruence. Qed.
Lemma ctl_thread s s' : ctl s' = ctl s -> f_thread s' = f_thread s.
Proof. unfold ctl. congruence. Qed.
Lemma ctl_workers s s' : ctl s' = ctl s -> workers s' = workers s.
Proof. unfold ctl. congruence. Qed.
Lemma cfg_running s s' : cfg s' = cfg s -> f_running s' = f_running s.
Proof. unfold cfg. congruence. Qed.
Lemma cfg_output s s' : cfg s' = cfg s -> f_output s' = f_output s.
Proof. unfold cfg. congruence. Qed.
Lemma cfg_outframe s s' : cfg s' = cfg s -> f_outframe s' = f_outframe s.
Proof. unfold cfg. congruence. Qed.
Lemma cfg_vdma s s' : cfg s' = cfg s -> f_vdma s' = f_vdma s.
Proof. unfold cfg. congruence. Qed.
Lemma cfg_dp s s' : cfg s' = cfg s -> f_dp s' = f_dp s.
Proof. unfold cfg. congruence. Qed.
Lemma cfg_started s s' : cfg s' = cfg s -> p_started s' = p_started s.
Proof. unfold cfg. congruence. Qed.
Lemma cfg_pause s s' : cfg s' = cfg s -> p_pause s' = p_pause s.
Proof. unfold cfg. congruence. Qed.
Lemma cfg_p_dp s s' : cfg s' = cfg s -> p_dp s' = p_dp s.
Proof. unfold cfg. congruence. Qed.
Lemma cfg_p_mode s s' : cfg s' = cfg s -> p_mode s' = p_mode s.
Proof. unfold cfg. congruence. Qed.

End Projections.

(** ** Straight-line code of the loops *)
Section Statements.
Context {Dev : Type} (cam : Camera Dev).

Lemma wop_ret {A} (a : A) : wop (Dev := Dev) (ret a).
Proof. intros s s' r [= <- _]. split; [reflexivity | apply ext_refl]. Qed.

Lemma wop_raise {A} e : wop (Dev := Dev) (A := A) (raise e).
Proof. intros s s' r [= <- _]. split; [reflexivity | apply ext_refl]. Qed.

Lemma wop_bind {A B} (m : St A) (k : A -> St (Dev := Dev) B) :
  wop m -> (forall a, wop (k a)) -> wop (bind m k).
Proof.
  intros Hm Hk s s' r. unfold bind. destruct (m s) as [s1 [a|e]] eqn:E; intros H.
  - destruct (Hm _ _ _ E) as [C1 X1]. destruct (Hk a _ _ _ H) as [C2 X2].
    split; [congruence | eapply ext_trans; eauto].
  - injection H as <- _. exact (Hm _ _ _ E).
Qed.

Lemma wop_deref {A} what (g : Sys Dev -> option A) :
  wop (fun s => deref what (g s) s).
Proof.
  intros s s' r. destruct (g s); simpl; intros [= <- _];
    (split; [reflexivity | apply ext_refl]).
Qed.

Lemma wop_deref_local {A} what (v : option A) : wop (Dev := Dev) (deref what v).
Proof. apply (wop_deref what (fun _ => v)). Qed.

Lemma wop_the_vdma : wop (Dev := Dev) the_vdma.
Proof.
  intros s s' r. unfold the_vdma. destruct (f_vdma s); intros [= <- _];
    (split; [reflexivity | apply ext_refl]).
Qed.

Lemma wop_newframe p : wop (Dev := Dev) (newframe p).
Proof.
  intros s s' r [= <- _]. split; [reflexivity|].
  eapply ext_one; reflexivity.
Qed.

Lemma wop_copy_into b f : wop (Dev := Dev) (copy_into b f).
Proof.
  intros s s' r [= <- _]. split; [reflexivity|].
  eapply ext_one; reflexivity.
Qed.

Lemma wop_writeframe p b : wop (Dev := Dev) (writeframe p b).
Proof.
  intros s s' r [= <- _]. split; [reflexivity|].
  eapply ext_one; reflexivity.
Qed.

Lemma wop_readchannel_readframe : wop (readchannel_readframe cam).
Proof.
  intros s s' r. unfold readchannel_readframe.
  destruct (vdma_read cam (dev s)) as [d f]. intros [= <- _].
  split; [reflexivity|]. eapply ext_one; reflexivity.
Qed.

Lemma wop_videoIn_read : wop (videoIn_read cam).
Proof.
  intros s s' r. unfold videoIn_read. destruct (f_videoIn s).
  - destruct (cam_read cam (dev s)) as [d f]. intros [= <- _].
    split; [reflexivity|]. eapply ext_one; reflexivity.
  - intros [= <- _]. split; [reflexivity | apply ext_refl].
Qed.

Lemma wop__configure : wop (_configure cam).
Proof.
  intros s s' r. unfold _configure.
  destruct (cam_open cam (f_file s) (dev s)) as [d obj].
  destruct obj; simpl.
  - destruct (isinstance_int (f_file s)); [destruct (negb _)|];
      intros [= <- _]; (split; [reflexivity|]);
      (eexists; split;
       [simpl; rewrite <- ?app_assoc; simpl; reflexivity | reflexivity]).
  - intros [= <- _]. split; [reflexivity|]. eapply ext_one; reflexivity.
Qed.

Lemma wop_readframe_loop n : wop (readframe_loop cam n).
Proof.
  induction n as [|n IH]; simpl.
  - apply wop_raise.
  - apply wop_bind; [apply wop_videoIn_read|].
    intros [f|]; [apply wop_ret|].
    apply wop_bind; [apply wop__configure | intros _; exact IH].
Qed.

Lemma wop_readframe : wop (readframe cam).
Proof. apply wop_readframe_loop. Qed.

Lemma wop_try_except {A} (m : St A) :
  wop m -> wop (Dev := Dev) (try_except_RuntimeError m).
Proof.
  intros Hm s s' r. unfold try_except_RuntimeError.
  destruct (m s) as [s1 [a|[]]] eqn:E; intros [= <- _]; exact (Hm _ _ _ E).
Qed.

Create HintDb wop.

#[local] Hint Resolve wop_ret wop_raise wop_deref wop_deref_local wop_the_vdma
  wop_newframe wop_copy_into wop_writeframe wop_readchannel_readframe
  wop_readframe wop_try_except : wop.

Ltac wop_auto :=
  repeat first
    [ solve [auto with wop]
    | apply wop_deref
    | apply wop_try_except
    | apply wop_bind; [|intros ?] ].

(** Every statement of every loop body is such a piece of code. *)
Lemma wop_body k i (st : Stmt) l :
  body_of cam k !! i = Some st -> wop (st l).
Proof.
  destruct k; simpl; intros H.
  - destruct i as [|[|[|]]]; simpl in H; try discriminate;
      injection H as <-; wop_auto.
  - destruct i as [|[|[|[|[|[|[|]]]]]]]; simpl in H; try discriminate;
      injection H as <-; wop_auto.
  - destruct i as [|[|[|[|]]]]; simpl in H; try discriminate;
      injection H as <-; wop_auto.
Qed.

End Statements.

(** ** Steps of the workers *)

Lemma alive_count_app ws1 ws2 :
  alive_count (ws1 ++ ws2) = alive_count ws1 + alive_count ws2.
Proof. induction ws1 as [|w ws1 IH]; simpl; [reflexivity | rewrite IH; lia]. Qed.

Lemma alive_count_insert ws i (w w' : Worker) :
  ws !! i = Some w ->
  alive_count (<[i := w']> ws) + (if alive w then 1 else 0)
  = alive_count ws + (if alive w' then 1 else 0).
Proof.
  revert i. induction ws as [|x ws IH]; intros [|i]; simpl; try discriminate.
  - intros [= ->]. lia.
  - intros H. specialize (IH _ H). lia.
Qed.

Lemma alive_count_zero ws i (w : Worker) :
  alive_count ws = 0 -> ws !! i = Some w -> alive w = false.
Proof.
  revert i. induction ws as [|x ws IH]; intros [|i]; simpl; try discriminate.
  - intros H [= ->]. destruct (alive w); [lia | reflexivity].
  - intros H. apply IH. lia.
Qed.

Section Workers.
Context {Dev : Type} (cam : Camera Dev).

Lemma worker_step_spec (w w' : Worker) (s s' : Sys Dev) :
  worker_step cam w s = (s', w') ->
  w_kind w' = w_kind w /\
  match w_pc w with
  | WTest => s' = s /\ w_pc w' = (if truthy (f_running s) then WStmt 0 else WRelease)
  | WStmt _ => ctl s' = ctl s /\ ext stmt_event s s' /\
               w_pc w' <> WRelease /\ w_pc w' <> WDone
  | WRelease =>
      if f_thread s
      then s' = set_thread false (emit EvLockRelease s) /\ w_pc w' = WDone
      else s' = s /\ alive w' = false
  | WDone | WDead _ => s' = s /\ w' = w
  end.
Proof.
  unfold worker_step. destruct (w_pc w) as [|i| | |e] eqn:Epc.
  - intros [= <- <-]. simpl. auto.
  - destruct (body_of cam (w_kind w) !! i) as [st|] eqn:Est.
    + destruct (st (w_loc w) s) as [s1 [l|e]] eqn:E; intros [= <- <-]; simpl;
        destruct (wop_body cam _ _ _ _ Est _ _ _ E) as [C X];
        (split; [reflexivity|]); (split; [exact C|]); (split; [exact X|]).
      * destruct (Nat.ltb _ _); split; discriminate.
      * split; discriminate.
    + intros [= <- <-]. simpl. split; [reflexivity|].
      split; [reflexivity|]. split; [apply ext_refl|]. split; discriminate.
  - unfold lock_release. destruct (f_thread s); intros [= <- <-]; simpl; auto.
  - intros [= <- <-]. auto.
  - intros [= <- <-]. auto.
Qed.

Lemma evolves_refl (s : Sys Dev) : evolves s s.
Proof.
  split; [reflexivity|]. split; [apply ext_refl|]. split; [auto|].
  intros H. split; [exact H | reflexivity].
Qed.

Lemma evolves_trans (s1 s2 s3 : Sys Dev) :
  evolves s1 s2 -> evolves s2 s3 -> evolves s1 s3.
Proof.
  intros (C1 & X1 & T1 & I1) (C2 & X2 & T2 & I2).
  split; [congruence|]. split; [eapply ext_trans; eauto|]. split; [auto|].
  intros H. destruct (I1 H) as [L1 E1]. destruct (I2 L1) as [L2 E2].
  split; [exact L2|]. intros Hf. rewrite E2, E1; auto.
Qed.

Lemma set_workers_same (s : Sys Dev) : set_workers (workers s) s = s.
Proof. destruct s; reflexivity. Qed.

Lemma evolves_intro (s s' : Sys Dev) :
  cfg s' = cfg s ->
  ext worker_event s s' ->
  (f_thread s = false -> f_thread s' = false) ->
  alive_count (workers s') <= alive_count (workers s) ->
  (f_thread s = true -> f_thread s' = false -> lock_inv s ->
   alive_count (workers s') = 0) ->
  (f_thread s = false -> lock_inv s -> s' = s) ->
  evolves s s'.
Proof.
  intros C X T Hle Hrel Hid.
  split; [exact C|]. split; [exact X|]. split; [exact T|].
  intros L. split; [|intros Hf; apply Hid; assumption].
  pose proof L as [H1 H0].
  split; [lia|]. intros Hf'. destruct (f_thread s) eqn:Eth.
  - apply Hrel; [reflexivity | exact Hf' | exact L].
  - specialize (H0 eq_refl). lia.
Qed.

Lemma step_worker_evolves i (s : Sys Dev) : evolves s (step_worker cam i s).
Proof.
  unfold step_worker. destruct (workers s !! i) as [w|] eqn:Ew; [|apply evolves_refl].
  destruct (worker_step cam w s) as [s1 w'] eqn:E.
  destruct (worker_step_spec _ _ _ _ E) as [_ H].
  pose proof (alive_count_insert _ _ _ w' Ew) as Hc.
  assert (Hdead : alive w = true -> f_thread s = false -> lock_inv s -> False).
  { intros Hal Hf [_ Hz]. specialize (Hz Hf).
    rewrite (alive_count_zero _ _ _ Hz Ew) in Hal. discriminate. }
  destruct (w_pc w) eqn:Epc.
  - (* the loop test *)
    destruct H as [-> Hpc].
    assert (Hal : alive w = true) by (unfold alive; rewrite Epc; reflexivity).
    assert (Hal' : alive w' = true)
      by (unfold alive; rewrite Hpc; destruct (truthy _); reflexivity).
    rewrite Hal, Hal' in Hc.
    apply evolves_intro; simpl; auto; try lia;
      try (apply ext_same_trace; reflexivity);
      try (intros; congruence); intros; exfalso; auto.
  - (* a statement of the body *)
    destruct H as (C & X & _).
    pose proof (ctl_cfg _ _ C) as Hcfg.
    pose proof (ctl_thread _ _ C) as Hth.
    pose proof (ctl_workers _ _ C) as Hws.
    assert (Hal : alive w = true) by (unfold alive; rewrite Epc; reflexivity).
    rewrite Hal in Hc. rewrite Hws.
    apply evolves_intro; simpl; auto;
      try (eapply ext_impl; [apply stmt_event_worker | exact X]);
      try (destruct (alive w'); lia);
      try (intros; congruence); intros; exfalso; auto.
  - (* the release after the loop *)
    assert (Hal : alive w = true) by (unfold alive; rewrite Epc; reflexivity).
    rewrite Hal in Hc.
    destruct (f_thread s) eqn:Eth.
    + destruct H as [-> Hpc].
      assert (Hal' : alive w' = false) by (unfold alive; rewrite Hpc; reflexivity).
      rewrite Hal' in Hc. simpl in Hc.
      apply evolves_intro; simpl; auto; try discriminate; try lia;
        try (eapply ext_one; reflexivity).
      * intros _ _ [H1 _]. lia.
      * intros; congruence.
    + destruct H as [-> Hal']. rewrite Hal' in Hc.
      apply evolves_intro; simpl; auto; try lia;
        try (apply ext_same_trace; reflexivity);
        try (intros; congruence); intros; exfalso; auto.
  - destruct H as [-> ->]. rewrite (list_insert_id _ _ _ Ew), set_workers_same.
    apply evolves_refl.
  - destruct H as [-> ->]. rewrite (list_insert_id _ _ _ Ew), set_workers_same.
    apply evolves_refl.
Qed.

Lemma wsteps_evolves ix (s : Sys Dev) : evolves s (wsteps cam s ix).
Proof.
  revert s. induction ix as [|i ix IH]; intros s; simpl.
  - apply evolves_refl.
  - eapply evolves_trans; [apply step_worker_evolves | apply IH].
Qed.

End Workers.

(** ** Runs under a scheduler *)
Section Runs.
Context {Dev : Type} (cam : Camera Dev).

Lemma run_Fin {A} sched (s : Sys Dev) (a : A) :
  exists ix, run cam sched (Fin s a) = Fin (wsteps cam s ix) a.
Proof.
  revert s. induction sched as [|t sched IH]; intros s.
  - exists []. reflexivity.
  - destruct t as [|i]; simpl.
    + apply IH.
    + destruct (IH (step_worker cam i s)) as [ix H]. exists (i :: ix). exact H.
Qed.

Lemma run_Exc {A} sched (s : Sys Dev) e :
  exists ix, run cam sched (Exc (A := A) s e) = Exc (wsteps cam s ix) e.
Proof.
  revert s. induction sched as [|t sched IH]; intros s.
  - exists []. reflexivity.
  - destruct t as [|i]; simpl.
    + apply IH.
    + destruct (IH (step_worker cam i s)) as [ix H]. exists (i :: ix). exact H.
Qed.

(** A parked caller stays parked while workers run, or is resumed in a state
    the workers have led to and in which its condition holds. *)
Lemma run_Blk {A} sched (s : Sys Dev) c (k : Sys Dev -> Outcome A) :
  (exists ix, run cam sched (Blk s c k) = Blk (wsteps cam s ix) c k) \/
  (exists ix sched', c (wsteps cam s ix) = true /\
     run cam sched (Blk s c k) = run cam sched' (k (wsteps cam s ix))).
Proof.
  revert s. induction sched as [|t sched IH]; intros s.
  - left. exists []. reflexivity.
  - destruct t as [|i]; simpl.
    + destruct (c s) eqn:Ec.
      * right. exists [], sched. split; [exact Ec | reflexivity].
      * apply IH.
    + destruct (IH (step_worker cam i s)) as [[ix H]|(ix & sched' & Hc & H)].
      * left. exists (i :: ix). exact H.
      * right. exists (i :: ix), sched'. split; [exact Hc | exact H].
Qed.

End Runs.

(** ** HDMIVideo: the source is compared with a string *)

(** C10.  A member of [VSource] never compares equal to a string.  So on a
    device that is not the Pynq-ZU the constructor raises [ValueError] for
    every source, [VSource.HDMI] included; and on the Pynq-ZU the input is
    taken from [ol.mipi] and [start], whenever it configures, configures it
    with [VideoMode(1280, 720, 24)], also for [VSource.HDMI]. *)
Theorem hdmi_source_never_equals_string :
  (forall v str, HDMI.py_eq (HDMI.VEnum v) (HDMI.VStr str) = false) /\
  (forall ol source,
      HDMI.device_name ol <> "Pynq-ZU" ->
      exists msg, HDMI.init ol source = Err (ValueError msg)) /\
  (forall ol source h,
      HDMI.device_name ol = "Pynq-ZU" ->
      HDMI.init ol source = Ok h ->
      HDMI._source_in h = HDMI.mipi /\
      forall h', HDMI._source h' = HDMI._source h ->
                 truthy (HDMI._started h') = false ->
                 HDMI.log (HDMI.start h')
                 = HDMI.log h' ++
                   [HDMI.HConfigureIn (HDMI._source_in h') (Some HDMI.fixed_mode);
                    HDMI.HConfigureOut; HDMI.HStartIn; HDMI.HStartOut; HDMI.HTie]).
Proof.
  split; [reflexivity|]. split.
  - intros ol source Hname. unfold HDMI.init.
    apply String.eqb_neq in Hname. rewrite Hname.
    destruct source as [[]|str]; simpl; eauto.
  - intros ol source h Hname. unfold HDMI.init.
    apply String.eqb_eq in Hname. rewrite Hname.
    destruct source as [[]|str]; simpl; try discriminate;
      destruct (Z.eqb _ _); intros [= <-]; simpl; (split; [reflexivity|]);
      intros h' Hsrc Hst; unfold HDMI.start; rewrite Hst, Hsrc; reflexivity.
Qed.

Lemma hdmi_source_never_equals_string_witness :
  (exists msg, HDMI.init (HDMI.mkOverlay "Pynq-Z2" 0) (HDMI.VEnum HDMI.HDMI)
               = Err (ValueError msg)) /\
  (exists h, HDMI.init (HDMI.mkOverlay "Pynq-ZU" 0) (HDMI.VEnum HDMI.HDMI) = Ok h /\
             HDMI._source_in h = HDMI.mipi /\
             HDMI.log (HDMI.start h)
             = HDMI.log h ++
               [HDMI.HConfigureIn HDMI.mipi (Some HDMI.fixed_mode);
                HDMI.HConfigureOut; HDMI.HStartIn; HDMI.HStartOut; HDMI.HTie]).
Proof.
  split.
  - apply (proj1 (proj2 hdmi_source_never_equals_string)
             (HDMI.mkOverlay "Pynq-Z2" 0) (HDMI.VEnum HDMI.HDMI)).
    simpl. discriminate.
  - eexists. split; [reflexivity|].
    destruct (proj2 (proj2 hdmi_source_never_equals_string)
                (HDMI.mkOverlay "Pynq-ZU" 0) (HDMI.VEnum HDMI.HDMI) _
                eq_refl eq_refl) as [H1 H2].
    split; [exact H1 | apply (H2 _ eq_refl eq_refl)].
Defined.

(** ** Transitions that change nothing *)
Section ConfigureCounts.
Context {Dev : Type} (cam : Camera Dev).

(** [_configure] opens the capture, once, and reads nothing. *)
Lemma _configure_counts (s : Sys Dev) :
  countb is_open (trace (fst (_configure cam s))) = S (countb is_open (trace s)) /\
  countb is_read_failed (trace (fst (_configure cam s)))
  = countb is_read_failed (trace s).
Proof.
  unfold _configure. destruct (cam_open cam (f_file s) (dev s)) as [d obj].
  destruct obj; cbn.
  - destruct (isinstance_int (f_file s)); [destruct (negb _)|]; cbn;
      rewrite !countb_app; cbn; lia.
  - rewrite !countb_app; cbn; lia.
Qed.

Lemma VideoFile_start_opens (s : Sys Dev) :
  countb is_open (trace (state_of (VideoFile_start cam s)))
  = S (countb is_open (trace s)).
Proof.
  unfold VideoFile_start, lift.
  pose proof (proj1 (_configure_counts s)) as H.
  destruct (_configure cam s) as [s' [[]|e]]; exact H.
Qed.

Lemma FileDisplayPort_start_opens (s : Sys Dev) :
  countb is_open (trace (state_of (FileDisplayPort_start cam s)))
  = S (countb is_open (trace s)).
Proof.
  unfold FileDisplayPort_start, tbind, lift.
  pose proof (proj1 (_configure_counts s)) as H.
  destruct (_configure cam s) as [s' [[]|e]]; cbn in H |- *; [|exact H].
  destruct (f_vdma s'); cbn; [|exact H].
  rewrite !countb_app. cbn. lia.
Qed.

End ConfigureCounts.

(** C6, as the code has it.  [start] on a started facade ([HDMIVideo], and
    [PSVideo] that is not paused), [pause] on a paused one ([PSVideo], and
    [VideoFile] whose running flag is already clear) and [stop] on one that
    is not started ([PSVideo], [HDMIVideo], [VideoFile]) return at once and
    leave every attribute, the devices and the trace as they were.  The
    sources themselves have no guard in [start]: every call of
    [VideoFile.start] and of [FileDisplayPort.start] opens the capture
    again, whatever state the source is in; and [FileDisplayPort.stop] on a
    source that is not started still stops the two channels of the VDMA. *)
Theorem repeated_transition_is_noop {Dev} (cam : Camera Dev) :
  (forall h, truthy (HDMI._started h) = true -> HDMI.start h = h) /\
  (forall s : Sys Dev, truthy (p_started s) = true -> truthy (p_pause s) = false ->
      PSVideo_start cam s = Fin s tt) /\
  (forall s : Sys Dev, truthy (p_started s) = true -> truthy (p_pause s) = true ->
      PSVideo_pause s = Fin s tt) /\
  (forall s : Sys Dev, truthy (f_videoIn s) = true -> truthy (f_running s) = false ->
      VideoFile_pause s = Fin s tt) /\
  (forall s : Sys Dev, truthy (p_started s) = false -> PSVideo_stop cam s = Fin s tt) /\
  (forall s : Sys Dev, truthy (f_videoIn s) = false -> VideoFile_stop cam s = Fin s tt) /\
  (forall h, truthy (HDMI._started h) = false -> HDMI.stop h = h) /\
  (forall s : Sys Dev,
      countb is_open (trace (state_of (VideoFile_start cam s)))
      = S (countb is_open (trace s)) /\
      countb is_open (trace (state_of (FileDisplayPort_start cam s)))
      = S (countb is_open (trace s))) /\
  (forall s : Sys Dev, truthy (f_videoIn s) = false -> f_vdma s = true ->
      FileDisplayPort_stop cam s
      = Fin (emit (EvChanStop PReadChannel) (emit (EvChanStop PWriteChannel) s)) tt).
Proof.
  repeat split.
  - intros h H. unfold HDMI.start. rewrite H. reflexivity.
  - intros s H1 H2. unfold PSVideo_start, tbind. rewrite H1. simpl.
    rewrite H2. reflexivity.
  - intros s H1 H2. unfold PSVideo_pause. rewrite H1, H2. reflexivity.
  - intros s H1 H2. unfold VideoFile_pause. rewrite H1, H2. reflexivity.
  - intros s H. unfold PSVideo_stop. rewrite H. reflexivity.
  - intros s H. unfold VideoFile_stop. rewrite H. reflexivity.
  - intros h H. unfold HDMI.stop. rewrite H. reflexivity.
  - apply VideoFile_start_opens.
  - apply FileDisplayPort_start_opens.
  - intros s H1 H2. unfold FileDisplayPort_stop, tbind, VideoFile_stop.
    rewrite H1. cbn. rewrite H2. reflexivity.
Qed.

Lemma repeated_transition_is_noop_witness :
  HDMI.start (HDMI.mkHDMIVideo (HDMI.VEnum HDMI.HDMI) (Some true) HDMI.hdmi_in [])
  = HDMI.mkHDMIVideo (HDMI.VEnum HDMI.HDMI) (Some true) HDMI.hdmi_in [] /\
  PSVideo_start live_cam (state_of ps_running) = Fin (state_of ps_running) tt /\
  PSVideo_pause (state_of ps_paused) = Fin (state_of ps_paused) tt /\
  VideoFile_pause (state_of ps_paused) = Fin (state_of ps_paused) tt /\
  PSVideo_stop live_cam ps_fresh = Fin ps_fresh tt /\
  PSVideo_stop live_cam (state_of ps_stopped) = Fin (state_of ps_stopped) tt /\
  VideoFile_stop live_cam (state_of ps_stopped) = Fin (state_of ps_stopped) tt /\
  HDMI.stop (HDMI.mkHDMIVideo (HDMI.VEnum HDMI.HDMI) None HDMI.hdmi_in [])
  = HDMI.mkHDMIVideo (HDMI.VEnum HDMI.HDMI) None HDMI.hdmi_in [] /\
  countb is_open (trace (state_of (FileDisplayPort_start live_cam (state_of ps_running))))
  = S (countb is_open (trace (state_of ps_running))) /\
  FileDisplayPort_stop live_cam (state_of ps_stopped)
  = Fin (emit (EvChanStop PReadChannel)
           (emit (EvChanStop PWriteChannel) (state_of ps_stopped))) tt.
Proof.
  destruct (repeated_transition_is_noop live_cam)
    as (H1 & H2 & H3 & H4 & H5 & H6 & H7 & H8 & H9).
  split; [apply H1; reflexivity|].
  split; [apply H2; vm_compute; reflexivity|].
  split; [apply H3; vm_compute; reflexivity|].
  split; [apply H4; vm_compute; reflexivity|].
  split; [apply H5; reflexivity|].
  split; [apply H5; vm_compute; reflexivity|].
  split; [apply H6; vm_compute; reflexivity|].
  split; [apply H7; reflexivity|].
  split; [apply (H8 (state_of ps_running))|].
  apply H9; vm_compute; reflexivity.
Defined.

(** C6 as stated fails below the facade.  [start()] on the source of a
    running [PSVideo] is no no-op: the capture is opened a second time and
    the channels of the VDMA are started a second time.  [stop()] on the
    source of a [PSVideo] that was never started, and on one that was
    stopped, stops the two channels of the VDMA. *)
Lemma unguarded_start_and_stop_act_again :
  let s := state_of ps_running in
  let s' := state_of (FileDisplayPort_start live_cam s) in
  returned ps_running = true /\ truthy (p_started s) = true /\
  returned (FileDisplayPort_start live_cam s) = true /\
  countb is_open (trace s) = 1 /\ countb is_open (trace s') = 2 /\
  countb is_chan_start (trace s) = 2 /\ countb is_chan_start (trace s') = 4 /\
  countb is_open (trace (state_of (VideoFile_start live_cam s))) = 2 /\
  trace (state_of (FileDisplayPort_stop live_cam ps_fresh))
  = trace ps_fresh ++ [EvChanStop PWriteChannel; EvChanStop PReadChannel] /\
  returned ps_stopped = true /\
  trace (state_of (FileDisplayPort_stop live_cam (state_of ps_stopped)))
  = trace (state_of ps_stopped)
    ++ [EvChanStop PWriteChannel; EvChanStop PReadChannel].
Proof. vm_compute. repeat split. Qed.

(** ** Pausing what was never started *)

(** C8, as the code has it.  On a source that was never started
    [VideoFile.pause] (inherited by [Webcam], [FileDisplayPort] and
    [WebcamDisplayPort]) raises [SystemError]; [PSVideo.pause] on a facade
    that is not started returns without doing anything. *)
Theorem pause_before_start {Dev} :
  (forall s : Sys Dev, truthy (f_videoIn s) = false ->
      VideoFile_pause s = Exc s (SystemError "The stream is not started")) /\
  (forall s : Sys Dev, truthy (p_started s) = false ->
      PSVideo_pause s = Fin s tt).
Proof.
  split.
  - intros s H. unfold VideoFile_pause. rewrite H. reflexivity.
  - intros s H. unfold PSVideo_pause. rewrite H. reflexivity.
Qed.

Lemma pause_before_start_witness :
  VideoFile_pause ps_fresh = Exc ps_fresh (SystemError "The stream is not started") /\
  PSVideo_pause ps_fresh = Fin ps_fresh tt.
Proof.
  split.
  - apply (proj1 pause_before_start). reflexivity.
  - apply (proj2 pause_before_start). reflexivity.
Defined.

(** C8 as stated fails at the facade: the constructor of [PSVideo] gives
    [ps_fresh], and [pause()] on it returns normally. *)
Lemma psvideo_pause_never_started_returns :
  PSVideo_init true default_mode (FInt 0) 9 0 = Ok ps_fresh /\
  PSVideo_pause ps_fresh = Fin ps_fresh tt /\
  forall e, PSVideo_pause ps_fresh <> Exc ps_fresh e.
Proof. split; [reflexivity|]. split; [reflexivity|]. intros e. discriminate. Qed.

(** ** The retry loop of readframe *)
Section Retry.
Context {Dev : Type} (cam : Camera Dev).
Hypothesis read_fails : forall d, snd (cam_read cam d) = None.
Hypothesis open_truthy : forall f d, snd (cam_open cam f d) = true.

Lemma _configure_ok (s : Sys Dev) :
  exists s', _configure cam s = (s', Ok tt) /\
             f_videoIn s' = Some true /\ ctl s' = ctl s /\
             countb is_open (trace s') = S (countb is_open (trace s)) /\
             countb is_read (trace s') = countb is_read (trace s).
Proof.
  unfold _configure. pose proof (open_truthy (f_file s) (dev s)) as Ho.
  destruct (cam_open cam (f_file s) (dev s)) as [d obj]. simpl in Ho. subst obj.
  simpl. destruct (isinstance_int (f_file s)); [destruct (negb _)|];
    eexists; (split; [reflexivity|]); simpl; rewrite !countb_app; simpl;
    repeat split; lia.
Qed.

Lemma videoIn_read_fails (s : Sys Dev) :
  f_videoIn s <> None ->
  exists s', videoIn_read cam s = (s', Ok None) /\
             f_videoIn s' = f_videoIn s /\ ctl s' = ctl s /\
             countb is_open (trace s') = countb is_open (trace s) /\
             countb is_read (trace s') = S (countb is_read (trace s)).
Proof.
  intros Hv. unfold videoIn_read. destruct (f_videoIn s) eqn:Ev; [|congruence].
  pose proof (read_fails (dev s)) as Hr.
  destruct (cam_read cam (dev s)) as [d r]. simpl in Hr. subst r.
  eexists. split; [reflexivity|]. simpl. rewrite !countb_app. simpl.
  repeat split; auto; lia.
Qed.

Lemma readframe_loop_fails n (s : Sys Dev) :
  f_videoIn s <> None ->
  exists s', readframe_loop cam n s = (s', Err (RuntimeError "OpenCV can't rewind")) /\
             ctl s' = ctl s /\
             countb is_open (trace s') = countb is_open (trace s) + n /\
             countb is_read (trace s') = countb is_read (trace s) + n.
Proof.
  revert s. induction n as [|n IH]; intros s Hv.
  - exists s. simpl. repeat split; lia.
  - destruct (videoIn_read_fails s Hv) as (s1 & E1 & V1 & C1 & O1 & R1).
    destruct (_configure_ok s1) as (s2 & E2 & V2 & C2 & O2 & R2).
    destruct (IH s2) as (s3 & E3 & C3 & O3 & R3); [congruence|].
    exists s3. simpl. unfold bind at 1. rewrite E1. unfold bind at 1. rewrite E2.
    split; [exact E3|]. split; [congruence|]. split; lia.
Qed.

End Retry.

(** C2, as the code has it.  When every read fails (and every capture that
    is opened is usable), [readframe] reads five times, reconfigures the
    source after each failed read, five times in all, and then raises
    [RuntimeError]; the loop of [_tie] ends there because the exception
    leaves the thread function, and the running flag and the lock stay as
    they were. *)
Theorem readframe_retry_bound {Dev} (cam : Camera Dev) (s : Sys Dev) :
  (forall d, snd (cam_read cam d) = None) ->
  (forall f d, snd (cam_open cam f d) = true) ->
  f_videoIn s <> None ->
  exists s',
    readframe cam s = (s', Err (RuntimeError "OpenCV can't rewind")) /\
    countb is_open (trace s') = countb is_open (trace s) + 5 /\
    countb is_read (trace s') = countb is_read (trace s) + 5 /\
    f_running s' = f_running s /\
    f_thread s' = f_thread s /\
    forall l, worker_step cam (mkWorker K_tie (WStmt 0) l) s
              = (s', mkWorker K_tie (WDead (RuntimeError "OpenCV can't rewind")) l).
Proof.
  intros Hr Ho Hv.
  destruct (readframe_loop_fails cam Hr Ho 5 s Hv) as (s' & E & C & O & R).
  exists s'. split; [exact E|]. split; [exact O|]. split; [exact R|].
  split; [apply cfg_running, ctl_cfg, C|].
  split; [apply ctl_thread, C|].
  intros l. change (readframe_loop cam 5 s) with (readframe cam s) in E.
  unfold worker_step. simpl. unfold bind at 1. rewrite E. reflexivity.
Qed.

Lemma readframe_retry_bound_witness :
  exists s',
    readframe broken_cam (state_of broken_tied)
    = (s', Err (RuntimeError "OpenCV can't rewind")) /\
    countb is_open (trace s') = countb is_open (trace (state_of broken_tied)) + 5 /\
    countb is_read (trace s') = countb is_read (trace (state_of broken_tied)) + 5 /\
    f_running s' = f_running (state_of broken_tied) /\
    f_thread s' = f_thread (state_of broken_tied) /\
    forall l, worker_step broken_cam (mkWorker K_tie (WStmt 0) l) (state_of broken_tied)
              = (s', mkWorker K_tie (WDead (RuntimeError "OpenCV can't rewind")) l).
Proof.
  apply (readframe_retry_bound broken_cam (state_of broken_tied)).
  - intros d. reflexivity.
  - intros f d. reflexivity.
  - vm_compute. discriminate.
Defined.

(** C2 as stated fails in its last part: on a file without a readable
    frame the worker dies in [readframe] after five reconfigurations (six
    with the one of [start]) and the running flag is still [True]. *)
Lemma fatal_path_leaves_running_flag_set :
  let s := state_of (vf_tied [] 2) in
  workers s = [mkWorker K_tie (WDead (RuntimeError "OpenCV can't rewind"))
                        (mkLocals None None)] /\
  countb is_open (trace s) = 6 /\
  f_running s = Some true /\
  f_running s <> Some false.
Proof. vm_compute. repeat split; discriminate. Qed.

(** ** Single steps of one worker *)
Section OneWorker.
Context {Dev : Type} (cam : Camera Dev).

Lemma step_test i (s : Sys Dev) w :
  workers s !! i = Some w -> w_pc w = WTest ->
  let s' := step_worker cam i s in
  workers s' !! i
  = Some (mkWorker (w_kind w)
            (if truthy (f_running s) then WStmt 0 else WRelease) (w_loc w)) /\
  f_thread s' = f_thread s /\ cfg s' = cfg s /\ ext stmt_event s s' /\
  f_videoIn s' = f_videoIn s.
Proof.
  intros Hw Hpc. unfold step_worker. rewrite Hw. unfold worker_step. rewrite Hpc.
  simpl. split; [|auto using ext_same_trace].
  apply list_lookup_insert_eq. eapply lookup_lt_Some; eauto.
Qed.

Lemma step_stmt i (s : Sys Dev) w j st s1 r :
  workers s !! i = Some w -> w_pc w = WStmt j ->
  body_of cam (w_kind w) !! j = Some st ->
  st (w_loc w) s = (s1, r) ->
  let s' := step_worker cam i s in
  workers s' !! i
  = Some match r with
         | Ok l' => mkWorker (w_kind w)
                      (if Nat.ltb (S j) (length (body_of cam (w_kind w)))
                       then WStmt (S j) else WTest) l'
         | Err e => mkWorker (w_kind w) (WDead e) (w_loc w)
         end /\
  f_thread s' = f_thread s /\ cfg s' = cfg s /\ ext stmt_event s s' /\
  f_videoIn s' = f_videoIn s1.
Proof.
  intros Hw Hpc Hst E. destruct (wop_body cam _ _ _ (w_loc w) Hst _ _ _ E) as [C X].
  unfold step_worker. rewrite Hw. unfold worker_step. rewrite Hpc, Hst, E.
  assert (Hlt : i < length (workers s1)).
  { rewrite (ctl_workers _ _ C). eapply lookup_lt_Some; eauto. }
  destruct r as [l'|e]; simpl;
    (split; [apply list_lookup_insert_eq; exact Hlt|]);
    (split; [apply (ctl_thread _ _ C)|]);
    (split; [apply (ctl_cfg _ _ C)|]);
    (split; [|reflexivity]); destruct X as (evs & Ht & Hf); exists evs; auto.
Qed.

Lemma step_dead i (s : Sys Dev) w :
  workers s !! i = Some w -> alive w = false -> step_worker cam i s = s.
Proof.
  intros Hw Hd. unfold step_worker. rewrite Hw. unfold worker_step, alive in *.
  destruct (w_pc w); try discriminate;
    rewrite (list_insert_id _ _ _ Hw); apply set_workers_same.
Qed.

Lemma steps_dead i n (s : Sys Dev) w :
  workers s !! i = Some w -> alive w = false -> wsteps cam s (repeat i n) = s.
Proof.
  intros Hw Hd. induction n as [|n IH]; simpl; [reflexivity|].
  rewrite (step_dead _ _ _ Hw Hd). exact IH.
Qed.

(** Once no worker is under way nothing moves any more. *)
Lemma all_dead_stutter ix (s : Sys Dev) :
  alive_count (workers s) = 0 -> wsteps cam s ix = s.
Proof.
  intros Hz. induction ix as [|i ix IH]; simpl; [reflexivity|].
  assert (E : step_worker cam i s = s).
  { destruct (workers s !! i) as [w|] eqn:Hw.
    - eapply step_dead; eauto using alive_count_zero.
    - unfold step_worker. rewrite Hw. reflexivity. }
  rewrite E. exact IH.
Qed.

End OneWorker.

(** ** The fatal exit of the copy loops *)
Section FatalExit.
Context {Dev : Type} (cam : Camera Dev).
Hypothesis read_fails : forall d, snd (cam_read cam d) = None.
Hypothesis open_truthy : forall f d, snd (cam_open cam f d) = true.

Lemma quiet_trans (s1 s2 s3 : Sys Dev) : quiet s1 s2 -> quiet s2 s3 -> quiet s1 s3.
Proof.
  intros (T1 & C1 & X1) (T2 & C2 & X2).
  split; [congruence|]. split; [congruence|]. eapply ext_trans; eauto.
Qed.

Lemma readframe_bind_fails {A} (kont : Frame -> St A) (s : Sys Dev) :
  f_videoIn s <> None ->
  exists s', bind (readframe cam) kont s
             = (s', Err (RuntimeError "OpenCV can't rewind")).
Proof.
  intros Hv. destruct (readframe_loop_fails cam read_fails open_truthy 5 s Hv)
    as (s' & E & _).
  exists s'. unfold bind. change (readframe cam s) with (readframe_loop cam 5 s).
  rewrite E. reflexivity.
Qed.

(** From the loop test on, with the running flag set, a loop dies within
    three steps, whichever of the three loops it is. *)
Lemma loop_dies_within_three i k l (s : Sys Dev) :
  f_videoIn s <> None ->
  truthy (f_running s) = true ->
  workers s !! i = Some (mkWorker k WTest l) ->
  let s' := wsteps cam s (repeat i 3) in
  (exists e l', workers s' !! i = Some (mkWorker k (WDead e) l')) /\ quiet s s'.
Proof.
  intros Hv Hrun Hw. simpl.
  destruct (step_test cam i s _ Hw eq_refl) as (Wa & Ta & Ca & Xa & Va).
  rewrite Hrun in Wa. simpl in Wa.
  set (sa := step_worker cam i s) in *.
  assert (Qa : quiet s sa) by (split; [|split]; assumption).
  assert (Hva : f_videoIn sa <> None) by congruence.
  destruct (body_of cam k !! 0) as [st0|] eqn:E0; [|destruct k; discriminate].
  destruct (st0 l sa) as [s1 r] eqn:R0.
  destruct (step_stmt cam i sa _ 0 st0 s1 r Wa eq_refl E0 R0) as (Wb & Tb & Cb & Xb & Vb).
  set (sb := step_worker cam i sa) in *.
  assert (Qb : quiet s sb) by (eapply quiet_trans; [exact Qa | split; [|split]; assumption]).
  destruct r as [l'|e].
  - (* statement 0 went through: it was not the one that reads *)
    simpl in Wb.
    destruct k; simpl in E0; injection E0 as <-.
    + (* _tie *)
      destruct (readframe_bind_fails
                  (fun frame => bind (fun s0 => deref "_outframe" (f_outframe s0) s0)
                     (fun b => bind (copy_into b frame) (fun _ => ret l))) sa Hva)
        as (sx & Ex).
      rewrite Ex in R0. discriminate.
    + (* _tievdma *)
      assert (Hvb : f_videoIn sb <> None).
      { rewrite Vb. unfold try_except_RuntimeError, bind, the_vdma in R0.
        destruct (f_vdma sa); simpl in R0; [|discriminate].
        injection R0 as <- _. exact Hva. }
      destruct (body_of cam K_tievdma !! 1) as [st1|] eqn:E1; [|discriminate].
      destruct (st1 l' sb) as [s2 r2] eqn:R1.
      destruct (step_stmt cam i sb _ 1 st1 s2 r2 Wb eq_refl E1 R1)
        as (Wc & Tc & Cc & Xc & Vc).
      assert (Qc : quiet s (step_worker cam i sb))
        by (eapply quiet_trans; [exact Qb | split; [|split]; assumption]).
      split; [|exact Qc].
      simpl in E1. injection E1 as <-.
      unfold try_except_RuntimeError in R1.
      destruct (readframe_bind_fails
                  (fun frame => bind (deref "fpgaframe" (fpgaframe l'))
                     (fun b => bind (copy_into b frame) (fun _ => ret l'))) sb Hvb)
        as (sx & Ex).
      rewrite Ex in R1. injection R1 as <- <-. eauto.
    + (* _tienovdma *)
      assert (Hvb : f_videoIn sb <> None).
      { rewrite Vb. unfold bind in R0.
        destruct (f_dp sa); simpl in R0; [|discriminate].
        injection R0 as <- _. exact Hva. }
      destruct (body_of cam K_tienovdma !! 1) as [st1|] eqn:E1; [|discriminate].
      destruct (st1 l' sb) as [s2 r2] eqn:R1.
      destruct (step_stmt cam i sb _ 1 st1 s2 r2 Wb eq_refl E1 R1)
        as (Wc & Tc & Cc & Xc & Vc).
      assert (Qc : quiet s (step_worker cam i sb))
        by (eapply quiet_trans; [exact Qb | split; [|split]; assumption]).
      split; [|exact Qc].
      simpl in E1. injection E1 as <-.
      destruct (readframe_bind_fails
                  (fun frame => bind (deref "dpframe" (dpframe l'))
                     (fun b => bind (copy_into b frame) (fun _ => ret l'))) sb Hvb)
        as (sx & Ex).
      rewrite Ex in R1. injection R1 as <- <-. eauto.
  - (* statement 0 raised: the third step finds the thread dead *)
    simpl in Wb. rewrite (step_dead cam i sb _ Wb eq_refl).
    split; [eauto | exact Qb].
Qed.

End FatalExit.

(** C1 at the input where the code departs from it.  When every read of
    the source fails, each of the three copy loops that is entered with the
    running flag set is dead after three steps and stays so: the thread
    has left the loop through the exception, [self._thread.release()] was
    never reached, the lock is still held and no release is in the trace. *)
Theorem fatal_exit_skips_release {Dev} (cam : Camera Dev) (s : Sys Dev) i k l n :
  (forall d, snd (cam_read cam d) = None) ->
  (forall f d, snd (cam_open cam f d) = true) ->
  f_videoIn s <> None ->
  f_thread s = true ->
  truthy (f_running s) = true ->
  workers s !! i = Some (mkWorker k WTest l) ->
  3 <= n ->
  let s' := wsteps cam s (repeat i n) in
  (exists e l', workers s' !! i = Some (mkWorker k (WDead e) l')) /\
  f_thread s' = true /\
  countb is_lock_release (trace s') = countb is_lock_release (trace s).
Proof.
  intros Hr Ho Hv Hth Hrun Hw Hn.
  destruct (loop_dies_within_three cam Hr Ho i k l s Hv Hrun Hw)
    as ((e & l' & Hd) & (T & C & X)).
  assert (E : wsteps cam s (repeat i n) = wsteps cam s (repeat i 3)).
  { replace n with (3 + (n - 3)) by lia. rewrite repeat_app.
    unfold wsteps at 1. rewrite fold_left_app.
    apply (steps_dead cam i (n - 3) _ _ Hd). reflexivity. }
  simpl. rewrite E. split; [eauto|]. split; [congruence|].
  eapply ext_count; [|exact X]. intros ev. destruct ev; simpl; congruence.
Qed.

Lemma fatal_exit_skips_release_witness :
  let s' := wsteps broken_cam (state_of broken_tied) (repeat 0 5) in
  (exists e l', workers s' !! 0 = Some (mkWorker K_tie (WDead e) l')) /\
  f_thread s' = true /\
  countb is_lock_release (trace s')
  = countb is_lock_release (trace (state_of broken_tied)).
Proof.
  apply (fatal_exit_skips_release broken_cam (state_of broken_tied) 0 K_tie
           (mkLocals None None) 5).
  - intros d. reflexivity.
  - intros f d. reflexivity.
  - vm_compute. discriminate.
  - reflexivity.
  - reflexivity.
  - reflexivity.
  - lia.
Defined.

(** With the lock held and no worker left to release it, [stop] polls the
    lock for ever, whatever the scheduler does. *)
Lemma stop_never_returns_after_fatal {Dev} (cam : Camera Dev) (s : Sys Dev) sched :
  alive_count (workers s) = 0 ->
  f_thread s = true ->
  truthy (f_videoIn s) = true ->
  blocked (run cam sched (VideoFile_stop cam s)) = true.
Proof.
  intros Hz Hth Hv. unfold VideoFile_stop. rewrite Hv. cbn.
  match goal with |- blocked (run cam sched (Blk ?s1 ?c ?k)) = true =>
    destruct (run_Blk cam sched s1 c k) as [[ix ->]|(ix & sched' & Hc & _)]
  end; [reflexivity|].
  rewrite all_dead_stutter in Hc by exact Hz.
  simpl in Hc. rewrite Hth in Hc. discriminate.
Qed.

(** The same on a video file without a readable frame. *)
Lemma empty_file_stop_hangs sched :
  countb is_lock_release (trace (state_of (vf_tied [] 2))) = 0 /\
  blocked (run file_cam sched (VideoFile_stop file_cam (state_of (vf_tied [] 2))))
  = true.
Proof.
  split; [vm_compute; reflexivity|].
  apply stop_never_returns_after_fatal; vm_compute; reflexivity.
Qed.

(** ** The loop bodies do not depend on the thread table *)
Section ThreadTable.
Context {Dev : Type} (cam : Camera Dev).

Lemma wfree_ret {A} (a : A) : wfree (Dev := Dev) (ret a).
Proof. intros s ws. reflexivity. Qed.

Lemma wfree_raise {A} e : wfree (Dev := Dev) (A := A) (raise e).
Proof. intros s ws. reflexivity. Qed.

Lemma wfree_bind {A B} (m : St A) (k : A -> St (Dev := Dev) B) :
  wfree m -> (forall a, wfree (k a)) -> wfree (bind m k).
Proof.
  intros Hm Hk s ws. unfold bind. rewrite Hm.
  destruct (m s) as [s1 [a|e]]; [apply Hk | reflexivity].
Qed.

Lemma wfree_deref {A} what (g : Sys Dev -> option A) :
  (forall s ws, g (set_workers ws s) = g s) ->
  wfree (fun s => deref what (g s) s).
Proof. intros Hg s ws. rewrite Hg. destruct (g s); reflexivity. Qed.

Lemma wfree_deref_local {A} what (v : option A) : wfree (Dev := Dev) (deref what v).
Proof. intros s ws. destruct v; reflexivity. Qed.

Lemma wfree_the_vdma : wfree (Dev := Dev) the_vdma.
Proof. intros s ws. unfold the_vdma. simpl. destruct (f_vdma s); reflexivity. Qed.

Lemma wfree_newframe p : wfree (Dev := Dev) (newframe p).
Proof. intros s ws. reflexivity. Qed.

Lemma wfree_copy_into b f : wfree (Dev := Dev) (copy_into b f).
Proof. intros s ws. reflexivity. Qed.

Lemma wfree_writeframe p b : wfree (Dev := Dev) (writeframe p b).
Proof. intros s ws. reflexivity. Qed.

Lemma wfree_readchannel_readframe : wfree (readchannel_readframe cam).
Proof.
  intros s ws. unfold readchannel_readframe. simpl.
  destruct (vdma_read cam (dev s)); reflexivity.
Qed.

Lemma wfree_videoIn_read : wfree (videoIn_read cam).
Proof.
  intros s ws. unfold videoIn_read. simpl. destruct (f_videoIn s); [|reflexivity].
  destruct (cam_read cam (dev s)); reflexivity.
Qed.

Lemma wfree__configure : wfree (_configure cam).
Proof.
  intros s ws. unfold _configure. simpl.
  destruct (cam_open cam (f_file s) (dev s)) as [d obj].
  destruct obj; simpl; [|reflexivity].
  destruct (isinstance_int (f_file s)); [destruct (negb _)|]; reflexivity.
Qed.

Lemma wfree_readframe_loop n : wfree (readframe_loop cam n).
Proof.
  induction n as [|n IH]; simpl.
  - apply wfree_raise.
  - apply wfree_bind; [apply wfree_videoIn_read|].
    intros [f|]; [apply wfree_ret|].
    apply wfree_bind; [apply wfree__configure | intros _; exact IH].
Qed.

Lemma wfree_readframe : wfree (readframe cam).
Proof. apply wfree_readframe_loop. Qed.

Lemma wfree_try_except {A} (m : St A) :
  wfree m -> wfree (Dev := Dev) (try_except_RuntimeError m).
Proof.
  intros Hm s ws. unfold try_except_RuntimeError. rewrite Hm.
  destruct (m s) as [s1 [a|[]]]; reflexivity.
Qed.

Create HintDb wfree.

#[local] Hint Resolve wfree_ret wfree_raise wfree_deref_local wfree_the_vdma
  wfree_newframe wfree_copy_into wfree_writeframe wfree_readchannel_readframe
  wfree_readframe wfree_try_except : wfree.

Ltac wfree_auto :=
  repeat first
    [ solve [auto with wfree]
    | apply wfree_deref; reflexivity
    | apply wfree_try_except
    | apply wfree_bind; [|intros ?] ].

Lemma wfree_body k i (st : Stmt) l :
  body_of cam k !! i = Some st -> wfree (st l).
Proof.
  destruct k; simpl; intros H.
  - destruct i as [|[|[|]]]; simpl in H; try discriminate;
      injection H as <-; wfree_auto.
  - destruct i as [|[|[|[|[|[|[|]]]]]]]; simpl in H; try discriminate;
      injection H as <-; wfree_auto.
  - destruct i as [|[|[|[|]]]]; simpl in H; try discriminate;
      injection H as <-; wfree_auto.
Qed.

End ThreadTable.

(** ** A worker left alone runs the body as straight-line code *)
Section Iterations.
Context {Dev : Type} (cam : Camera Dev).

Lemma wfree_run_stmts (sts : list Stmt) l :
  (forall st l, In st sts -> wfree (Dev := Dev) (st l)) -> wfree (run_stmts sts l).
Proof.
  revert l. induction sts as [|st sts IH]; intros l H; simpl.
  - apply wfree_ret.
  - apply wfree_bind; [apply H; left; reflexivity|].
    intros l'. apply IH. intros st' l0 Hin. apply H. right. exact Hin.
Qed.

Lemma set_workers_twice ws ws' (s : Sys Dev) :
  set_workers ws (set_workers ws' s) = set_workers ws s.
Proof. reflexivity. Qed.

Lemma wsteps_cons i ix (s : Sys Dev) :
  wsteps cam s (i :: ix) = wsteps cam (step_worker cam i s) ix.
Proof. reflexivity. Qed.

Lemma steps_suffix k i suf : forall pre l (s s1 : Sys Dev) r,
  body_of cam k = pre ++ suf -> suf <> [] ->
  workers s !! i = Some (mkWorker k (WStmt (length pre)) l) ->
  run_stmts suf l s = (s1, r) ->
  exists w',
    wsteps cam s (repeat i (length suf)) = set_workers (<[i := w']> (workers s)) s1 /\
    match r with
    | Ok l' => w' = mkWorker k WTest l'
    | Err e => w_kind w' = k /\ w_pc w' = WDead e
    end.
Proof.
  induction suf as [|st rest IH]; intros pre l s s1 r Hb Hne Hw Hrun; [congruence|].
  assert (Hst : body_of cam k !! length pre = Some st)
    by (rewrite Hb; apply list_lookup_middle; reflexivity).
  assert (Hi : i < length (workers s)) by (eapply lookup_lt_Some; eauto).
  simpl in Hrun. unfold bind in Hrun.
  destruct (st l s) as [sa ra] eqn:Ea.
  destruct (wop_body cam _ _ _ l Hst _ _ _ Ea) as [C _].
  pose proof (ctl_workers _ _ C) as Hws.
  assert (E1 : step_worker cam i s
               = set_workers (<[i := match ra with
                   | Ok l' => mkWorker k
                                (if Nat.ltb (S (length pre)) (length (body_of cam k))
                                 then WStmt (S (length pre)) else WTest) l'
                   | Err e => mkWorker k (WDead e) l
                   end]> (workers s)) sa).
  { unfold step_worker. rewrite Hw. unfold worker_step. cbn [w_pc w_kind w_loc].
    match goal with |- context [match ?x with Some _ => _ | None => _ end] =>
      replace x with (Some st) by (symmetry; exact Hst) end.
    rewrite Ea. destruct ra; cbn iota beta; rewrite Hws; reflexivity. }
  cbn [length repeat]. rewrite wsteps_cons, E1.
  destruct ra as [la|e].
  - destruct rest as [|st2 rest].
    + simpl in Hrun. injection Hrun as <- <-.
      replace (Nat.ltb (S (length pre)) (length (body_of cam k))) with false.
      * eexists. split; reflexivity.
      * symmetry. apply Nat.ltb_ge. rewrite Hb, length_app. simpl. lia.
    + replace (Nat.ltb (S (length pre)) (length (body_of cam k))) with true.
      2:{ symmetry. apply Nat.ltb_lt. rewrite Hb, length_app. simpl. lia. }
      set (ws' := <[i := mkWorker k (WStmt (S (length pre))) la]> (workers s)).
      assert (Hfree : wfree (Dev := Dev) (run_stmts (st2 :: rest) la)).
      { apply wfree_run_stmts. intros st' l0 Hin.
        assert (Hin' : In st' (body_of cam k))
          by (rewrite Hb; apply in_or_app; right; right; exact Hin).
        apply list_elem_of_In, list_elem_of_lookup in Hin' as [j Hj].
        eapply wfree_body; eauto. }
      specialize (Hfree sa ws'). rewrite Hrun in Hfree.
      destruct (IH (pre ++ [st]) la (set_workers ws' sa) (set_workers ws' s1) r)
        as (w' & Ew & Hr).
      * rewrite Hb, <- app_assoc. reflexivity.
      * discriminate.
      * rewrite length_app. simpl. replace (length pre + 1) with (S (length pre)) by lia.
        apply list_lookup_insert_eq. exact Hi.
      * exact Hfree.
      * exists w'. split; [|exact Hr]. rewrite Ew. simpl. unfold ws'.
        rewrite list_insert_insert_eq. reflexivity.
  - injection Hrun as <- <-.
    erewrite steps_dead.
    + eexists. split; [reflexivity|]. simpl. auto.
    + simpl. apply list_lookup_insert_eq. exact Hi.
    + reflexivity.
Qed.

(** A worker at the head of the body, stepped as often as the body has
    statements, is back at the loop test in the state one iteration leads
    to. *)
Lemma steps_iteration k i l l' (s s1 : Sys Dev) :
  workers s !! i = Some (mkWorker k (WStmt 0) l) ->
  iteration cam k l s = (s1, Ok l') ->
  wsteps cam s (repeat i (length (body_of cam k)))
  = set_workers (<[i := mkWorker k WTest l']> (workers s)) s1.
Proof.
  intros Hw Hit.
  destruct (steps_suffix k i (body_of cam k) [] l s s1 (Ok l') eq_refl)
    as (w' & E & ->); auto.
  destruct k; discriminate.
Qed.

End Iterations.

(** ** One iteration of each loop *)
Section Relay.
Context {Dev : Type} (cam : Camera Dev).

Lemma heap_fresh (h : list Frame) f :
  <[length h := f]> (h ++ [[]]) !! length h = Some f.
Proof. apply list_lookup_insert_eq. rewrite length_app. simpl. lia. Qed.

Lemma length_fresh (h : list Frame) f :
  length (<[length h := f]> (h ++ [[]])) = S (length h).
Proof. rewrite length_insert, length_app. simpl. lia. Qed.

(** A read that succeeds is all [readframe] does. *)
Lemma readframe_ok (s : Sys Dev) f d1 :
  f_videoIn s <> None -> cam_read cam (dev s) = (d1, Some f) ->
  readframe cam s = (set_dev d1 (emit (EvRead true) s), Ok f).
Proof.
  intros Hv Hrd. unfold readframe. cbn [readframe_loop]. unfold bind at 1.
  unfold videoIn_read. destruct (f_videoIn s); [|congruence].
  rewrite Hrd. reflexivity.
Qed.

#[local] Arguments readframe : simpl never.

Ltac run_body Hv Hrd :=
  unfold try_except_RuntimeError, bind, the_vdma, deref, ret,
    readchannel_readframe, newframe, copy_into, writeframe, modify;
  cbn;
  repeat match goal with
    | |- context [readframe cam ?s] =>
        rewrite (readframe_ok s _ _ Hv Hrd); cbn
    end.

Lemma _tievdma_iteration (s : Sys Dev) l o f d1 g d2 :
  f_vdma s = true -> f_dp s = Some o -> f_videoIn s <> None ->
  cam_read cam (dev s) = (d1, Some f) -> vdma_read cam d1 = (d2, g) ->
  exists s1,
    iteration cam K_tievdma l s
    = (s1, Ok (mkLocals (Some (length (heap s))) (Some (S (length (heap s)))))) /\
    trace s1 = trace s ++
      [EvNewFrame PWriteChannel (length (heap s)); EvRead true;
       EvCopy (length (heap s)) f;
       EvWriteFrame PWriteChannel (length (heap s)) f;
       EvNewFrame (POut o) (S (length (heap s))); EvReadFrame PReadChannel g;
       EvCopy (S (length (heap s))) g;
       EvWriteFrame (POut o) (S (length (heap s))) g] /\
    heap s1 !! length (heap s) = Some f /\
    heap s1 !! S (length (heap s)) = Some g.
Proof.
  intros Hvd Hdp Hv Hrd Hvr.
  unfold iteration. cbn [body_of _tievdma_body map run_stmts].
  repeat (first [rewrite Hvd | rewrite Hdp | rewrite Hvr
                | progress (run_body Hv Hrd)]; cbn).
  rewrite !heap_fresh, !length_fresh. cbn.
  eexists. split; [reflexivity|]. cbn.
  split; [rewrite <- !app_assoc; reflexivity|].
  split.
  - rewrite list_lookup_insert_ne by lia.
    rewrite lookup_app_l by (rewrite length_fresh; lia).
    apply heap_fresh.
  - rewrite <- (length_fresh (heap s) f). apply heap_fresh.
Qed.

Lemma _tienovdma_iteration (s : Sys Dev) l o f d1 :
  f_dp s = Some o -> f_videoIn s <> None ->
  cam_read cam (dev s) = (d1, Some f) ->
  exists s1,
    iteration cam K_tienovdma l s
    = (s1, Ok (mkLocals (fpgaframe l) (Some (length (heap s))))) /\
    trace s1 = trace s ++
      [EvNewFrame (POut o) (length (heap s)); EvRead true;
       EvCopy (length (heap s)) f;
       EvWriteFrame (POut o) (length (heap s)) f] /\
    length (heap s1) = S (length (heap s)) /\
    dev s1 = d1 /\ f_videoIn s1 = f_videoIn s /\ ctl s1 = ctl s.
Proof.
  intros Hdp Hv Hrd.
  unfold iteration. cbn [body_of _tienovdma_body run_stmts].
  repeat (first [rewrite Hdp | progress (run_body Hv Hrd)]; cbn).
  rewrite !heap_fresh. cbn.
  eexists. split; [reflexivity|]. cbn.
  split; [rewrite <- !app_assoc; reflexivity|].
  split; [apply length_fresh|]. auto.
Qed.

Lemma _tie_iteration (s : Sys Dev) l o b f d1 :
  f_output s = Some o -> f_outframe s = Some b -> b < length (heap s) ->
  f_videoIn s <> None ->
  cam_read cam (dev s) = (d1, Some f) ->
  exists s1,
    iteration cam K_tie l s = (s1, Ok l) /\
    trace s1 = trace s ++ [EvRead true; EvCopy b f; EvWriteFrame (POut o) b f] /\
    length (heap s1) = length (heap s) /\
    dev s1 = d1 /\ f_videoIn s1 = f_videoIn s /\ ctl s1 = ctl s.
Proof.
  intros Ho Hb Hlt Hv Hrd.
  unfold iteration. cbn [body_of _tie_body run_stmts].
  repeat (first [rewrite Ho | rewrite Hb | progress (run_body Hv Hrd)]; cbn).
  rewrite list_lookup_insert_eq by exact Hlt. cbn.
  eexists. split; [reflexivity|]. cbn.
  split; [rewrite <- !app_assoc; reflexivity|].
  split; [apply length_insert|]. auto.
Qed.

End Relay.

(** C9.  [tie] starts [_tievdma] exactly when a VDMA is present and
    [_tienovdma] otherwise.  An iteration of [_tievdma] takes a buffer from
    the write channel, fills it with the frame read from the source and
    writes it to the write channel; it then takes a second, different
    buffer from the display port, fills it with the frame read back from
    the read channel and writes that one to the display port. *)
Theorem vdma_loop_relays_through_stage {Dev} (cam : Camera Dev) :
  (forall (s : Sys Dev) dp,
      truthy (f_videoIn s) = true -> f_thread s = false ->
      exists s', run cam [TMain] (FileDisplayPort_tie dp s) = Fin s' tt /\
                 workers s' = workers s ++
                   [mkWorker (if f_vdma s then K_tievdma else K_tienovdma)
                             WTest (mkLocals None None)]) /\
  (forall (s : Sys Dev) i l o f d1 g d2,
      f_vdma s = true -> f_dp s = Some o -> f_videoIn s <> None ->
      workers s !! i = Some (mkWorker K_tievdma (WStmt 0) l) ->
      cam_read cam (dev s) = (d1, Some f) -> vdma_read cam d1 = (d2, g) ->
      let s' := wsteps cam s (repeat i 6) in
      let b1 := length (heap s) in
      let b2 := S (length (heap s)) in
      trace s' = trace s ++
        [EvNewFrame PWriteChannel b1; EvRead true; EvCopy b1 f;
         EvWriteFrame PWriteChannel b1 f;
         EvNewFrame (POut o) b2; EvReadFrame PReadChannel g; EvCopy b2 g;
         EvWriteFrame (POut o) b2 g] /\
      b1 <> b2 /\
      heap s' !! b1 = Some f /\ heap s' !! b2 = Some g /\
      workers s' !! i = Some (mkWorker K_tievdma WTest (mkLocals (Some b1) (Some b2)))).
Proof.
  split.
  - intros s dp Hv Hth. unfold FileDisplayPort_tie. rewrite Hv. cbn.
    rewrite Hth. cbn. eexists. split; [reflexivity|].
    destruct (f_vdma s); reflexivity.
  - intros s i l o f d1 g d2 Hvd Hdp Hv Hw Hrd Hvr.
    destruct (_tievdma_iteration cam s l o f d1 g d2 Hvd Hdp Hv Hrd Hvr)
      as (s1 & Hit & Htr & Hb1 & Hb2).
    pose proof (steps_iteration cam K_tievdma i l _ s s1 Hw Hit) as E.
    cbn zeta. change (length (body_of cam K_tievdma)) with 6 in E. rewrite E.
    cbn. split; [exact Htr|]. split; [lia|]. split; [exact Hb1|].
    split; [exact Hb2|]. apply list_lookup_insert_eq. eapply lookup_lt_Some; eauto.
Qed.

Lemma vdma_loop_relays_through_stage_witness :
  (exists s', run live_cam [TMain] (FileDisplayPort_tie 9 ps_configured) = Fin s' tt /\
              workers s' = workers ps_configured ++
                [mkWorker (if f_vdma ps_configured then K_tievdma else K_tienovdma)
                          WTest (mkLocals None None)]) /\
  (let s' := wsteps live_cam ps_at_body (repeat 0 6) in
   let b1 := length (heap ps_at_body) in
   let b2 := S (length (heap ps_at_body)) in
   trace s' = trace ps_at_body ++
     [EvNewFrame PWriteChannel b1; EvRead true; EvCopy b1 [];
      EvWriteFrame PWriteChannel b1 [];
      EvNewFrame (POut 9) b2; EvReadFrame PReadChannel [Byte.x02];
      EvCopy b2 [Byte.x02]; EvWriteFrame (POut 9) b2 [Byte.x02]] /\
   b1 <> b2 /\
   heap s' !! b1 = Some [] /\ heap s' !! b2 = Some [Byte.x02] /\
   workers s' !! 0 = Some (mkWorker K_tievdma WTest (mkLocals (Some b1) (Some b2)))).
Proof.
  destruct (vdma_loop_relays_through_stage live_cam) as [H1 H2].
  split.
  - apply H1; reflexivity.
  - apply (H2 ps_at_body 0 (mkLocals None None) 9 [] 1 [Byte.x02] 1).
    + reflexivity.
    + reflexivity.
    + vm_compute. discriminate.
    + reflexivity.
    + reflexivity.
    + reflexivity.
Defined.

(** ** The frame buffer of VideoFile._tie *)
Section OutFrame.
Context {Dev : Type} (cam : Camera Dev).

Lemma step_test_exact i (s : Sys Dev) k l :
  workers s !! i = Some (mkWorker k WTest l) ->
  step_worker cam i s
  = set_workers (<[i := mkWorker k (if truthy (f_running s) then WStmt 0
                                    else WRelease) l]> (workers s)) s.
Proof. intros Hw. unfold step_worker. rewrite Hw. reflexivity. Qed.

Lemma wsteps_app ix1 ix2 (s : Sys Dev) :
  wsteps cam s (ix1 ++ ix2) = wsteps cam (wsteps cam s ix1) ix2.
Proof. apply fold_left_app. Qed.

(** From the loop test, with the running flag set: the test and one pass
    through the body of [_tie]. *)
Lemma _tie_round i (s : Sys Dev) l o b f d1 :
  f_output s = Some o -> f_outframe s = Some b -> b < length (heap s) ->
  f_videoIn s <> None -> truthy (f_running s) = true ->
  workers s !! i = Some (mkWorker K_tie WTest l) ->
  cam_read cam (dev s) = (d1, Some f) ->
  let s' := wsteps cam s (repeat i 3) in
  trace s' = trace s ++ [EvRead true; EvCopy b f; EvWriteFrame (POut o) b f] /\
  workers s' !! i = Some (mkWorker K_tie WTest l) /\
  length (heap s') = length (heap s) /\ dev s' = d1 /\
  f_videoIn s' = f_videoIn s /\ cfg s' = cfg s /\ f_thread s' = f_thread s.
Proof.
  intros Ho Hb Hlt Hv Hrun Hw Hrd.
  assert (Hi : i < length (workers s)) by (eapply lookup_lt_Some; eauto).
  cbn zeta. change (repeat i 3) with ([i] ++ repeat i 2). rewrite wsteps_app.
  cbn [wsteps fold_left]. fold (wsteps cam).
  rewrite (step_test_exact i s K_tie l Hw), Hrun.
  set (s0 := set_workers _ s).
  destruct (_tie_iteration cam s0 l o b f d1 Ho Hb Hlt Hv Hrd)
    as (s1 & Hit & Htr & Hlen & Hdev & Hvi & Hctl).
  assert (Hw0 : workers s0 !! i = Some (mkWorker K_tie (WStmt 0) l))
    by (apply list_lookup_insert_eq; exact Hi).
  pose proof (steps_iteration cam K_tie i l l s0 s1 Hw0 Hit) as E.
  change (length (body_of cam K_tie)) with 2 in E.
  change (fold_left (fun s i => step_worker cam i s) (repeat i 2) s0)
    with (wsteps cam s0 (repeat i 2)).
  rewrite E. cbn.
  split; [exact Htr|].
  split; [rewrite list_insert_insert_eq; apply list_lookup_insert_eq; exact Hi|].
  split; [exact Hlen|]. split; [exact Hdev|]. split; [exact Hvi|].
  split; [apply (ctl_cfg _ _ Hctl) | apply (ctl_thread _ _ Hctl)].
Qed.

End OutFrame.

(** C4 at the input where the code departs from it.  Two frames that the
    source yields one after the other reach the output in that order and
    unchanged, but [_tie] fills the one buffer [self._outframe] again after
    it has passed it to [writeframe]. *)
Theorem tie_reuses_outframe {Dev} (cam : Camera Dev) (s : Sys Dev)
    i l o b f1 d1 f2 d2 :
  f_output s = Some o -> f_outframe s = Some b -> b < length (heap s) ->
  f_videoIn s <> None -> truthy (f_running s) = true ->
  workers s !! i = Some (mkWorker K_tie WTest l) ->
  cam_read cam (dev s) = (d1, Some f1) ->
  cam_read cam d1 = (d2, Some f2) ->
  let s' := wsteps cam s (repeat i 6) in
  let new := [EvRead true; EvCopy b f1; EvWriteFrame (POut o) b f1;
              EvRead true; EvCopy b f2; EvWriteFrame (POut o) b f2] in
  trace s' = trace s ++ new /\
  received (POut o) new = [f1; f2] /\
  touched_after_write new = true.
Proof.
  intros Ho Hb Hlt Hv Hrun Hw Hrd1 Hrd2.
  destruct (_tie_round cam i s l o b f1 d1 Ho Hb Hlt Hv Hrun Hw Hrd1)
    as (Htr1 & Hw1 & Hlen1 & Hdev1 & Hv1 & Hc1 & _).
  set (s1 := wsteps cam s (repeat i 3)) in *.
  destruct (_tie_round cam i s1 l o b f2 d2) as (Htr2 & _); auto.
  - rewrite (cfg_output _ _ Hc1). exact Ho.
  - rewrite (cfg_outframe _ _ Hc1). exact Hb.
  - lia.
  - congruence.
  - rewrite (cfg_running _ _ Hc1). exact Hrun.
  - rewrite Hdev1. exact Hrd2.
  - cbn zeta. change (repeat i 6) with (repeat i 3 ++ repeat i 3).
    rewrite wsteps_app. fold s1. rewrite Htr2, Htr1, <- app_assoc.
    split; [reflexivity|]. cbn. rewrite !Nat.eqb_refl. cbn.
    split; reflexivity.
Qed.

Lemma tie_reuses_outframe_witness :
  let s := state_of (vf_tied [[Byte.x0a]; [Byte.x0b]] 0) in
  let s' := wsteps file_cam s (repeat 0 6) in
  let new := [EvRead true; EvCopy 0 [Byte.x0a]; EvWriteFrame (POut 7) 0 [Byte.x0a];
              EvRead true; EvCopy 0 [Byte.x0b]; EvWriteFrame (POut 7) 0 [Byte.x0b]] in
  trace s' = trace s ++ new /\
  received (POut 7) new = [[Byte.x0a]; [Byte.x0b]] /\
  touched_after_write new = true.
Proof.
  apply (tie_reuses_outframe file_cam (state_of (vf_tied [[Byte.x0a]; [Byte.x0b]] 0))
           0 (mkLocals None None) 7 0 [Byte.x0a]
           ([[Byte.x0a]; [Byte.x0b]], [[Byte.x0b]]) [Byte.x0b]
           ([[Byte.x0a]; [Byte.x0b]], [])).
  - reflexivity.
  - reflexivity.
  - vm_compute. lia.
  - vm_compute. discriminate.
  - reflexivity.
  - reflexivity.
  - reflexivity.
  - reflexivity.
Defined.

(** ** The shape of the blocking methods *)
Section Shapes.
Context {Dev : Type} (cam : Camera Dev).

Lemma FileDisplayPort_tie_shape dp (s : Sys Dev) :
  truthy (f_videoIn s) = true ->
  exists K, FileDisplayPort_tie dp s = Blk (set_dp (Some dp) s) lock_free K /\
            forall x, K x = Fin (tie_resumed x) tt.
Proof.
  intros Hv. unfold FileDisplayPort_tie. rewrite Hv.
  eexists. split; reflexivity.
Qed.

Lemma VideoFile_stop_shape (s : Sys Dev) :
  truthy (f_videoIn s) = true ->
  exists K, VideoFile_stop cam s = Blk (set_running (Some false) s) lock_free K /\
            forall x, K x = Fin (stop_resumed cam x) tt.
Proof.
  intros Hv. unfold VideoFile_stop. rewrite Hv. eexists. split; reflexivity.
Qed.

Lemma FileDisplayPort_stop_shape (s : Sys Dev) :
  truthy (f_videoIn s) = true ->
  exists K, FileDisplayPort_stop cam s
            = Blk (set_running (Some false) s) lock_free K /\
            forall x, K x = Fin (channels_stopped (stop_resumed cam x)) tt.
Proof.
  intros Hv. unfold FileDisplayPort_stop, tbind, VideoFile_stop. rewrite Hv.
  eexists. split; [reflexivity|]. intros x. cbn. unfold channels_stopped.
  cbn. destruct (f_vdma x); reflexivity.
Qed.

(** The reconfiguring half of [PSVideo.start]. *)
Lemma PSVideo_start_first_shape (s : Sys Dev) sc :
  _configure cam (emit (EvDpConfigure (p_mode s)) s) = (sc, Ok tt) ->
  f_videoIn sc = Some true ->
  exists K1,
    tbind (lift (modify (emit (EvDpConfigure (p_mode s)))))
      (fun _ => tbind (FileDisplayPort_start cam)
         (fun _ => tbind (FileDisplayPort_tie (p_dp s))
            (fun _ => lift (modify (set_started (Some true)))))) s
    = Blk (start_parked s sc) lock_free K1 /\
    forall x, K1 x = Fin (set_started (Some true) (tie_resumed x)) tt.
Proof.
  intros Ec Vc.
  assert (E1 : FileDisplayPort_start cam (emit (EvDpConfigure (p_mode s)) s)
               = Fin (if f_vdma sc
                      then emit (EvChanStart PReadChannel)
                             (emit (EvChanStart PWriteChannel) sc)
                      else sc) tt).
  { unfold FileDisplayPort_start, tbind, lift. rewrite Ec.
    cbn [obind]. destruct (f_vdma sc); reflexivity. }
  unfold tbind at 1. cbn [lift modify obind].
  unfold tbind at 1. rewrite E1. cbn [obind].
  unfold tbind at 1.
  match goal with |- context [FileDisplayPort_tie ?dp ?y] =>
    destruct (FileDisplayPort_tie_shape dp y) as (K & -> & HK)
  end.
  { destruct (f_vdma sc); cbn; rewrite Vc; reflexivity. }
  cbn [obind]. eexists. split; [reflexivity|].
  intros x. cbn beta. rewrite HK. reflexivity.
Qed.

(** [PSVideo.start] on a facade that is not started: it parks in the
    [acquire] of [tie]; when it resumes, it completes that [tie], and if
    [_pause] is set it calls [tie] once more and parks again. *)
Lemma PSVideo_start_shape (s : Sys Dev) :
  (forall f d, snd (cam_open cam f d) = true) ->
  truthy (p_started s) = false ->
  exists sc K,
    _configure cam (emit (EvDpConfigure (p_mode s)) s) = (sc, Ok tt) /\
    PSVideo_start cam s = Blk (start_parked s sc) lock_free K /\
    forall x,
      let y := set_started (Some true) (tie_resumed x) in
      if truthy (p_pause x)
      then truthy (f_videoIn x) = true ->
           exists K2, K x = Blk (set_dp (Some (p_dp x)) y) lock_free K2
      else K x = Fin y tt.
Proof.
  intros Ho Hst.
  destruct (_configure_ok cam Ho (emit (EvDpConfigure (p_mode s)) s))
    as (sc & Ec & Vc & Cc & _).
  destruct (PSVideo_start_first_shape s sc Ec Vc) as (K1 & E1 & HK1).
  exists sc. unfold PSVideo_start. unfold tbind at 1. rewrite Hst.
  cbn [negb]. rewrite E1. cbn [obind].
  eexists. split; [exact Ec|]. split; [reflexivity|].
  intros x. cbn beta zeta. rewrite HK1. cbn [obind].
  change (p_pause (set_started (Some true) (tie_resumed x))) with (p_pause x).
  destruct (truthy (p_pause x)) eqn:Ep; [|reflexivity].
  intros Hv. unfold tbind at 1.
  destruct (FileDisplayPort_tie_shape (p_dp x) (set_started (Some true) (tie_resumed x)))
    as (K2 & E2 & _); [exact Hv|].
  change (p_dp (set_started (Some true) (tie_resumed x))) with (p_dp x).
  rewrite E2. cbn [obind]. eexists. reflexivity.
Qed.


End Shapes.

(** ** Restarting after pause and stop *)
Section Restart.
Context {Dev : Type} (cam : Camera Dev).

Lemma no_exit_step i (s : Sys Dev) : no_exit s -> no_exit (step_worker cam i s).
Proof.
  intros (Hth & Hrun & Hall). unfold step_worker.
  destruct (workers s !! i) as [w|] eqn:Ew; [|repeat split; assumption].
  destruct (worker_step cam w s) as [s1 w'] eqn:E.
  destruct (worker_step_spec cam _ _ _ _ E) as [_ H].
  assert (Hw : w_pc w <> WRelease).
  { apply (proj1 (Forall_forall _ _) Hall). apply list_elem_of_lookup. eauto. }
  destruct (w_pc w) eqn:Epc; try congruence.
  - destruct H as [-> Hpc]. rewrite Hrun in Hpc.
    split; [exact Hth|]. split; [exact Hrun|]. cbn.
    apply Forall_insert; [exact Hall | rewrite Hpc; discriminate].
  - destruct H as (C & _ & Hne & _).
    split; [cbn; rewrite (ctl_thread _ _ C); exact Hth|].
    split; [cbn; rewrite (cfg_running _ _ (ctl_cfg _ _ C)); exact Hrun|]. cbn.
    apply Forall_insert; [rewrite (ctl_workers _ _ C); exact Hall | exact Hne].
  - destruct H as [-> ->]. rewrite (list_insert_id _ _ _ Ew), set_workers_same.
    repeat split; assumption.
  - destruct H as [-> ->]. rewrite (list_insert_id _ _ _ Ew), set_workers_same.
    repeat split; assumption.
Qed.

Lemma no_exit_wsteps ix (s : Sys Dev) : no_exit s -> no_exit (wsteps cam s ix).
Proof.
  revert s. induction ix as [|i ix IH]; intros s H; [exact H|].
  apply IH, no_exit_step, H.
Qed.

(** A caller parked on the lock stays parked when nothing can release it. *)
Lemma parked_for_ever {A} sched (s : Sys Dev) (K : Sys Dev -> Outcome A) :
  no_exit s ->
  exists ix, run cam sched (Blk s lock_free K) = Blk (wsteps cam s ix) lock_free K.
Proof.
  intros H. destruct (run_Blk cam sched s lock_free K)
    as [[ix E]|(ix & sched' & Hc & _)]; [eauto|].
  destruct (no_exit_wsteps ix s H) as [Hth _].
  unfold lock_free in Hc. rewrite Hth in Hc. discriminate.
Qed.

(** A caller whose condition holds, with no worker under way, goes on as
    soon as it is scheduled. *)
Lemma run_Blk_ready {A} sched (s : Sys Dev) c (K : Sys Dev -> Outcome A) :
  alive_count (workers s) = 0 -> c s = true ->
  (~ In TMain sched /\ run cam sched (Blk s c K) = Blk s c K) \/
  (In TMain sched /\ exists sched', run cam sched (Blk s c K) = run cam sched' (K s)).
Proof.
  intros Hz Hc. induction sched as [|t sched IH].
  - left. split; [intros []|reflexivity].
  - destruct t as [|i].
    + right. split; [left; reflexivity|]. exists sched. cbn. rewrite Hc. reflexivity.
    + cbn. change (step_worker cam i s) with (wsteps cam s [i]).
      rewrite (all_dead_stutter cam [i] s Hz).
      destruct IH as [[Hn E]|[Hin [sched' E]]].
      * left. split; [|exact E]. intros [H|H]; [discriminate | contradiction].
      * right. split; [right; exact Hin | eauto].
Qed.

Lemma alive_count_dead_pcs ws :
  alive_count ws = 0 -> Forall (fun w => w_pc w <> WRelease) ws.
Proof.
  induction ws as [|w ws IH]; simpl; intros H; constructor.
  - unfold alive in H. destruct (w_pc w); simpl in H; try lia; discriminate.
  - apply IH. destruct (alive w); lia.
Qed.

End Restart.

(** C5 at the input where the code departs from it.  After [pause()] and
    [stop()] the facade is not started and [_pause] is still set.  The next
    [start()] reconfigures, calls [tie] and starts a loop, then, because of
    [_pause], calls [tie] a second time: that call waits for the lock which
    the loop it has just started holds and never gives up, so [start()]
    never returns, whatever the scheduler does. *)
Theorem restart_after_pause_stop_never_returns {Dev} (cam : Camera Dev)
    (s : Sys Dev) sched :
  (forall f d, snd (cam_open cam f d) = true) ->
  lock_inv s -> f_thread s = false ->
  truthy (p_started s) = false -> truthy (p_pause s) = true ->
  let o := run cam sched (PSVideo_start cam s) in
  blocked o = true /\
  (In TMain sched ->
   p_started (state_of o) = Some true /\
   f_thread (state_of o) = true /\
   countb is_dp_configure (trace (state_of o)) = S (countb is_dp_configure (trace s)) /\
   countb is_acquire (trace (state_of o)) = S (countb is_acquire (trace s)) /\
   countb is_spawn (trace (state_of o)) = S (countb is_spawn (trace s))).
Proof.
  intros Ho Hinv Hth Hst Hpa.
  destruct (PSVideo_start_shape cam s Ho Hst) as (sc & K & Ec & -> & HK).
  destruct (wop__configure cam _ _ _ Ec) as [Cc Xc].
  destruct (_configure_ok cam Ho (emit (EvDpConfigure (p_mode s)) s))
    as (sc' & Ec' & Vc & _). rewrite Ec in Ec'. injection Ec' as <-.
  pose proof (ctl_cfg _ _ Cc) as Cf. cbn in Cf.
  assert (Hz : alive_count (workers s) = 0) by (apply Hinv, Hth).
  set (sa := start_parked s sc).
  assert (Ha : workers sa = workers s /\ f_thread sa = false /\
               truthy (p_pause sa) = true /\ truthy (f_videoIn sa) = true /\
               ext (fun e => stmt_event e || match e with EvChanStart _ => true | _ => false end)
                   (emit (EvDpConfigure (p_mode s)) s) sa).
  { unfold sa, start_parked.
    pose proof (ctl_workers _ _ Cc) as Hw. pose proof (ctl_thread _ _ Cc) as Ht.
    pose proof (cfg_pause _ _ Cf) as Hp. cbn in Hw, Ht, Hp.
    assert (Xc' : ext (fun e => stmt_event e
                        || match e with EvChanStart _ => true | _ => false end)
                      (emit (EvDpConfigure (p_mode s)) s) sc).
    { eapply ext_impl; [|exact Xc]. intros e ->. reflexivity. }
    destruct (f_vdma sc); cbn; rewrite ?Hw, ?Ht, ?Hp, ?Vc;
      (split; [reflexivity|]); (split; [exact Hth|]); (split; [exact Hpa|]);
      (split; [reflexivity|]); [|exact Xc'].
    eapply ext_trans; [exact Xc'|].
    exists [EvChanStart PWriteChannel; EvChanStart PReadChannel].
    split; [cbn; rewrite <- app_assoc; reflexivity | reflexivity]. }
  destruct Ha as (Hwa & Hta & Hpa' & Hva & Xa). clearbody sa.
  cbn zeta.
  destruct (run_Blk_ready cam sched sa lock_free K)
    as [[Hn E]|[Hin [sched' E]]]; try rewrite E.
  - rewrite Hwa. exact Hz.
  - unfold lock_free. rewrite Hta. reflexivity.
  - split; [reflexivity | intros Hin; contradiction].
  - specialize (HK sa). cbn zeta in HK. rewrite Hpa' in HK.
    destruct (HK Hva) as [K2 EK]. rewrite EK.
    set (sb := set_dp (Some (p_dp sa)) (set_started (Some true) (tie_resumed sa))).
    assert (Hb : no_exit sb).
    { split; [reflexivity|]. split; [reflexivity|].
      change (workers sb)
        with (workers sa ++ [mkWorker (if f_vdma sa then K_tievdma else K_tienovdma)
                                      WTest (mkLocals None None)]).
      rewrite Hwa. apply Forall_app. split.
      - apply alive_count_dead_pcs, Hz.
      - constructor; [destruct (f_vdma sa); discriminate | constructor]. }
    destruct (parked_for_ever cam sched' sb K2 Hb) as [ix ->].
    split; [reflexivity|]. intros _. cbn [state_of].
    destruct (wsteps_evolves cam ix sb) as (Ce & Xe & _).
    destruct (no_exit_wsteps cam ix sb Hb) as (Hte & _).
    split; [rewrite (cfg_started _ _ Ce); reflexivity|].
    split; [exact Hte|].
    assert (Hcount : forall p, (forall e, worker_event e = true -> p e = false) ->
              (forall e, match e with EvChanStart _ => true | _ => false end = true ->
                         p e = false) ->
              countb p (trace (wsteps cam sb ix))
              = countb p (trace s) + countb p [EvDpConfigure (p_mode s)]
                + countb p [EvAcquire; EvSpawn (if f_vdma sa then K_tievdma
                                                else K_tienovdma)]).
    { intros p Hp1 Hp2. rewrite (ext_count p worker_event _ _ Hp1 Xe).
      assert (Hq : forall e,
                 stmt_event e || match e with EvChanStart _ => true | _ => false end
                 = true -> p e = false).
      { intros e H. apply orb_true_iff in H as [H|H];
          [apply Hp1, stmt_event_worker, H | apply Hp2, H]. }
      cbn. rewrite !countb_app, (ext_count p _ _ _ Hq Xa).
      cbn. rewrite countb_app. cbn. lia. }
    split; [|split].
    + rewrite Hcount; [cbn; lia|intros []; cbn; congruence..].
    + rewrite Hcount; [cbn; lia|intros []; cbn; congruence..].
    + rewrite Hcount; [cbn; lia|intros []; cbn; congruence..].
Qed.

Lemma restart_after_pause_stop_never_returns_witness :
  let s := state_of ps_stopped in
  let o := run live_cam [TMain; TWorker 1; TWorker 1; TMain; TWorker 1; TMain]
               (PSVideo_start live_cam s) in
  blocked o = true /\
  p_started (state_of o) = Some true /\
  f_thread (state_of o) = true /\
  countb is_dp_configure (trace (state_of o)) = S (countb is_dp_configure (trace s)) /\
  countb is_acquire (trace (state_of o)) = S (countb is_acquire (trace s)) /\
  countb is_spawn (trace (state_of o)) = S (countb is_spawn (trace s)).
Proof.
  destruct (restart_after_pause_stop_never_returns live_cam (state_of ps_stopped)
              [TMain; TWorker 1; TWorker 1; TMain; TWorker 1; TMain]) as [H1 H2].
  - intros f d. reflexivity.
  - vm_compute. split; [lia | reflexivity].
  - vm_compute. reflexivity.
  - vm_compute. reflexivity.
  - vm_compute. reflexivity.
  - split; [exact H1 | apply H2; left; reflexivity].
Defined.

(** The facade really gets there: [start(); pause(); stop()] on a fresh
    [PSVideo] returns with [_started = False] and [_pause = True]. *)
Lemma pause_stop_leaves_pause_set :
  returned ps_stopped = true /\
  p_started (state_of ps_stopped) = Some false /\
  p_pause (state_of ps_stopped) = Some true /\
  f_thread (state_of ps_stopped) = false.
Proof. vm_compute. repeat split. Qed.

(** ** Stopping *)
Section Stop.
Context {Dev : Type} (cam : Camera Dev).

Lemma stop_generic sched (s1 : Sys Dev) K fin :
  lock_inv s1 ->
  (forall x, K x = Fin (fin x) tt) ->
  (forall x, workers (fin x) = workers x) ->
  (exists x, run cam sched (Blk s1 lock_free K) = Blk x lock_free K /\ evolves s1 x) \/
  (exists x, run cam sched (Blk s1 lock_free K) = Fin (fin x) tt /\
             evolves s1 x /\ f_thread x = false /\ alive_count (workers x) = 0).
Proof.
  intros Hinv HK Hfin.
  destruct (run_Blk cam sched s1 lock_free K) as [[ix E]|(ix & sched' & Hc & E)].
  - left. exists (wsteps cam s1 ix). split; [exact E | apply wsteps_evolves].
  - right. set (x := wsteps cam s1 ix) in *. exists x.
    pose proof (wsteps_evolves cam ix s1) as Hev. fold x in Hev.
    assert (Hth : f_thread x = false)
      by (unfold lock_free in Hc; destruct (f_thread x); [discriminate|reflexivity]).
    assert (Hz : alive_count (workers x) = 0).
    { destruct Hev as (_ & _ & _ & H). destruct (H Hinv) as [[_ H0] _]. auto. }
    rewrite E, HK. destruct (run_Fin cam sched' (fin x) tt) as [ix' ->].
    rewrite all_dead_stutter by (rewrite Hfin; exact Hz). auto.
Qed.

Lemma run_app {A} sched1 sched2 (o : Outcome (Dev := Dev) A) :
  run cam (sched1 ++ sched2) o = run cam sched2 (run cam sched1 o).
Proof. apply fold_left_app. Qed.

(** While every turn of the caller finds the lock held, the caller stays
    parked and only the workers move. *)
Lemma run_polls_locked {A} pre (s1 : Sys Dev) (K : Sys Dev -> Outcome A) :
  polls_locked cam s1 pre = true ->
  run cam pre (Blk s1 lock_free K)
  = Blk (wsteps cam s1 (workers_of pre)) lock_free K.
Proof.
  revert s1. induction pre as [|t pre IH]; intros s1 Hp; [reflexivity|].
  destruct t as [|i]; cbn in Hp |- *.
  - apply andb_prop in Hp. destruct Hp as [Hth Hp].
    unfold lock_free. rewrite Hth. cbn. apply IH, Hp.
  - apply IH, Hp.
Qed.

(** At the first turn that finds the lock free the caller goes on; no loop
    being under way then, nothing changes afterwards. *)
Lemma stop_proceeds pre post (s1 : Sys Dev) K fin :
  lock_inv s1 ->
  (forall x, K x = Fin (fin x) tt) ->
  (forall x, workers (fin x) = workers x) ->
  polls_locked cam s1 pre = true ->
  f_thread (wsteps cam s1 (workers_of pre)) = false ->
  run cam (pre ++ TMain :: post) (Blk s1 lock_free K)
  = Fin (fin (wsteps cam s1 (workers_of pre))) tt.
Proof.
  intros Hinv HK Hfin Hp Hth.
  rewrite run_app, (run_polls_locked pre s1 K Hp).
  set (x := wsteps cam s1 (workers_of pre)) in *.
  change (run cam (TMain :: post) (Blk x lock_free K))
    with (run cam post (if lock_free x then K x else Blk x lock_free K)).
  unfold lock_free at 1. rewrite Hth. cbn [negb]. rewrite HK.
  destruct (run_Fin cam post (fin x) tt) as [ix ->].
  rewrite all_dead_stutter; [reflexivity|].
  rewrite Hfin.
  destruct (wsteps_evolves cam (workers_of pre) s1) as (_ & _ & _ & H).
  destruct (H Hinv) as [[_ H0] _]. apply H0, Hth.
Qed.

Lemma stop_waits (s : Sys Dev) sched K fin :
  lock_inv s ->
  (forall x, K x = Fin (fin x) tt) ->
  (forall x, workers (fin x) = workers x) ->
  waits_then_releases s fin
    (run cam sched (Blk (set_running (Some false) s) lock_free K)).
Proof.
  intros Hinv HK Hfin.
  destruct (stop_generic sched (set_running (Some false) s) K fin)
    as [(x & -> & Hev)|(x & -> & Hev & Hth & Hz)]; auto;
    destruct Hev as (Cf & (evs & Ht & Hf) & _);
    pose proof (cfg_running _ _ Cf) as Hr; cbn in Hr, Ht.
  - left. split; [reflexivity|]. split; [exact Hr|]. cbn.
    rewrite Ht, countb_app, (countb_none is_release worker_event evs); [lia| |exact Hf].
    intros []; cbn; congruence.
  - right. exists x. split; [reflexivity|]. split; [exact Hr|].
    split; [exists evs; auto | auto].
Qed.

End Stop.

(** C3.  [stop] on a started source clears the running flag and then
    polls the lock.  As long as it polls, nothing has been released.  When
    it has returned, the capture was released (and, in [FileDisplayPort],
    the channels of the VDMA stopped) in a state in which the lock was free
    and no copy loop was under way, after the last event of any worker.
    And [stop] does both, wait and go on: as long as every turn of the
    caller finds the lock held, [stop] is parked and the state is what the
    workers made of the state with the flag cleared; at the first turn
    that finds the lock free, [stop] releases the capture (and stops the
    channels) in that very state and returns, and nothing changes
    afterwards. *)
Theorem stop_waits_for_worker {Dev} (cam : Camera Dev) (s : Sys Dev) sched :
  lock_inv s -> truthy (f_videoIn s) = true ->
  waits_then_releases s (stop_resumed cam)
    (run cam sched (VideoFile_stop cam s)) /\
  waits_then_releases s (fun x => channels_stopped (stop_resumed cam x))
    (run cam sched (FileDisplayPort_stop cam s)) /\
  (forall pre,
      polls_locked cam (set_running (Some false) s) pre = true ->
      let x := wsteps cam (set_running (Some false) s) (workers_of pre) in
      blocked (run cam pre (VideoFile_stop cam s)) = true /\
      state_of (run cam pre (VideoFile_stop cam s)) = x /\
      blocked (run cam pre (FileDisplayPort_stop cam s)) = true /\
      state_of (run cam pre (FileDisplayPort_stop cam s)) = x) /\
  (forall pre post,
      polls_locked cam (set_running (Some false) s) pre = true ->
      let x := wsteps cam (set_running (Some false) s) (workers_of pre) in
      f_thread x = false ->
      run cam (pre ++ TMain :: post) (VideoFile_stop cam s)
      = Fin (stop_resumed cam x) tt /\
      run cam (pre ++ TMain :: post) (FileDisplayPort_stop cam s)
      = Fin (channels_stopped (stop_resumed cam x)) tt).
Proof.
  intros Hinv Hv.
  destruct (VideoFile_stop_shape cam s Hv) as (K & EK & HK).
  destruct (FileDisplayPort_stop_shape cam s Hv) as (K' & EK' & HK').
  assert (Hch : forall x : Sys Dev,
             workers (channels_stopped (stop_resumed cam x)) = workers x)
    by (intros x; unfold channels_stopped; destruct (f_vdma _); reflexivity).
  rewrite EK, EK'.
  split; [apply stop_waits; auto|].
  split; [apply stop_waits; auto|].
  split.
  - intros pre Hp. cbn zeta.
    rewrite !(run_polls_locked cam pre _ _ Hp). cbn. auto.
  - intros pre post Hp x Hx. split.
    + apply (stop_proceeds cam pre post _ K (stop_resumed cam)); auto.
    + apply (stop_proceeds cam pre post _ K'
               (fun y => channels_stopped (stop_resumed cam y))); auto.
Qed.

Lemma stop_waits_for_worker_witness :
  let s := state_of ps_running in
  let s1 := set_running (Some false) s in
  let polling := [TWorker 0; TMain; TWorker 0; TMain] in
  let pre := repeat (TWorker 0) 8 in
  (waits_then_releases s (stop_resumed live_cam)
     (run live_cam (pre ++ [TMain]) (VideoFile_stop live_cam s)) /\
   waits_then_releases s
     (fun x => channels_stopped (stop_resumed live_cam x))
     (run live_cam (pre ++ [TMain]) (FileDisplayPort_stop live_cam s))) /\
  (blocked (run live_cam polling (FileDisplayPort_stop live_cam s)) = true /\
   state_of (run live_cam polling (FileDisplayPort_stop live_cam s))
   = wsteps live_cam s1 [0; 0]) /\
  (run live_cam (pre ++ TMain :: [TWorker 0]) (VideoFile_stop live_cam s)
   = Fin (stop_resumed live_cam (wsteps live_cam s1 (workers_of pre))) tt /\
   run live_cam (pre ++ TMain :: [TWorker 0]) (FileDisplayPort_stop live_cam s)
   = Fin (channels_stopped
            (stop_resumed live_cam (wsteps live_cam s1 (workers_of pre)))) tt).
Proof.
  assert (Hinv : lock_inv (state_of ps_running))
    by (vm_compute; split; [lia | discriminate]).
  assert (Hv : truthy (f_videoIn (state_of ps_running)) = true)
    by (vm_compute; reflexivity).
  destruct (stop_waits_for_worker live_cam (state_of ps_running)
              (repeat (TWorker 0) 8 ++ [TMain]) Hinv Hv)
    as (W1 & W2 & Hwait & Hgo).
  split; [split; [exact W1 | exact W2]|]. split.
  - destruct (Hwait [TWorker 0; TMain; TWorker 0; TMain]) as (_ & _ & B & S);
      [vm_compute; reflexivity|].
    split; [exact B | exact S].
  - apply (Hgo (repeat (TWorker 0) 8) [TWorker 0]); vm_compute; reflexivity.
Defined.

(** On that run [stop] does return, and the trace ends with the release of
    the lock by the worker followed by the releases of [stop]. *)
Lemma stop_returns_after_release :
  let o := run live_cam (repeat (TWorker 0) 8 ++ [TMain])
               (FileDisplayPort_stop live_cam (state_of ps_running)) in
  returned o = true /\
  firstn 4 (rev (trace (state_of o)))
  = [EvChanStop PReadChannel; EvChanStop PWriteChannel; EvRelease; EvLockRelease].
Proof. vm_compute. split; reflexivity. Qed.

(** ** When no read fails the source is not reconfigured *)
Section NoRetry.
Context {Dev : Type} (cam : Camera Dev).
Hypothesis read_ok : forall d, snd (cam_read cam d) <> None.

Lemma noopen_ret {A} (a : A) : noopen (Dev := Dev) (ret a).
Proof. intros s s' r [= <- _]. auto. Qed.

Lemma noopen_raise {A} e : noopen (Dev := Dev) (A := A) (raise e).
Proof. intros s s' r [= <- _]. auto. Qed.

Lemma noopen_bind {A B} (m : St A) (k : A -> St (Dev := Dev) B) :
  noopen m -> (forall a, noopen (k a)) -> noopen (bind m k).
Proof.
  intros Hm Hk s s' r. unfold bind. destruct (m s) as [s1 [a|e]] eqn:E; intros H.
  - destruct (Hm _ _ _ E) as [V1 O1]. destruct (Hk a _ _ _ H) as [V2 O2].
    split; congruence.
  - injection H as <- _. exact (Hm _ _ _ E).
Qed.

Lemma noopen_deref {A} what (g : Sys Dev -> option A) :
  noopen (fun s => deref what (g s) s).
Proof. intros s s' r. destruct (g s); simpl; intros [= <- _]; auto. Qed.

Lemma noopen_deref_local {A} what (v : option A) : noopen (Dev := Dev) (deref what v).
Proof. apply (noopen_deref what (fun _ => v)). Qed.

Lemma noopen_the_vdma : noopen (Dev := Dev) the_vdma.
Proof.
  intros s s' r. unfold the_vdma. destruct (f_vdma s); intros [= <- _]; auto.
Qed.

Lemma noopen_newframe p : noopen (Dev := Dev) (newframe p).
Proof.
  intros s s' r [= <- _]. cbn. rewrite countb_app. cbn. split; [reflexivity | lia].
Qed.

Lemma noopen_copy_into b f : noopen (Dev := Dev) (copy_into b f).
Proof.
  intros s s' r [= <- _]. cbn. rewrite countb_app. cbn. split; [reflexivity | lia].
Qed.

Lemma noopen_writeframe p b : noopen (Dev := Dev) (writeframe p b).
Proof.
  intros s s' r [= <- _]. cbn. rewrite countb_app. cbn. split; [reflexivity | lia].
Qed.

Lemma noopen_readchannel_readframe : noopen (readchannel_readframe cam).
Proof.
  intros s s' r. unfold readchannel_readframe.
  destruct (vdma_read cam (dev s)) as [d f]. intros [= <- _].
  cbn. rewrite countb_app. cbn. split; [reflexivity | lia].
Qed.

Lemma noopen_readframe : noopen (readframe cam).
Proof.
  intros s s' r. unfold readframe. cbn [readframe_loop]. unfold bind at 1.
  unfold videoIn_read. destruct (f_videoIn s) eqn:Ev.
  - pose proof (read_ok (dev s)) as Hr.
    destruct (cam_read cam (dev s)) as [d [f|]]; [|cbn in Hr; congruence].
    intros [= <- _]. cbn. rewrite countb_app. cbn. split; [exact Ev | lia].
  - intros [= <- _]. auto.
Qed.

Lemma noopen_try_except {A} (m : St A) :
  noopen m -> noopen (Dev := Dev) (try_except_RuntimeError m).
Proof.
  intros Hm s s' r. unfold try_except_RuntimeError.
  destruct (m s) as [s1 [a|[]]] eqn:E; intros [= <- _]; exact (Hm _ _ _ E).
Qed.

Create HintDb noopen.

#[local] Hint Resolve noopen_ret noopen_raise noopen_deref noopen_deref_local
  noopen_the_vdma noopen_newframe noopen_copy_into noopen_writeframe
  noopen_readchannel_readframe noopen_readframe noopen_try_except : noopen.

Ltac noopen_auto :=
  repeat first
    [ solve [auto with noopen]
    | apply noopen_deref
    | apply noopen_try_except
    | apply noopen_bind; [|intros ?] ].

Lemma noopen_body k i (st : Stmt) l :
  body_of cam k !! i = Some st -> noopen (st l).
Proof.
  destruct k; simpl; intros H.
  - destruct i as [|[|[|]]]; simpl in H; try discriminate;
      injection H as <-; noopen_auto.
  - destruct i as [|[|[|[|[|[|[|]]]]]]]; simpl in H; try discriminate;
      injection H as <-; noopen_auto.
  - destruct i as [|[|[|[|]]]]; simpl in H; try discriminate;
      injection H as <-; noopen_auto.
Qed.

Lemma calm_refl (s : Sys Dev) : calm s s.
Proof. split; [apply evolves_refl | auto]. Qed.

Lemma calm_trans (s1 s2 s3 : Sys Dev) : calm s1 s2 -> calm s2 s3 -> calm s1 s3.
Proof.
  intros (E1 & V1 & O1) (E2 & V2 & O2).
  split; [eapply evolves_trans; eauto | split; congruence].
Qed.

Lemma step_worker_calm i (s : Sys Dev) : calm s (step_worker cam i s).
Proof.
  split; [apply step_worker_evolves|]. unfold step_worker.
  destruct (workers s !! i) as [w|] eqn:Ew; [|auto].
  unfold worker_step. destruct (w_pc w) as [|j| | |e]; cbn; auto.
  - destruct (body_of cam (w_kind w) !! j) as [st|] eqn:Est; cbn; auto.
    destruct (st (w_loc w) s) as [s1 r] eqn:E.
    destruct (noopen_body _ _ _ _ Est _ _ _ E) as [V O].
    destruct r; cbn; auto.
  - unfold lock_release. destruct (f_thread s); cbn; auto.
    rewrite countb_app. cbn. split; [reflexivity | lia].
Qed.

Lemma wsteps_calm ix (s : Sys Dev) : calm s (wsteps cam s ix).
Proof.
  revert s. induction ix as [|i ix IH]; intros s; cbn.
  - apply calm_refl.
  - eapply calm_trans; [apply step_worker_calm | apply IH].
Qed.

End NoRetry.

(** ** Pause and resume *)
Section Resume.
Context {Dev : Type} (cam : Camera Dev).

Lemma PSVideo_pause_shape (s : Sys Dev) :
  truthy (p_started s) = true -> truthy (p_pause s) = false ->
  truthy (f_videoIn s) = true ->
  exists sp, PSVideo_pause s = Fin sp tt /\
             trace sp = trace s /\ workers sp = workers s /\
             f_thread sp = f_thread s /\ f_videoIn sp = f_videoIn s /\
             p_started sp = p_started s /\ p_pause sp = Some true /\
             truthy (f_running sp) = false.
Proof.
  intros Hst Hpa Hv. unfold PSVideo_pause, tbind, VideoFile_pause.
  rewrite Hst, Hpa, Hv. cbn.
  destruct (truthy (f_running s)) eqn:Hr; cbn; eexists; (split; [reflexivity|]);
    cbn; repeat split; auto.
Qed.

Lemma PSVideo_start_paused_shape (s : Sys Dev) :
  truthy (p_started s) = true -> truthy (p_pause s) = true ->
  truthy (f_videoIn s) = true ->
  exists K, PSVideo_start cam s = Blk (set_dp (Some (p_dp s)) s) lock_free K /\
            forall x, K x = Fin (set_pause None (tie_resumed x)) tt.
Proof.
  intros Hst Hpa Hv. unfold PSVideo_start, tbind. rewrite Hst. cbn.
  rewrite Hpa. unfold FileDisplayPort_tie. rewrite Hv. cbn.
  eexists. split; reflexivity.
Qed.

End Resume.

(** ** Every reopening follows a read that failed *)
Section Retries.
Context {Dev : Type} (cam : Camera Dev).

Lemma open_balance_refl (s : Sys Dev) : open_balance s s.
Proof. unfold open_balance. lia. Qed.

Lemma open_balance_trans (s1 s2 s3 : Sys Dev) :
  open_balance s1 s2 -> open_balance s2 s3 -> open_balance s1 s3.
Proof. unfold open_balance. lia. Qed.

Lemma paired_ret {A} (a : A) : paired (Dev := Dev) (ret a).
Proof. intros s s' r [= <- _]. apply open_balance_refl. Qed.

Lemma paired_raise {A} e : paired (Dev := Dev) (A := A) (raise e).
Proof. intros s s' r [= <- _]. apply open_balance_refl. Qed.

Lemma paired_bind {A B} (m : St A) (k : A -> St (Dev := Dev) B) :
  paired m -> (forall a, paired (k a)) -> paired (bind m k).
Proof.
  intros Hm Hk s s' r. unfold bind. destruct (m s) as [s1 [a|e]] eqn:E; intros H.
  - eapply open_balance_trans; [exact (Hm _ _ _ E) | exact (Hk a _ _ _ H)].
  - injection H as <- _. exact (Hm _ _ _ E).
Qed.

Lemma paired_deref {A} what (g : Sys Dev -> option A) :
  paired (fun s => deref what (g s) s).
Proof.
  intros s s' r. destruct (g s); simpl; intros [= <- _]; apply open_balance_refl.
Qed.

Lemma paired_deref_local {A} what (v : option A) : paired (Dev := Dev) (deref what v).
Proof. apply (paired_deref what (fun _ => v)). Qed.

Lemma paired_the_vdma : paired (Dev := Dev) the_vdma.
Proof.
  intros s s' r. unfold the_vdma.
  destruct (f_vdma s); intros [= <- _]; apply open_balance_refl.
Qed.

Lemma paired_newframe p : paired (Dev := Dev) (newframe p).
Proof.
  intros s s' r [= <- _]. unfold open_balance. cbn. rewrite !countb_app. cbn. lia.
Qed.

Lemma paired_copy_into b f : paired (Dev := Dev) (copy_into b f).
Proof.
  intros s s' r [= <- _]. unfold open_balance. cbn. rewrite !countb_app. cbn. lia.
Qed.

Lemma paired_writeframe p b : paired (Dev := Dev) (writeframe p b).
Proof.
  intros s s' r [= <- _]. unfold open_balance. cbn. rewrite !countb_app. cbn. lia.
Qed.

Lemma paired_readchannel_readframe : paired (readchannel_readframe cam).
Proof.
  intros s s' r. unfold readchannel_readframe.
  destruct (vdma_read cam (dev s)) as [d f]. intros [= <- _].
  unfold open_balance. cbn. rewrite !countb_app. cbn. lia.
Qed.

(** In [readframe] every read that fails is followed by one [_configure],
    and [_configure] is called nowhere else. *)
Lemma paired_readframe_loop n : paired (readframe_loop cam n).
Proof.
  induction n as [|n IH]; intros s s' r; cbn [readframe_loop].
  - intros [= <- _]. apply open_balance_refl.
  - unfold bind at 1. unfold videoIn_read.
    destruct (f_videoIn s); [|intros [= <- _]; apply open_balance_refl].
    destruct (cam_read cam (dev s)) as [d [f|]].
    + intros [= <- _]. unfold open_balance. cbn. rewrite !countb_app. cbn. lia.
    + unfold bind.
      change (bool_decide (is_Some (@None Frame))) with false.
      destruct (_configure_counts cam (set_dev d (emit (EvRead false) s))) as [O R].
      cbn in O, R. rewrite countb_app in O, R. cbn in O, R.
      destruct (_configure cam (set_dev d (emit (EvRead false) s)))
        as [s2 [[]|e]]; cbn in O, R.
      * intros H. apply IH in H. unfold open_balance in *. lia.
      * intros [= <- _]. unfold open_balance. lia.
Qed.

Lemma paired_readframe : paired (readframe cam).
Proof. apply paired_readframe_loop. Qed.

Lemma paired_try_except {A} (m : St A) :
  paired m -> paired (Dev := Dev) (try_except_RuntimeError m).
Proof.
  intros Hm s s' r. unfold try_except_RuntimeError.
  destruct (m s) as [s1 [a|[]]] eqn:E; intros [= <- _]; exact (Hm _ _ _ E).
Qed.

Create HintDb paired.

#[local] Hint Resolve paired_ret paired_raise paired_deref paired_deref_local
  paired_the_vdma paired_newframe paired_copy_into paired_writeframe
  paired_readchannel_readframe paired_readframe paired_try_except : paired.

Ltac paired_auto :=
  repeat first
    [ solve [auto with paired]
    | apply paired_deref
    | apply paired_try_except
    | apply paired_bind; [|intros ?] ].

Lemma paired_body k i (st : Stmt) l :
  body_of cam k !! i = Some st -> paired (st l).
Proof.
  destruct k; simpl; intros H.
  - destruct i as [|[|[|]]]; simpl in H; try discriminate;
      injection H as <-; paired_auto.
  - destruct i as [|[|[|[|[|[|[|]]]]]]]; simpl in H; try discriminate;
      injection H as <-; paired_auto.
  - destruct i as [|[|[|[|]]]]; simpl in H; try discriminate;
      injection H as <-; paired_auto.
Qed.

Lemma step_worker_paired i (s : Sys Dev) : open_balance s (step_worker cam i s).
Proof.
  unfold step_worker.
  destruct (workers s !! i) as [w|] eqn:Ew; [|apply open_balance_refl].
  unfold worker_step. destruct (w_pc w) as [|j| | |e]; cbn;
    try (unfold open_balance; cbn; lia).
  - destruct (body_of cam (w_kind w) !! j) as [st|] eqn:Est; cbn;
      [|unfold open_balance; cbn; lia].
    destruct (st (w_loc w) s) as [s1 r] eqn:E.
    pose proof (paired_body _ _ _ _ Est _ _ _ E) as H.
    destruct r; exact H.
  - unfold lock_release. destruct (f_thread s); cbn;
      [|unfold open_balance; cbn; lia].
    unfold open_balance. cbn. rewrite !countb_app. cbn. lia.
Qed.

Lemma wsteps_paired ix (s : Sys Dev) : open_balance s (wsteps cam s ix).
Proof.
  revert s. induction ix as [|i ix IH]; intros s; cbn.
  - apply open_balance_refl.
  - eapply open_balance_trans; [apply step_worker_paired | apply IH].
Qed.

(** What steps of the workers keep. *)
Lemma wsteps_keeps ix (s : Sys Dev) :
  cfg (wsteps cam s ix) = cfg s /\
  countb is_dp_configure (trace (wsteps cam s ix)) = countb is_dp_configure (trace s) /\
  countb is_spawn (trace (wsteps cam s ix)) = countb is_spawn (trace s) /\
  open_balance s (wsteps cam s ix).
Proof.
  destruct (wsteps_evolves cam ix s) as (C & X & _).
  split; [exact C|].
  split; [apply (ext_count is_dp_configure worker_event s _);
          [intros []; cbn; congruence | exact X]|].
  split; [apply (ext_count is_spawn worker_event s _);
          [intros []; cbn; congruence | exact X]|].
  apply wsteps_paired.
Qed.

End Retries.

Lemma PSVideo_start_paused_not_open {Dev} (cam : Camera Dev) (s : Sys Dev) :
  truthy (p_started s) = true -> truthy (p_pause s) = true ->
  truthy (f_videoIn s) = false ->
  PSVideo_start cam s = Exc s (SystemError "The stream is not started").
Proof.
  intros Hst Hpa Hv. unfold PSVideo_start, tbind. rewrite Hst. cbn.
  rewrite Hpa. unfold FileDisplayPort_tie. rewrite Hv. reflexivity.
Qed.



(** Over the whole cycle from the constructor on, the display port and the
    source are configured once each, two loops are started of which one is
    still under way, and the second loop forwards frames. *)
Lemma pause_resume_cycle_counts :
  let tr := trace (state_of (ps_resumed 7)) in
  returned (ps_resumed 7) = true /\
  countb is_dp_configure tr = 1 /\
  countb is_open tr = 1 /\
  countb is_spawn tr = 2 /\
  alive_count (workers (state_of (ps_resumed 7))) = 1 /\
  firstn 1 (rev tr) = [EvWriteFrame (POut 9) 5 [Byte.x02; Byte.x02; Byte.x02]].
Proof. vm_compute. repeat split. Qed.


(** ** The lock discipline holds from the constructor on *)
Section Discipline.
Context {Dev : Type} (cam : Camera Dev).

Lemma lock_inv_new_object filename mode vdma (d : Dev) :
  lock_inv (new_object filename mode vdma d).
Proof. split; cbn; [lia | reflexivity]. Qed.

Lemma lock_inv_constructors filename mode vdma dp (d : Dev) (s : Sys Dev) :
  VideoFile_init filename mode d = Ok s \/
  Webcam_init filename mode d = Ok s \/
  FileDisplayPort_init filename mode vdma d = Ok s \/
  WebcamDisplayPort_init filename mode vdma d = Ok s \/
  PSVideo_init vdma mode filename dp d = Ok s ->
  lock_inv s.
Proof.
  intros H. destruct filename, vdma; cbn in H;
    repeat (destruct H as [H|H]); try discriminate;
    injection H as <-; split; cbn; auto.
Qed.

Lemma lock_inv_tie_resumed (x : Sys Dev) :
  lock_inv x -> f_thread x = false -> lock_inv (tie_resumed x).
Proof.
  intros [_ H0] Hth. specialize (H0 Hth). unfold lock_inv, tie_resumed. cbn.
  rewrite alive_count_app, H0. cbn. split; [lia | discriminate].
Qed.

Lemma lock_inv_stop_resumed (x : Sys Dev) :
  lock_inv x -> lock_inv (channels_stopped (stop_resumed cam x)).
Proof.
  intros H. unfold channels_stopped, stop_resumed. cbn.
  destruct (f_vdma x); exact H.
Qed.

Lemma lock_inv_wsteps ix (x : Sys Dev) : lock_inv x -> lock_inv (wsteps cam x ix).
Proof. intros H. destruct (wsteps_evolves cam ix x) as (_ & _ & _ & Hi). apply Hi, H. Qed.

End Discipline.

(** ** The exit the code provides for *)

(** When the loop test finds the flag clear, the loop releases the lock,
    once, and the thread function returns. *)
Lemma normal_exit_releases_once {Dev} (cam : Camera Dev) (s : Sys Dev) i k l :
  f_thread s = true ->
  truthy (f_running s) = false ->
  workers s !! i = Some (mkWorker k WTest l) ->
  let s' := wsteps cam s [i; i] in
  workers s' !! i = Some (mkWorker k WDone l) /\
  f_thread s' = false /\
  trace s' = trace s ++ [EvLockRelease].
Proof.
  intros Hth Hrun Hw.
  assert (Hi : i < length (workers s)) by (eapply lookup_lt_Some; eauto).
  cbn zeta. change (wsteps cam s [i; i])
    with (step_worker cam i (step_worker cam i s)).
  rewrite (step_test_exact cam i s k l Hw), Hrun.
  unfold step_worker. cbn [workers set_workers].
  rewrite list_lookup_insert_eq by exact Hi.
  unfold worker_step. cbn [w_pc w_kind w_loc]. unfold lock_release.
  cbn [f_thread set_workers]. rewrite Hth. cbn.
  split; [|split; reflexivity].
  rewrite list_insert_insert_eq. apply list_lookup_insert_eq. exact Hi.
Qed.

(** * Further properties of the code *)

(** ** readframe on any source *)
Section ReadframeAny.
Context {Dev : Type} (cam : Camera Dev).

Lemma _configure_trace (s : Sys Dev) :
  exists evs, trace (fst (_configure cam s)) = trace s ++ evs /\
              countb is_open evs = 1 /\ countb is_read evs = 0 /\
              f_videoIn (fst (_configure cam s)) <> None.
Proof.
  unfold _configure. destruct (cam_open cam (f_file s) (dev s)) as [d obj].
  destruct obj; cbn.
  - destruct (isinstance_int (f_file s)); [destruct (negb _)|]; cbn;
      (eexists; split; [rewrite <- ?app_assoc; cbn; reflexivity|]);
      cbn; repeat split; discriminate.
  - eexists. split; [reflexivity|]. cbn. repeat split; discriminate.
Qed.

Lemma readframe_loop_counts n (s : Sys Dev) :
  let res := readframe_loop cam n s in
  exists evs,
    trace (fst res) = trace s ++ evs /\
    countb is_read evs <= n /\
    match snd res with
    | Ok _ => countb is_read evs = S (countb is_open evs)
    | Err _ => countb is_read evs = countb is_open evs
    end.
Proof.
  revert s. induction n as [|n IH]; intros s; cbn zeta.
  - exists []. cbn. rewrite app_nil_r. auto.
  - cbn [readframe_loop]. unfold bind, videoIn_read.
    destruct (f_videoIn s) eqn:Ev.
    + destruct (cam_read cam (dev s)) as [d [f|]]; cbn.
      * exists [EvRead true]. cbn. auto with arith.
      * destruct (_configure_trace (set_dev d (emit (EvRead false) s)))
          as (e1 & T1 & O1 & R1 & _).
        destruct (_configure cam (set_dev d (emit (EvRead false) s)))
          as [s1 [[]|e]] eqn:Ec; cbn in T1 |- *.
        -- destruct (IH s1) as (e2 & T2 & B2 & M2). cbn zeta in T2, M2.
           exists (EvRead false :: e1 ++ e2). split.
           ++ rewrite T2, T1, <- !app_assoc. reflexivity.
           ++ cbn. rewrite !countb_app, O1, R1.
              destruct (snd (readframe_loop cam n s1)); split; lia.
        -- exists (EvRead false :: e1). split.
           ++ rewrite T1, <- !app_assoc. reflexivity.
           ++ cbn. rewrite O1, R1. split; lia.
    + cbn. exists []. cbn. rewrite app_nil_r. split; [reflexivity|]. split; lia.
Qed.

End ReadframeAny.

(** X1.  Whatever the source does, one call of [readframe] reads at most
    five times; if it returns a frame it has reconfigured the source once
    for every read but the last, so at most four times; if it raises, once
    for every read, so at most five times. *)
Theorem readframe_tries_at_most_five {Dev} (cam : Camera Dev) (s : Sys Dev) :
  let res := readframe cam s in
  exists evs,
    trace (fst res) = trace s ++ evs /\
    countb is_read evs <= 5 /\
    match snd res with
    | Ok _ => countb is_read evs = S (countb is_open evs)
    | Err _ => countb is_read evs = countb is_open evs
    end.
Proof. apply (readframe_loop_counts cam 5 s). Qed.

(** X2.  A read that fails once does not reach the caller: when the source
    can be configured again and the next read yields a frame, [readframe]
    returns that frame, having opened the capture exactly once more. *)
Theorem readframe_recovers_after_failed_read {Dev} (cam : Camera Dev)
    (s s2 : Sys Dev) d1 d3 f :
  f_videoIn s <> None ->
  cam_read cam (dev s) = (d1, None) ->
  _configure cam (set_dev d1 (emit (EvRead false) s)) = (s2, Ok tt) ->
  cam_read cam (dev s2) = (d3, Some f) ->
  readframe cam s = (set_dev d3 (emit (EvRead true) s2), Ok f) /\
  countb is_open (trace s2) = S (countb is_open (trace s)) /\
  countb is_read (trace (set_dev d3 (emit (EvRead true) s2)))
  = 2 + countb is_read (trace s).
Proof.
  intros Hv Hr1 Hc Hr2.
  destruct (_configure_trace cam (set_dev d1 (emit (EvRead false) s)))
    as (evs & T & O & R & V).
  rewrite Hc in T, V. cbn in T, V.
  split; [|split].
  - unfold readframe. cbn [readframe_loop]. unfold bind, videoIn_read.
    destruct (f_videoIn s); [|congruence]. rewrite Hr1. cbn. rewrite Hc.
    destruct (f_videoIn s2); [|congruence]. rewrite Hr2. reflexivity.
  - rewrite T, !countb_app, O. cbn. lia.
  - cbn. rewrite T, !countb_app, R. cbn. lia.
Qed.

Lemma readframe_recovers_after_failed_read_witness :
  let s := state_of (vf2_tied 6) in
  let s2 := fst (_configure file_cam
                   (set_dev ([[Byte.x0a]; [Byte.x0b]], []) (emit (EvRead false) s))) in
  readframe file_cam s
  = (set_dev ([[Byte.x0a]; [Byte.x0b]], [[Byte.x0b]]) (emit (EvRead true) s2),
     Ok [Byte.x0a]) /\
  countb is_open (trace s2) = S (countb is_open (trace s)) /\
  countb is_read (trace (set_dev ([[Byte.x0a]; [Byte.x0b]], [[Byte.x0b]])
                           (emit (EvRead true) s2)))
  = 2 + countb is_read (trace s).
Proof.
  apply (readframe_recovers_after_failed_read file_cam (state_of (vf2_tied 6))
           _ ([[Byte.x0a]; [Byte.x0b]], [])
           ([[Byte.x0a]; [Byte.x0b]], [[Byte.x0b]]) [Byte.x0a]).
  - vm_compute. discriminate.
  - reflexivity.
  - reflexivity.
  - reflexivity.
Defined.

(** X3.  A copy loop that finds the running flag clear at its loop test
    releases the lock, once, and returns: after two steps, and after any
    number of further steps, the thread is finished, the lock is free and
    the only event it has left is that one release. *)
Theorem loop_exit_releases_lock_once {Dev} (cam : Camera Dev) (s : Sys Dev)
    i k l n :
  f_thread s = true ->
  truthy (f_running s) = false ->
  workers s !! i = Some (mkWorker k WTest l) ->
  2 <= n ->
  let s' := wsteps cam s (repeat i n) in
  workers s' !! i = Some (mkWorker k WDone l) /\
  f_thread s' = false /\
  trace s' = trace s ++ [EvLockRelease].
Proof.
  intros Hth Hrun Hw Hn.
  destruct (normal_exit_releases_once cam s i k l Hth Hrun Hw) as (W & T & Tr).
  assert (E : wsteps cam s (repeat i n) = wsteps cam s [i; i]).
  { replace n with (2 + (n - 2)) by lia. rewrite repeat_app, wsteps_app.
    apply (steps_dead cam i (n - 2) _ _ W). reflexivity. }
  cbn zeta. rewrite E. auto.
Qed.

Lemma loop_exit_releases_lock_once_witness :
  let s := state_of ps_paused_at_test in
  let s' := wsteps live_cam s (repeat 0 5) in
  workers s' !! 0
  = Some (mkWorker K_tievdma WDone (mkLocals (Some 0) (Some 1))) /\
  f_thread s' = false /\
  trace s' = trace s ++ [EvLockRelease].
Proof.
  apply (loop_exit_releases_lock_once live_cam (state_of ps_paused_at_test)
           0 K_tievdma (mkLocals (Some 0) (Some 1)) 5).
  - reflexivity.
  - reflexivity.
  - reflexivity.
  - lia.
Defined.

(** ** tie and the lock *)
Section TieLock.
Context {Dev : Type} (cam : Camera Dev).

Lemma VideoFile_tie_shape output (s : Sys Dev) :
  truthy (f_videoIn s) = true ->
  exists sa K, VideoFile_tie output s = Blk sa lock_free K /\
               workers sa = workers s /\ f_thread sa = f_thread s /\
               forall x, K x = Fin (vf_tie_resumed x) tt.
Proof.
  intros Hv. unfold VideoFile_tie. rewrite Hv. cbn.
  eexists _, _. split; [reflexivity|]. cbn. auto.
Qed.

Lemma lock_inv_vf_tie_resumed (x : Sys Dev) :
  lock_inv x -> f_thread x = false -> lock_inv (vf_tie_resumed x).
Proof.
  intros [_ H0] Hth. specialize (H0 Hth). unfold lock_inv, vf_tie_resumed. cbn.
  rewrite alive_count_app, H0. cbn. split; [lia | discriminate].
Qed.

Lemma tie_generic sched (sa : Sys Dev) K fin :
  lock_inv sa ->
  (forall x, K x = Fin (fin x) tt) ->
  (forall x, lock_inv x -> f_thread x = false -> lock_inv (fin x)) ->
  lock_inv (state_of (run cam sched (Blk sa lock_free K))).
Proof.
  intros Hinv HK Hfin.
  destruct (run_Blk cam sched sa lock_free K) as [[ix E]|(ix & sched' & Hc & E)];
    rewrite E.
  - apply lock_inv_wsteps, Hinv.
  - rewrite HK. destruct (run_Fin cam sched' (fin (wsteps cam sa ix)) tt) as [ix' ->].
    cbn. apply lock_inv_wsteps, Hfin; [apply lock_inv_wsteps, Hinv|].
    unfold lock_free in Hc. destruct (f_thread _); [discriminate | reflexivity].
Qed.

Lemma VideoFile_tie_parked output (s : Sys Dev) :
  truthy (f_videoIn s) = true ->
  exists K, VideoFile_tie output s = Blk (vf_tie_parked output s) lock_free K /\
            forall x, K x = Fin (vf_tie_resumed x) tt.
Proof.
  intros Hv. unfold VideoFile_tie. rewrite Hv. cbn.
  eexists. split; reflexivity.
Qed.

(** A caller parked in [acquire] with every turn finding the lock held has
    neither taken the lock nor started a thread; at the first turn that
    finds the lock free it goes on. *)
Lemma tie_waits pre (p : Sys Dev) K :
  polls_locked cam p pre = true ->
  let x := wsteps cam p (workers_of pre) in
  blocked (run cam pre (Blk (A := unit) p lock_free K)) = true /\
  state_of (run cam pre (Blk p lock_free K)) = x /\
  countb is_acquire (trace x) = countb is_acquire (trace p) /\
  countb is_spawn (trace x) = countb is_spawn (trace p).
Proof.
  intros Hp x. rewrite (run_polls_locked cam pre p K Hp). fold x.
  destruct (wsteps_evolves cam (workers_of pre) p) as (_ & X & _). fold x in X.
  split; [reflexivity|]. split; [reflexivity|].
  split; apply (ext_count _ worker_event p x); try exact X;
    intros []; cbn; congruence.
Qed.

Lemma tie_proceeds pre (p : Sys Dev) K fin :
  (forall x, K x = Fin (fin x) tt) ->
  polls_locked cam p pre = true ->
  f_thread (wsteps cam p (workers_of pre)) = false ->
  run cam (pre ++ [TMain]) (Blk p lock_free K)
  = Fin (fin (wsteps cam p (workers_of pre))) tt.
Proof.
  intros HK Hp Hth.
  rewrite run_app, (run_polls_locked cam pre p K Hp).
  set (x := wsteps cam p (workers_of pre)) in *.
  change (run cam [TMain] (Blk x lock_free K))
    with (if lock_free x then K x else Blk x lock_free K).
  unfold lock_free. rewrite Hth. cbn [negb]. apply HK.
Qed.

End TieLock.

(** X4.  However [tie] is called and however the threads are scheduled, at
    most one copy loop is under way afterwards, and the lock is held while
    one is.  A [tie] on a started source waits in [acquire]: as long as
    every turn of the caller finds the lock held, [tie] is parked, the lock
    has not been taken another time and no thread has been started; at the
    first turn that finds the lock free, [tie] takes the lock, sets the
    running flag, starts the loop and returns. *)
Theorem tie_never_runs_two_loops {Dev} (cam : Camera Dev) (s : Sys Dev)
    output sched :
  lock_inv s ->
  lock_inv (state_of (run cam sched (VideoFile_tie output s))) /\
  lock_inv (state_of (run cam sched (FileDisplayPort_tie output s))) /\
  (truthy (f_videoIn s) = true ->
   forall pre,
     polls_locked cam (set_dp (Some output) s) pre = true ->
     let x := wsteps cam (set_dp (Some output) s) (workers_of pre) in
     let o := run cam pre (FileDisplayPort_tie output s) in
     (blocked o = true /\ state_of o = x /\
      countb is_acquire (trace x) = countb is_acquire (trace s) /\
      countb is_spawn (trace x) = countb is_spawn (trace s)) /\
     (f_thread x = false ->
      run cam (pre ++ [TMain]) (FileDisplayPort_tie output s)
      = Fin (tie_resumed x) tt)) /\
  (truthy (f_videoIn s) = true ->
   forall pre,
     polls_locked cam (vf_tie_parked output s) pre = true ->
     let x := wsteps cam (vf_tie_parked output s) (workers_of pre) in
     let o := run cam pre (VideoFile_tie output s) in
     (blocked o = true /\ state_of o = x /\
      countb is_acquire (trace x) = countb is_acquire (trace s) /\
      countb is_spawn (trace x) = countb is_spawn (trace s)) /\
     (f_thread x = false ->
      run cam (pre ++ [TMain]) (VideoFile_tie output s)
      = Fin (vf_tie_resumed x) tt)).
Proof.
  intros Hinv. split; [|split; [|split]].
  - destruct (truthy (f_videoIn s)) eqn:Hv.
    + destruct (VideoFile_tie_shape output s Hv) as (sa & K & -> & Hw & Ht & HK).
      apply (tie_generic cam sched sa K vf_tie_resumed);
        auto using lock_inv_vf_tie_resumed.
      unfold lock_inv in *. rewrite Hw, Ht. exact Hinv.
    + unfold VideoFile_tie. rewrite Hv. cbn [negb].
      destruct (run_Exc (A := unit) cam sched s
                  (SystemError "The stream is not started")) as [ix ->].
      apply lock_inv_wsteps, Hinv.
  - destruct (truthy (f_videoIn s)) eqn:Hv.
    + destruct (FileDisplayPort_tie_shape output s Hv) as (K & -> & HK).
      apply (tie_generic cam sched _ K tie_resumed);
        auto using lock_inv_tie_resumed.
    + unfold FileDisplayPort_tie. rewrite Hv. cbn [negb].
      destruct (run_Exc (A := unit) cam sched s
                  (SystemError "The stream is not started")) as [ix ->].
      apply lock_inv_wsteps, Hinv.
  - intros Hv pre Hp.
    destruct (FileDisplayPort_tie_shape output s Hv) as (K & -> & HK).
    cbn zeta. split.
    + exact (tie_waits cam pre _ K Hp).
    + intros Hth. apply (tie_proceeds cam pre _ K tie_resumed HK Hp Hth).
  - intros Hv pre Hp.
    destruct (VideoFile_tie_parked output s Hv) as (K & -> & HK).
    cbn zeta. split.
    + destruct (tie_waits cam pre _ K Hp) as (B & S & A & N).
      split; [exact B|]. split; [exact S|]. split; [rewrite A | rewrite N];
        unfold vf_tie_parked; cbn; rewrite countb_app; cbn; lia.
    + intros Hth. apply (tie_proceeds cam pre _ K vf_tie_resumed HK Hp Hth).
Qed.

Lemma tie_never_runs_two_loops_witness :
  let s := state_of ps_paused in
  let sched := [TMain; TWorker 0; TWorker 0; TMain; TWorker 1; TWorker 0] in
  let polling := [TMain; TWorker 0; TWorker 0; TMain] in
  let pre := repeat (TWorker 0) 8 in
  (lock_inv (state_of (run live_cam sched (VideoFile_tie 9 s))) /\
   lock_inv (state_of (run live_cam sched (FileDisplayPort_tie 9 s)))) /\
  (blocked (run live_cam polling (FileDisplayPort_tie 9 s)) = true /\
   countb is_spawn
     (trace (wsteps live_cam (set_dp (Some 9) s) (workers_of polling)))
   = countb is_spawn (trace s)) /\
  run live_cam (pre ++ [TMain]) (FileDisplayPort_tie 9 s)
  = Fin (tie_resumed (wsteps live_cam (set_dp (Some 9) s) (workers_of pre))) tt /\
  run live_cam (pre ++ [TMain]) (VideoFile_tie 9 s)
  = Fin (vf_tie_resumed (wsteps live_cam (vf_tie_parked 9 s) (workers_of pre))) tt.
Proof.
  assert (Hinv : lock_inv (state_of ps_paused))
    by (vm_compute; split; [lia | discriminate]).
  assert (Hv : truthy (f_videoIn (state_of ps_paused)) = true)
    by (vm_compute; reflexivity).
  destruct (tie_never_runs_two_loops live_cam (state_of ps_paused) 9
              [TMain; TWorker 0; TWorker 0; TMain; TWorker 1; TWorker 0] Hinv)
    as (L1 & L2 & HF & HV).
  split; [split; [exact L1 | exact L2]|]. split; [|split].
  - destruct (HF Hv [TMain; TWorker 0; TWorker 0; TMain]) as ((B & _ & _ & N) & _);
      [vm_compute; reflexivity|].
    split; [exact B | exact N].
  - apply (HF Hv (repeat (TWorker 0) 8)); vm_compute; reflexivity.
  - apply (HV Hv (repeat (TWorker 0) 8)); vm_compute; reflexivity.
Defined.

(** ** After stop *)
Section AfterStop.
Context {Dev : Type} (cam : Camera Dev).

Lemma returned_not_blocked {A} (o : Outcome (Dev := Dev) A) :
  returned o = true -> blocked o = false.
Proof. destruct o; cbn; congruence. Qed.

Lemma PSVideo_stop_shape (s : Sys Dev) :
  truthy (p_started s) = true -> truthy (f_videoIn s) = true ->
  exists K, PSVideo_stop cam s = Blk (set_running (Some false) s) lock_free K /\
            forall x, K x = Fin (ps_stop_resumed cam (p_dp s) x) tt.
Proof.
  intros Hst Hv. unfold PSVideo_stop. rewrite Hst. unfold tbind at 1.
  destruct (FileDisplayPort_stop_shape cam s Hv) as (K1 & -> & HK1).
  cbn [obind]. eexists. split; [reflexivity|].
  intros x. cbn beta. rewrite HK1. reflexivity.
Qed.

End AfterStop.

(** X5.  When [stop] of a started source has returned, the source is
    closed: the capture handle is [None], the running flag is [False], the
    lock is free, no copy loop is under way, the capture was released
    exactly once, and both channels of the VDMA were stopped if there is
    one.  A second [stop] then releases nothing more, and [pause] raises
    [SystemError]. *)
Theorem stop_leaves_source_closed {Dev} (cam : Camera Dev) (s : Sys Dev) sched :
  lock_inv s -> truthy (f_videoIn s) = true ->
  let o := run cam sched (FileDisplayPort_stop cam s) in
  returned o = true ->
  let s' := state_of o in
  f_videoIn s' = None /\ f_running s' = Some false /\ f_thread s' = false /\
  alive_count (workers s') = 0 /\
  countb is_cap_release (trace s') = S (countb is_cap_release (trace s)) /\
  countb is_chan_stop (trace s')
  = countb is_chan_stop (trace s) + (if f_vdma s then 2 else 0) /\
  VideoFile_stop cam s' = Fin s' tt /\
  VideoFile_pause s' = Exc s' (SystemError "The stream is not started").
Proof.
  intros Hinv Hv. cbn zeta.
  destruct (FileDisplayPort_stop_shape cam s Hv) as (K & -> & HK).
  destruct (stop_generic cam sched (set_running (Some false) s) K
              (fun x => channels_stopped (stop_resumed cam x)))
    as [(x & -> & _)|(x & -> & Hev & Hth & Hz)]; auto.
  - intros x. unfold channels_stopped. destruct (f_vdma _); reflexivity.
  - discriminate.
  - intros _. destruct Hev as (Cf & X & _).
    pose proof (cfg_running _ _ Cf) as Hr. pose proof (cfg_vdma _ _ Cf) as Hvd.
    cbn in Hr, Hvd. cbn [state_of].
    assert (Hc1 : countb is_cap_release (trace x) = countb is_cap_release (trace s)).
    { apply (ext_count is_cap_release worker_event (set_running (Some false) s) x);
        [intros []; cbn; congruence | exact X]. }
    assert (Hc2 : countb is_chan_stop (trace x) = countb is_chan_stop (trace s)).
    { apply (ext_count is_chan_stop worker_event (set_running (Some false) s) x);
        [intros []; cbn; congruence | exact X]. }
    unfold channels_stopped, stop_resumed. cbn [f_vdma set_videoIn set_dev emit].
    rewrite Hvd. destruct (f_vdma s); cbn; rewrite ?countb_app; cbn;
      rewrite ?countb_app; cbn; rewrite Hr, Hth, Hz, Hc1, Hc2;
      repeat split; lia.
Qed.

Lemma stop_leaves_source_closed_witness :
  let s := state_of ps_running in
  let s' := state_of (run live_cam (repeat (TWorker 0) 8 ++ [TMain])
                          (FileDisplayPort_stop live_cam s)) in
  f_videoIn s' = None /\ f_running s' = Some false /\ f_thread s' = false /\
  alive_count (workers s') = 0 /\
  countb is_cap_release (trace s') = S (countb is_cap_release (trace s)) /\
  countb is_chan_stop (trace s')
  = countb is_chan_stop (trace s) + (if f_vdma s then 2 else 0) /\
  VideoFile_stop live_cam s' = Fin s' tt /\
  VideoFile_pause s' = Exc s' (SystemError "The stream is not started").
Proof.
  apply (stop_leaves_source_closed live_cam (state_of ps_running)
           (repeat (TWorker 0) 8 ++ [TMain])).
  - vm_compute. split; [lia | discriminate].
  - vm_compute. reflexivity.
  - vm_compute. reflexivity.
Defined.

(** X6.  When [PSVideo.stop] on a started facade has returned, everything
    it released comes after the last event of any worker and in this
    order: the capture, then the two channels of the VDMA if there is one,
    then the display port.  The facade is then not started, so that
    another [stop] does nothing. *)
Theorem psvideo_stop_releases_in_order {Dev} (cam : Camera Dev) (s : Sys Dev)
    sched :
  lock_inv s -> truthy (p_started s) = true -> truthy (f_videoIn s) = true ->
  let o := run cam sched (PSVideo_stop cam s) in
  returned o = true ->
  exists x,
    ext worker_event s x /\ alive_count (workers x) = 0 /\
    trace (state_of o)
    = trace x ++ [EvRelease]
      ++ (if f_vdma s then [EvChanStop PWriteChannel; EvChanStop PReadChannel]
          else [])
      ++ [EvDpStop (p_dp s)] /\
    p_started (state_of o) = Some false /\
    f_videoIn (state_of o) = None /\
    PSVideo_stop cam (state_of o) = Fin (state_of o) tt.
Proof.
  intros Hinv Hst Hv. cbn zeta.
  destruct (PSVideo_stop_shape cam s Hst Hv) as (K & -> & HK).
  destruct (stop_generic cam sched (set_running (Some false) s) K
              (ps_stop_resumed cam (p_dp s)))
    as [(x & -> & _)|(x & -> & Hev & Hth & Hz)]; auto.
  - intros x. unfold ps_stop_resumed, channels_stopped. cbn.
    destruct (f_vdma x); reflexivity.
  - discriminate.
  - intros _. destruct Hev as (Cf & X & _).
    pose proof (cfg_vdma _ _ Cf) as Hvd. cbn in Hvd.
    exists x. split; [exact X|]. split; [exact Hz|].
    cbn [state_of]. unfold ps_stop_resumed, channels_stopped, stop_resumed.
    cbn [f_vdma set_videoIn set_dev emit]. rewrite Hvd.
    destruct (f_vdma s); cbn; rewrite <- ?app_assoc; cbn; repeat split;
      unfold PSVideo_stop; reflexivity.
Qed.

Lemma psvideo_stop_releases_in_order_witness :
  let s := state_of ps_running in
  let o := run live_cam (repeat (TWorker 0) 8 ++ [TMain]) (PSVideo_stop live_cam s) in
  exists x,
    ext worker_event s x /\ alive_count (workers x) = 0 /\
    trace (state_of o)
    = trace x ++ [EvRelease]
      ++ (if f_vdma s then [EvChanStop PWriteChannel; EvChanStop PReadChannel]
          else [])
      ++ [EvDpStop (p_dp s)] /\
    p_started (state_of o) = Some false /\
    f_videoIn (state_of o) = None /\
    PSVideo_stop live_cam (state_of o) = Fin (state_of o) tt.
Proof.
  apply (psvideo_stop_releases_in_order live_cam (state_of ps_running)
           (repeat (TWorker 0) 8 ++ [TMain])).
  - vm_compute. split; [lia | discriminate].
  - vm_compute. reflexivity.
  - vm_compute. reflexivity.
  - vm_compute. reflexivity.
Defined.

(** ** The first start *)
Section FirstStart.
Context {Dev : Type} (cam : Camera Dev).

(** The state in which [PSVideo.start] parks: what has changed since the
    call. *)
Lemma start_parked_facts (s sc : Sys Dev) :
  _configure cam (emit (EvDpConfigure (p_mode s)) s) = (sc, Ok tt) ->
  f_videoIn sc = Some true ->
  let sa := start_parked s sc in
  workers sa = workers s /\ f_thread sa = f_thread s /\
  p_pause sa = p_pause s /\ f_vdma sa = f_vdma s /\
  truthy (f_videoIn sa) = true /\
  exists evs, trace sa = trace s ++ EvDpConfigure (p_mode s) :: evs /\
              forallb (fun e => stmt_event e || is_chan_start e) evs = true /\
              countb is_chan_start evs = (if f_vdma s then 2 else 0).
Proof.
  intros Ec Vc. destruct (wop__configure cam _ _ _ Ec) as [Cc (evs & T & F)].
  pose proof (ctl_cfg _ _ Cc) as Cf.
  pose proof (ctl_workers _ _ Cc) as Hw. pose proof (ctl_thread _ _ Cc) as Ht.
  pose proof (cfg_pause _ _ Cf) as Hp. pose proof (cfg_vdma _ _ Cf) as Hvd.
  cbn in Hw, Ht, Hp, Hvd, T.
  assert (Hn : countb is_chan_start evs = 0).
  { apply (countb_none is_chan_start stmt_event); [intros []; cbn; congruence | exact F]. }
  assert (F' : forallb (fun e => stmt_event e || is_chan_start e) evs = true).
  { apply (forallb_impl stmt_event _ evs); [intros e ->; reflexivity | exact F]. }
  unfold start_parked. rewrite <- Hvd. destruct (f_vdma sc) eqn:Evd; cbn;
    rewrite ?Hw, ?Ht, ?Hp, ?Vc, ?Evd; repeat (split; [reflexivity|]).
  - exists (evs ++ [EvChanStart PWriteChannel; EvChanStart PReadChannel]).
    rewrite T, <- !app_assoc. split; [reflexivity|].
    rewrite forallb_app, F', countb_app, Hn. split; reflexivity.
  - exists evs. rewrite T, <- app_assoc. auto.
Qed.

End FirstStart.

(** X7.  [PSVideo.start] on a facade that is neither started nor paused,
    with a source that opens, returns as soon as the caller is scheduled
    and has then configured the display port once, started the channels
    of the VDMA if there is one, taken the lock once and started exactly
    one copy loop; the facade is started, the running flag is set and the
    lock discipline holds. *)
Theorem psvideo_start_starts_one_loop {Dev} (cam : Camera Dev) (s : Sys Dev)
    sched :
  (forall f d, snd (cam_open cam f d) = true) ->
  lock_inv s -> f_thread s = false ->
  truthy (p_started s) = false -> truthy (p_pause s) = false ->
  In TMain sched ->
  let o := run cam sched (PSVideo_start cam s) in
  let s' := state_of o in
  returned o = true /\
  p_started s' = Some true /\ f_running s' = Some true /\ lock_inv s' /\
  countb is_dp_configure (trace s') = S (countb is_dp_configure (trace s)) /\
  countb is_chan_start (trace s')
  = countb is_chan_start (trace s) + (if f_vdma s then 2 else 0) /\
  countb is_acquire (trace s') = S (countb is_acquire (trace s)) /\
  countb is_spawn (trace s') = S (countb is_spawn (trace s)).
Proof.
  intros Ho Hinv Hth Hst Hpa Hin.
  destruct (PSVideo_start_shape cam s Ho Hst) as (sc & K & Ec & -> & HK).
  destruct (_configure_ok cam Ho (emit (EvDpConfigure (p_mode s)) s))
    as (sc' & Ec' & Vc & _). rewrite Ec in Ec'. injection Ec' as <-.
  destruct (start_parked_facts cam s sc Ec Vc)
    as (Hwa & Hta & Hpa' & Hvda & Hva & evs & Ta & Fa & Na).
  set (sa := start_parked s sc) in *. clearbody sa.
  assert (Hz : alive_count (workers s) = 0) by (apply Hinv, Hth).
  assert (Hinva : lock_inv sa).
  { unfold lock_inv. rewrite Hwa, Hta. exact Hinv. }
  cbn zeta.
  destruct (run_Blk_ready cam sched sa lock_free K)
    as [[Hn _]|[_ [sched' E]]].
  - rewrite Hwa. exact Hz.
  - unfold lock_free. rewrite Hta, Hth. reflexivity.
  - contradiction.
  - rewrite E. specialize (HK sa). cbn zeta in HK.
    replace (truthy (p_pause sa)) with false in HK by (rewrite Hpa'; auto).
    rewrite HK.
    set (y := set_started (Some true) (tie_resumed sa)).
    destruct (run_Fin cam sched' y tt) as [ix ->]. cbn [state_of returned].
    assert (Hinvy : lock_inv y).
    { apply (lock_inv_tie_resumed sa Hinva). rewrite Hta. exact Hth. }
    destruct (wsteps_evolves cam ix y) as (Ce & Xe & _ & Hi).
    split; [reflexivity|].
    split; [rewrite (cfg_started _ _ Ce); reflexivity|].
    split; [rewrite (cfg_running _ _ Ce); reflexivity|].
    split; [apply Hi, Hinvy|].
    assert (Hcount : forall p,
              (forall e, worker_event e = true -> p e = false) ->
              countb p (trace (wsteps cam y ix))
              = countb p (trace s) + countb p [EvDpConfigure (p_mode s)]
                + countb p evs
                + countb p [EvAcquire; EvSpawn (if f_vdma sa then K_tievdma
                                                else K_tienovdma)]).
    { intros p Hp. rewrite (ext_count p worker_event _ _ Hp Xe).
      cbn. rewrite <- app_assoc, countb_app, Ta, countb_app. cbn. lia. }
    assert (Hevs : forall p,
              (forall e, stmt_event e || is_chan_start e = true -> p e = false) ->
              countb p evs = 0).
    { intros p Hp. apply (countb_none p _ evs Hp Fa). }
    split; [|split; [|split]].
    + rewrite Hcount, Hevs; [cbn; lia| |]; intros []; cbn; congruence.
    + rewrite Hcount, Na; [cbn; lia|]. intros []; cbn; congruence.
    + rewrite Hcount, Hevs; [cbn; lia| |]; intros []; cbn; congruence.
    + rewrite Hcount, Hevs; [cbn; lia| |]; intros []; cbn; congruence.
Qed.

Lemma psvideo_start_starts_one_loop_witness :
  let s := ps_fresh in
  let o := run live_cam [TWorker 0; TMain; TWorker 0; TWorker 0]
               (PSVideo_start live_cam s) in
  let s' := state_of o in
  returned o = true /\
  p_started s' = Some true /\ f_running s' = Some true /\ lock_inv s' /\
  countb is_dp_configure (trace s') = S (countb is_dp_configure (trace s)) /\
  countb is_chan_start (trace s')
  = countb is_chan_start (trace s) + (if f_vdma s then 2 else 0) /\
  countb is_acquire (trace s') = S (countb is_acquire (trace s)) /\
  countb is_spawn (trace s') = S (countb is_spawn (trace s)).
Proof.
  apply (psvideo_start_starts_one_loop live_cam ps_fresh
           [TWorker 0; TMain; TWorker 0; TWorker 0]).
  - intros f d. reflexivity.
  - split; [cbn; lia | reflexivity].
  - reflexivity.
  - reflexivity.
  - reflexivity.
  - right. left. reflexivity.
Defined.

(** ** Forwarding many frames *)
Section ManyFrames.
Context {Dev : Type} (cam : Camera Dev).

Lemma received_tie_rounds o b fs : received (POut o) (tie_rounds o b fs) = fs.
Proof.
  induction fs as [|f fs IH]; cbn; [reflexivity|].
  rewrite Nat.eqb_refl, IH. reflexivity.
Qed.

Lemma received_novdma_rounds o fs : forall b,
  received (POut o) (novdma_rounds o b fs) = fs.
Proof.
  induction fs as [|f fs IH]; intros b; cbn; [reflexivity|].
  rewrite Nat.eqb_refl, IH. reflexivity.
Qed.

Lemma copies_into_novdma_rounds o fs : forall b b',
  b' < b -> copies_into b' (novdma_rounds o b fs) = false.
Proof.
  induction fs as [|f fs IH]; intros b b' Hlt; cbn; [reflexivity|].
  replace (Nat.eqb b' b) with false by (symmetry; apply Nat.eqb_neq; lia).
  cbn. apply IH. lia.
Qed.

Lemma novdma_rounds_never_touch o fs : forall b,
  touched_after_write (novdma_rounds o b fs) = false.
Proof.
  induction fs as [|f fs IH]; intros b; cbn; [reflexivity|].
  rewrite copies_into_novdma_rounds by lia. cbn. apply IH.
Qed.

(** From the loop test, with the running flag set: the test and one pass
    through the body of [_tienovdma]. *)
Lemma _tienovdma_round i (s : Sys Dev) l o f d1 :
  f_dp s = Some o -> f_videoIn s <> None -> truthy (f_running s) = true ->
  workers s !! i = Some (mkWorker K_tienovdma WTest l) ->
  cam_read cam (dev s) = (d1, Some f) ->
  let s' := wsteps cam s (repeat i 4) in
  trace s' = trace s ++ novdma_rounds o (length (heap s)) [f] /\
  (exists l', workers s' !! i = Some (mkWorker K_tienovdma WTest l')) /\
  length (heap s') = S (length (heap s)) /\ dev s' = d1 /\
  f_videoIn s' = f_videoIn s /\ cfg s' = cfg s.
Proof.
  intros Hdp Hv Hrun Hw Hrd.
  assert (Hi : i < length (workers s)) by (eapply lookup_lt_Some; eauto).
  cbn zeta. change (repeat i 4) with ([i] ++ repeat i 3). rewrite wsteps_app.
  cbn [wsteps fold_left]. fold (wsteps cam).
  rewrite (step_test_exact cam i s K_tienovdma l Hw), Hrun.
  set (s0 := set_workers _ s).
  destruct (_tienovdma_iteration cam s0 l o f d1 Hdp Hv Hrd)
    as (s1 & Hit & Htr & Hlen & Hdev & Hvi & Hctl).
  assert (Hw0 : workers s0 !! i = Some (mkWorker K_tienovdma (WStmt 0) l))
    by (apply list_lookup_insert_eq; exact Hi).
  pose proof (steps_iteration cam K_tienovdma i l _ s0 s1 Hw0 Hit) as E.
  change (length (body_of cam K_tienovdma)) with 3 in E.
  change (fold_left (fun s i => step_worker cam i s) (repeat i 3) s0)
    with (wsteps cam s0 (repeat i 3)).
  rewrite E. cbn.
  split; [exact Htr|].
  split; [eexists; rewrite list_insert_insert_eq; apply list_lookup_insert_eq; exact Hi|].
  split; [exact Hlen|]. split; [exact Hdev|]. split; [exact Hvi|].
  apply (ctl_cfg _ _ Hctl).
Qed.

End ManyFrames.

(** X8.  As long as the reads succeed, [VideoFile._tie] forwards the
    frames in the order in which the source yields them, each one
    unchanged and exactly once: after [n] iterations the output has
    received the [n] frames read, and the trace holds nothing but a read, a
    copy and a [writeframe] for each of them. *)
Theorem tie_forwards_frames_in_order {Dev} (cam : Camera Dev) n :
  forall (s : Sys Dev) i l o b fs d',
  f_output s = Some o -> f_outframe s = Some b -> b < length (heap s) ->
  f_videoIn s <> None -> truthy (f_running s) = true ->
  workers s !! i = Some (mkWorker K_tie WTest l) ->
  reads cam (dev s) n = Some (fs, d') ->
  let s' := wsteps cam s (repeat i (3 * n)) in
  trace s' = trace s ++ tie_rounds o b fs /\
  received (POut o) (tie_rounds o b fs) = fs /\
  length fs = n /\ dev s' = d'.
Proof.
  induction n as [|n IH]; intros s i l o b fs d' Ho Hb Hlt Hv Hrun Hw Hrd.
  - cbn in Hrd. injection Hrd as <- <-. cbn. rewrite app_nil_r. auto.
  - cbn [reads] in Hrd.
    destruct (cam_read cam (dev s)) as [d1 [f|]] eqn:Hr1; [|discriminate].
    destruct (reads cam d1 n) as [[fs1 d2]|] eqn:Hrs; [|discriminate].
    injection Hrd as <- <-.
    destruct (_tie_round cam i s l o b f d1 Ho Hb Hlt Hv Hrun Hw Hr1)
      as (Htr1 & Hw1 & Hlen1 & Hdev1 & Hv1 & Hc1 & _).
    set (s1 := wsteps cam s (repeat i 3)) in *.
    destruct (IH s1 i l o b fs1 d2) as (Htr & _ & Hlen & Hdev).
    + rewrite (cfg_output _ _ Hc1). exact Ho.
    + rewrite (cfg_outframe _ _ Hc1). exact Hb.
    + lia.
    + congruence.
    + rewrite (cfg_running _ _ Hc1). exact Hrun.
    + exact Hw1.
    + rewrite Hdev1. exact Hrs.
    + cbn zeta. replace (3 * S n) with (3 + 3 * n) by lia.
      rewrite repeat_app, wsteps_app. fold s1.
      rewrite Htr, Htr1, <- app_assoc. cbn [length].
      split; [reflexivity|]. split; [apply received_tie_rounds|].
      split; [congruence | exact Hdev].
Qed.

Lemma tie_forwards_frames_in_order_witness :
  let s := state_of (vf2_tied 0) in
  let s' := wsteps file_cam s (repeat 0 (3 * 2)) in
  trace s' = trace s ++ tie_rounds 7 0 [[Byte.x0a]; [Byte.x0b]] /\
  received (POut 7) (tie_rounds 7 0 [[Byte.x0a]; [Byte.x0b]])
  = [[Byte.x0a]; [Byte.x0b]] /\
  length [[Byte.x0a]; [Byte.x0b]] = 2 /\
  dev s' = ([[Byte.x0a]; [Byte.x0b]], []).
Proof.
  apply (tie_forwards_frames_in_order file_cam 2 (state_of (vf2_tied 0)) 0
           (mkLocals None None) 7 0).
  - reflexivity.
  - reflexivity.
  - vm_compute. lia.
  - vm_compute. discriminate.
  - reflexivity.
  - reflexivity.
  - reflexivity.
Defined.

(** X9.  As long as the reads succeed, [FileDisplayPort._tienovdma]
    forwards the frames in source order, each through a buffer of its own
    that it takes from the display port at the start of the iteration: no
    buffer is written into after it has been passed to [writeframe]. *)
Theorem tienovdma_takes_a_new_buffer_each_time {Dev} (cam : Camera Dev) n :
  forall (s : Sys Dev) i l o fs d',
  f_dp s = Some o -> f_videoIn s <> None -> truthy (f_running s) = true ->
  workers s !! i = Some (mkWorker K_tienovdma WTest l) ->
  reads cam (dev s) n = Some (fs, d') ->
  let s' := wsteps cam s (repeat i (4 * n)) in
  let new := novdma_rounds o (length (heap s)) fs in
  trace s' = trace s ++ new /\
  received (POut o) new = fs /\
  touched_after_write new = false /\
  length (heap s') = length (heap s) + n.
Proof.
  induction n as [|n IH]; intros s i l o fs d' Hdp Hv Hrun Hw Hrd.
  - cbn in Hrd. injection Hrd as <- <-. cbn. rewrite app_nil_r. auto.
  - cbn [reads] in Hrd.
    destruct (cam_read cam (dev s)) as [d1 [f|]] eqn:Hr1; [|discriminate].
    destruct (reads cam d1 n) as [[fs1 d2]|] eqn:Hrs; [|discriminate].
    injection Hrd as <- <-.
    destruct (_tienovdma_round cam i s l o f d1 Hdp Hv Hrun Hw Hr1)
      as (Htr1 & (l1 & Hw1) & Hlen1 & Hdev1 & Hv1 & Hc1).
    set (s1 := wsteps cam s (repeat i 4)) in *.
    destruct (IH s1 i l1 o fs1 d2) as (Htr & _ & _ & Hlen).
    + rewrite (cfg_dp _ _ Hc1). exact Hdp.
    + congruence.
    + rewrite (cfg_running _ _ Hc1). exact Hrun.
    + exact Hw1.
    + rewrite Hdev1. exact Hrs.
    + cbn zeta. replace (4 * S n) with (4 + 4 * n) by lia.
      rewrite repeat_app, wsteps_app. fold s1.
      rewrite Htr, Htr1, Hlen1, <- app_assoc.
      split; [reflexivity|]. split; [apply received_novdma_rounds|].
      split; [apply novdma_rounds_never_touch | lia].
Qed.

Lemma tienovdma_takes_a_new_buffer_each_time_witness :
  let s := state_of fdp2_tied in
  let s' := wsteps file_cam s (repeat 0 (4 * 2)) in
  let new := novdma_rounds 9 (length (heap s)) [[Byte.x0a]; [Byte.x0b]] in
  trace s' = trace s ++ new /\
  received (POut 9) new = [[Byte.x0a]; [Byte.x0b]] /\
  touched_after_write new = false /\
  length (heap s') = length (heap s) + 2.
Proof.
  apply (tienovdma_takes_a_new_buffer_each_time file_cam 2 (state_of fdp2_tied) 0
           (mkLocals None None) 9 _ ([[Byte.x0a]; [Byte.x0b]], [])).
  - reflexivity.
  - vm_compute. discriminate.
  - reflexivity.
  - reflexivity.
  - reflexivity.
Defined.

(** ** Progress of a loop whose source does not fail *)
Section Progress.
Context {Dev : Type} (cam : Camera Dev).
Hypothesis read_ok : forall d, snd (cam_read cam d) <> None.

Lemma readframe_succeeds (s : Sys Dev) :
  f_videoIn s <> None ->
  exists d f, readframe cam s = (set_dev d (emit (EvRead true) s), Ok f).
Proof.
  intros Hv. pose proof (read_ok (dev s)) as Hr.
  destruct (cam_read cam (dev s)) as [d [f|]] eqn:E; [|cbn in Hr; congruence].
  exists d, f. apply readframe_ok; assumption.
Qed.

Lemma body_length k : length (body_of cam k) = body_len k.
Proof. destruct k; reflexivity. Qed.

Lemma stmt_progress k j l (s : Sys Dev) :
  attrs_ok s k -> j < body_len k -> locals_ok k j l ->
  exists st, body_of cam k !! j = Some st /\
  exists s1 l', st l s = (s1, Ok l') /\ locals_ok k (S j) l'.
Proof.
  intros [Hv Ha] Hj Hl.
  destruct (readframe_succeeds s Hv) as (d & f & Er).
  destruct k; cbn in Ha, Hj.
  - destruct Ha as [Ho Hb].
    destruct (f_output s) as [o|] eqn:Eo; [|congruence].
    destruct (f_outframe s) as [b|] eqn:Eb; [|congruence].
    destruct j as [|[|]]; [| |lia]; (eexists; split; [reflexivity|]);
      unfold bind, deref, ret; rewrite ?Er; cbn; rewrite ?Eo, ?Eb; cbn;
      eexists _, _; split; reflexivity || exact I.
  - destruct Ha as [Hvd Hdp].
    destruct (f_dp s) as [o|] eqn:Eo; [|congruence].
    destruct (fpgaframe l) as [bf|] eqn:Ef; destruct (dpframe l) as [bd|] eqn:Ed;
      destruct (vdma_read cam (dev s)) as [dv fv] eqn:Evr;
      (destruct j as [|[|[|[|[|[|]]]]]]; [| | | | | |lia]); cbn in Hl;
      try congruence;
      (eexists; split; [reflexivity|]);
      unfold try_except_RuntimeError, bind, deref, ret, the_vdma,
        readchannel_readframe;
      rewrite ?Er; cbn; rewrite ?Hvd, ?Eo, ?Ef, ?Ed, ?Evr; cbn;
      (eexists _, _; split; [reflexivity|]); cbn; rewrite ?Ef, ?Ed;
      try congruence; auto.
  - destruct (f_dp s) as [o|] eqn:Eo; [|congruence].
    destruct (dpframe l) as [bd|] eqn:Ed;
      (destruct j as [|[|[|]]]; [| | |lia]); cbn in Hl; try congruence;
      (eexists; split; [reflexivity|]);
      unfold bind, deref, ret; rewrite ?Er; cbn; rewrite ?Eo, ?Ed; cbn;
      (eexists _, _; split; [reflexivity|]); cbn; rewrite ?Ed;
      try congruence; auto.
Qed.

Lemma dist_le_8 (s : Sys Dev) w : wf_worker s w -> dist w <= 8.
Proof.
  intros [_ H]. unfold dist. destruct (w_pc w); try lia.
  destruct (w_kind w); cbn in *; lia.
Qed.

(** A step of the worker that is on its way out. *)
Lemma exiting_step i n (s : Sys Dev) :
  exiting i n s -> exiting i (pred n) (step_worker cam i s).
Proof.
  intros (Hrun & Hinv & w & Hw & [Ha Hpc] & Hd & Hth).
  pose proof (step_worker_evolves cam i s) as (Cf & _ & _ & Hi).
  destruct (Hi Hinv) as [Hinv' _].
  assert (Hi' : i < length (workers s)) by (eapply lookup_lt_Some; eauto).
  split; [rewrite (cfg_running _ _ Cf); exact Hrun|]. split; [exact Hinv'|].
  unfold dist in Hd. destruct (w_pc w) as [|j| | |e] eqn:Epc.
  - (* the loop test *)
    destruct (step_test cam i s w Hw Epc) as (W & T & C & _ & V).
    rewrite Hrun in W. eexists. split; [exact W|].
    split; [split; [|exact I]|].
    + destruct Ha as [Hv Hk]. split; [congruence|].
      cbn. destruct (w_kind w); cbn in *;
        rewrite ?(cfg_output _ _ C), ?(cfg_outframe _ _ C), ?(cfg_vdma _ _ C),
          ?(cfg_dp _ _ C); exact Hk.
    + unfold dist, alive in *. cbn. rewrite Epc in Hth. split; [lia | congruence].
  - (* a statement *)
    destruct Hpc as [Hj Hl].
    destruct (stmt_progress (w_kind w) j (w_loc w) s Ha Hj Hl)
      as (st & Hst & s1 & l' & E & Hl').
    destruct (step_stmt cam i s w j st s1 (Ok l') Hw Epc Hst E) as (W & T & C & _ & V).
    destruct (noopen_body cam read_ok _ _ _ (w_loc w) Hst _ _ _ E) as [V1 _].
    rewrite body_length in W.
    assert (Ha' : attrs_ok (step_worker cam i s) (w_kind w)).
    { destruct Ha as [Hv Hk]. split; [congruence|].
      destruct (w_kind w); cbn in *;
        rewrite ?(cfg_output _ _ C), ?(cfg_outframe _ _ C), ?(cfg_vdma _ _ C),
          ?(cfg_dp _ _ C); exact Hk. }
    unfold alive in Hth. rewrite Epc in Hth.
    destruct (Nat.ltb (S j) (body_len (w_kind w))) eqn:El;
      [apply Nat.ltb_lt in El | apply Nat.ltb_ge in El];
      (eexists; split; [exact W|]); unfold wf_worker, dist, alive;
      cbn [w_kind w_pc w_loc];
      (split; [split; [exact Ha'|]|split; [lia | congruence]]).
    + split; [exact El | exact Hl'].
    + exact I.
  - (* the release *)
    unfold step_worker. rewrite Hw. unfold worker_step. rewrite Epc.
    unfold lock_release. unfold alive in Hth. rewrite Epc in Hth. rewrite Hth.
    cbn. eexists. split; [apply list_lookup_insert_eq; exact Hi'|].
    split; [split; [exact Ha | exact I]|]. unfold dist. cbn. split; [lia | reflexivity].
  - rewrite (step_dead cam i s w Hw) by (unfold alive; rewrite Epc; reflexivity).
    exists w. split; [exact Hw|]. split; [split; [exact Ha | rewrite Epc; exact I]|].
    unfold dist. rewrite Epc. split; [lia | exact Hth].
  - contradiction.
Qed.

Lemma alive_count_pos ws j (wj : Worker) :
  ws !! j = Some wj -> alive wj = true -> 1 <= alive_count ws.
Proof.
  revert j. induction ws as [|x ws IH]; intros [|j]; cbn; try discriminate.
  - intros [= ->] ->. lia.
  - intros H Ha. specialize (IH _ H Ha). lia.
Qed.

Lemma alive_count_two ws i j (w wj : Worker) :
  i <> j -> ws !! i = Some w -> ws !! j = Some wj ->
  alive w = true -> alive wj = true -> 2 <= alive_count ws.
Proof.
  revert i j. induction ws as [|x ws IH]; intros [|i] [|j] Hne; cbn;
    try discriminate; try congruence.
  - intros [= ->] Hj -> Ha. pose proof (alive_count_pos _ _ _ Hj Ha). lia.
  - intros Hi [= ->] Ha ->. pose proof (alive_count_pos _ _ _ Hi Ha). lia.
  - intros Hi Hj Ha Hb.
    assert (i <> j) by congruence.
    pose proof (IH i j H Hi Hj Ha Hb). lia.
Qed.

Lemma other_worker_stutters i j (s : Sys Dev) w :
  lock_inv s -> workers s !! i = Some w -> f_thread s = alive w -> j <> i ->
  step_worker cam j s = s.
Proof.
  intros [H1 H0] Hw Hth Hne.
  destruct (workers s !! j) as [wj|] eqn:Hj;
    [|unfold step_worker; rewrite Hj; reflexivity].
  apply (step_dead cam j s wj Hj).
  destruct (alive wj) eqn:Haj; [exfalso|reflexivity].
  destruct (alive w) eqn:Ha.
  - pose proof (alive_count_two _ i j w wj (not_eq_sym Hne) Hw Hj Ha Haj). lia.
  - specialize (H0 Hth). pose proof (alive_count_pos _ _ _ Hj Haj). lia.
Qed.

Lemma exiting_mono i n m (s : Sys Dev) : exiting i n s -> n <= m -> exiting i m s.
Proof.
  intros (Hr & Hi & w & Hw & Hwf & Hd & Hth) Hle.
  split; [exact Hr|]. split; [exact Hi|]. exists w.
  split; [exact Hw|]. split; [exact Hwf|]. split; [lia | exact Hth].
Qed.

Lemma returned_run_Fin {A} sched (s : Sys Dev) (a : A) :
  returned (run cam sched (Fin s a)) = true.
Proof. destruct (run_Fin cam sched s a) as [ix ->]. reflexivity. Qed.

(** Once the worker has had its steps, the caller that polls the lock gets
    through when it is scheduled. *)
Lemma exit_run i sched2 K fin sched1 : forall n (s : Sys Dev),
  exiting i n s -> n <= worker_turns i sched1 ->
  (forall x, K x = Fin (fin x) tt) ->
  returned (run cam (sched1 ++ TMain :: sched2) (Blk s lock_free K)) = true.
Proof.
  induction sched1 as [|t sched1 IH]; intros n s Hex Hn HK.
  - cbn in Hn. destruct Hex as (_ & _ & w & Hw & [_ Hpc] & Hd & Hth).
    assert (Hal : alive w = false).
    { unfold dist in Hd. unfold alive. destruct (w_pc w); try lia; try reflexivity. }
    cbn. unfold lock_free at 1. rewrite Hth, Hal. cbn. rewrite HK.
    apply returned_run_Fin.
  - destruct t as [|j]; cbn.
    + destruct (lock_free s) eqn:Hf.
      * rewrite HK. apply returned_run_Fin.
      * apply (IH n s Hex Hn HK).
    + cbn in Hn. destruct (Nat.eqb i j) eqn:Eij.
      * apply Nat.eqb_eq in Eij. subst j.
        apply (IH (pred n) _ (exiting_step i n s Hex)); [lia | exact HK].
      * apply Nat.eqb_neq in Eij.
        destruct Hex as (Hr & Hi & w & Hw & Hwf & Hd & Hth).
        rewrite (other_worker_stutters i j s w Hi Hw Hth) by congruence.
        apply (IH n s); [|lia | exact HK].
        split; [exact Hr|]. split; [exact Hi|]. exists w. auto.
Qed.

End Progress.


(** X10.  [stop] on a source that never fails to read comes back: once the
    copy loop has been given eight steps (enough to finish the iteration it
    is in, see the flag clear and release the lock) and the caller is
    scheduled after that, [VideoFile.stop], [FileDisplayPort.stop] and
    [PSVideo.stop] have returned, however the steps of the threads were
    interleaved. *)
Theorem stop_returns_once_loop_has_run {Dev} (cam : Camera Dev) (s : Sys Dev)
    i w sched1 sched2 :
  (forall d, snd (cam_read cam d) <> None) ->
  lock_inv s -> truthy (f_videoIn s) = true ->
  workers s !! i = Some w -> alive w = true -> wf_worker s w ->
  f_thread s = true ->
  8 <= worker_turns i sched1 ->
  returned (run cam (sched1 ++ TMain :: sched2) (VideoFile_stop cam s)) = true /\
  returned (run cam (sched1 ++ TMain :: sched2) (FileDisplayPort_stop cam s)) = true /\
  (truthy (p_started s) = true ->
   returned (run cam (sched1 ++ TMain :: sched2) (PSVideo_stop cam s)) = true).
Proof.
  intros Hrd Hinv Hv Hw Hal Hwf Hth Hn.
  assert (Hex : exiting i 8 (set_running (Some false) s)).
  { split; [reflexivity|]. split; [exact Hinv|]. exists w.
    split; [exact Hw|]. split; [exact Hwf|].
    split; [apply (dist_le_8 s), Hwf | cbn; congruence]. }
  split; [|split].
  - destruct (VideoFile_stop_shape cam s Hv) as (K & -> & HK).
    apply (exit_run cam Hrd i sched2 K _ sched1 8 _ Hex Hn HK).
  - destruct (FileDisplayPort_stop_shape cam s Hv) as (K & -> & HK).
    apply (exit_run cam Hrd i sched2 K _ sched1 8 _ Hex Hn HK).
  - intros Hst. destruct (PSVideo_stop_shape cam s Hst Hv) as (K & -> & HK).
    apply (exit_run cam Hrd i sched2 K _ sched1 8 _ Hex Hn HK).
Qed.

Lemma stop_returns_once_loop_has_run_witness :
  let sched := [TWorker 0; TMain; TWorker 0; TWorker 0; TWorker 0; TWorker 1;
                TWorker 0; TWorker 0; TWorker 0; TWorker 0] ++ TMain :: [] in
  returned (run live_cam sched (VideoFile_stop live_cam (state_of ps_running))) = true /\
  returned (run live_cam sched (FileDisplayPort_stop live_cam (state_of ps_running)))
  = true /\
  returned (run live_cam sched (PSVideo_stop live_cam (state_of ps_running))) = true.
Proof.
  destruct (stop_returns_once_loop_has_run live_cam (state_of ps_running) 0
              (mkWorker K_tievdma (WStmt 1) (mkLocals (Some 2) (Some 1)))
              [TWorker 0; TMain; TWorker 0; TWorker 0; TWorker 0; TWorker 1;
               TWorker 0; TWorker 0; TWorker 0; TWorker 0] [])
    as (H1 & H2 & H3).
  - intros d. discriminate.
  - vm_compute. split; [lia | discriminate].
  - vm_compute. reflexivity.
  - vm_compute. reflexivity.
  - reflexivity.
  - vm_compute. repeat split; (discriminate || lia).
  - vm_compute. reflexivity.
  - cbn. lia.
  - split; [exact H1|]. split; [exact H2|]. apply H3. vm_compute. reflexivity.
Defined.

(** ** Constructors and calls on a source that is not started *)

(** X11.  The constructor of [PSVideo] accepts an [int] or a [str] as file
    name and raises [ValueError] for anything else: the type checks of the
    inner constructors never fire.  All it does to the devices is to assign
    the mode to the write and the read channel of the VDMA, if there is
    one, and then to build the display port; no capture is opened.  What
    it returns is ready for [start]: not started, not paused, the lock
    free, no thread. *)
Theorem psvideo_init_ready {Dev} vdma mode filename dp (d : Dev) :
  match PSVideo_init vdma mode filename dp d with
  | Ok s =>
      (isinstance_int filename || isinstance_str filename = true) /\
      f_file s = filename /\ f_vdma s = vdma /\ p_dp s = dp /\
      f_mode s = mode /\ p_mode s = mode /\
      f_videoIn s = None /\ f_running s = None /\ f_thread s = false /\
      p_started s = None /\ p_pause s = None /\
      workers s = [] /\
      trace s = (if vdma
                 then [EvChanMode PWriteChannel mode; EvChanMode PReadChannel mode]
                 else []) ++ [EvDpNew dp] /\
      dev s = d /\ lock_inv s
  | Err e =>
      isinstance_int filename || isinstance_str filename = false /\
      e = ValueError "wrong type"
  end.
Proof.
  destruct filename, vdma; cbn; repeat split; cbn; lia.
Qed.

(** X12.  On a source that is not started [tie] raises [SystemError]
    before it has done anything: no buffer is taken, the lock is not
    acquired, no thread is started.  [FileDisplayPort.stop] on such a
    source releases no capture, but it still stops the two channels of the
    VDMA when there is one. *)
Theorem calls_on_a_source_not_started {Dev} (cam : Camera Dev) (s : Sys Dev)
    output :
  truthy (f_videoIn s) = false ->
  VideoFile_tie output s = Exc s (SystemError "The stream is not started") /\
  FileDisplayPort_tie output s = Exc s (SystemError "The stream is not started") /\
  FileDisplayPort_stop cam s
  = Fin (if f_vdma s
         then emit (EvChanStop PReadChannel) (emit (EvChanStop PWriteChannel) s)
         else s) tt.
Proof.
  intros Hv. unfold VideoFile_tie, FileDisplayPort_tie, FileDisplayPort_stop,
    tbind, VideoFile_stop. rewrite Hv. cbn.
  destruct (f_vdma s); auto.
Qed.

Lemma calls_on_a_source_not_started_witness :
  VideoFile_tie 9 ps_fresh = Exc ps_fresh (SystemError "The stream is not started") /\
  FileDisplayPort_tie 9 ps_fresh
  = Exc ps_fresh (SystemError "The stream is not started") /\
  FileDisplayPort_stop live_cam ps_fresh
  = Fin (if f_vdma ps_fresh
         then emit (EvChanStop PReadChannel) (emit (EvChanStop PWriteChannel) ps_fresh)
         else ps_fresh) tt.
Proof.
  apply (calls_on_a_source_not_started live_cam ps_fresh 9). reflexivity.
Defined.

(** ** HDMIVideo *)

(** X13.  The constructor of [HDMIVideo] succeeds exactly on a Pynq-ZU with
    [VSource.HDMI] or [VSource.MIPI]; a string is never accepted.  It then
    takes [ol.mipi] as input, never sets the PHY of [hdmi_in], and writes
    [tx_en_out] exactly when it reads 0 there. *)
Theorem hdmi_init_accepts {ol : HDMI.Overlay} {source : HDMI.PyVal} :
  match HDMI.init ol source with
  | Ok h =>
      HDMI.device_name ol = "Pynq-ZU" /\
      (source = HDMI.VEnum HDMI.HDMI \/ source = HDMI.VEnum HDMI.MIPI) /\
      HDMI._source h = source /\ HDMI._started h = None /\
      HDMI._source_in h = HDMI.mipi /\
      HDMI.log h
      = [HDMI.HResetWrite; HDMI.HSleep; HDMI.HPhyInitialize;
         HDMI.HSetPhy false; HDMI.HSetClocks]
        ++ (if Z.eqb (HDMI.tx_en_out ol) 0 then [HDMI.HTxEnWrite] else [])
  | Err e =>
      (HDMI.device_name ol <> "Pynq-ZU" \/
       (source <> HDMI.VEnum HDMI.HDMI /\ source <> HDMI.VEnum HDMI.MIPI)) /\
      exists msg, e = ValueError msg
  end.
Proof.
  unfold HDMI.init.
  destruct (String.eqb_spec (HDMI.device_name ol) "Pynq-ZU") as [Hn|Hn].
  - destruct source as [[]|str]; cbn; try destruct (Z.eqb _ _); cbn;
      repeat split; eauto; right; split; discriminate.
  - destruct source as [[]|str]; cbn; split; eauto.
Qed.

(** X14.  [HDMIVideo] can be started again after [stop]: on a facade that
    is not started, [start(); stop(); start()] configures, starts and ties
    input and output, closes the output and then the input, and
    configures, starts and ties them again; the facade is started. *)
Theorem hdmi_restart (h : HDMI.HDMIVideo) :
  truthy (HDMI._started h) = false ->
  let up := [if HDMI.py_eq (HDMI._source h) (HDMI.VStr "HDMI")
             then HDMI.HConfigureIn (HDMI._source_in h) None
             else HDMI.HConfigureIn (HDMI._source_in h) (Some HDMI.fixed_mode);
            HDMI.HConfigureOut; HDMI.HStartIn; HDMI.HStartOut; HDMI.HTie] in
  let h3 := HDMI.start (HDMI.stop (HDMI.start h)) in
  HDMI._started h3 = Some true /\
  HDMI._started (HDMI.stop (HDMI.start h)) = Some false /\
  HDMI.log h3 = HDMI.log h ++ up ++ [HDMI.HCloseOut; HDMI.HCloseIn] ++ up.
Proof.
  intros Hst. unfold HDMI.start, HDMI.stop. rewrite Hst. cbn.
  repeat split. rewrite <- !app_assoc. reflexivity.
Qed.

Lemma hdmi_restart_witness :
  let h := HDMI.mkHDMIVideo (HDMI.VEnum HDMI.MIPI) None HDMI.mipi [] in
  let up := [HDMI.HConfigureIn HDMI.mipi (Some HDMI.fixed_mode);
             HDMI.HConfigureOut; HDMI.HStartIn; HDMI.HStartOut; HDMI.HTie] in
  let h3 := HDMI.start (HDMI.stop (HDMI.start h)) in
  HDMI._started h3 = Some true /\
  HDMI._started (HDMI.stop (HDMI.start h)) = Some false /\
  HDMI.log h3 = HDMI.log h ++ up ++ [HDMI.HCloseOut; HDMI.HCloseIn] ++ up.
Proof.
  apply (hdmi_restart (HDMI.mkHDMIVideo (HDMI.VEnum HDMI.MIPI) None HDMI.mipi [])).
  reflexivity.
Defined.
